(** * basis_wrappers.cpp: the WebAssembly wrappers of the Basis Universal transcoder

    A shallow embedding of [webgl/transcoder/basis_wrappers.cpp] and the
    properties of its size computations, container queries, marshalling
    helpers and one-time initialisation.

    Conventions of the embedding.
    - [uint32_t] values are integers of [Z]; every 32-bit operation that can
      wrap is written with [u32] (reduction modulo 2^32).
    - A [std::vector<uint8_t>] and a JavaScript [Uint8Array] are lists of
      bytes. A (pointer, size) pair handed to the transcoder is the list of
      the [size] bytes behind the pointer.
    - [assert] is kept: with [NDEBUG = false] a failed assertion stops the
      program ([Aborts]), with [NDEBUG = true] it is compiled out and the
      statement after it runs.
    - A method is a state transformer on its object, in the monad [M].
    - The transcoder library itself ([basisu_transcoder.h], namespace
      [basist]) is a parameter of the development: the record [basist]. *)

From Stdlib Require Import String.
From Stdlib Require Import ZArith List Bool Lia.
From Stdlib Require Import Init.Byte.
Import ListNotations.
Local Open Scope Z_scope.

(** ** 32-bit unsigned arithmetic *)

Definition u32 (z : Z) : Z := z mod 2 ^ 32.

(** [int] value holding the bits of an unsigned 32-bit value (the
    conversion done by [m_magic = MAGIC]). *)
Definition to_int (z : Z) : Z :=
  if u32 z <? 2 ^ 31 then u32 z else u32 z - 2 ^ 32.

(** ** Byte buffers *)

Definition bytes : Type := list byte.

(** [std::vector<uint8_t>(n)] and [resize(n)] on an empty vector: [n] zero bytes. *)
Definition zeros (n : Z) : bytes := repeat x00 (Z.to_nat n).

Definition size (v : bytes) : Z := Z.of_nat (length v).

(** Bytes written through a pointer to the start of [buf]: [src] replaces the
    front of [buf]. The result is [buf] as it reads afterwards: its length
    never changes, and of a [src] longer than [buf] only the part that lies
    in [buf] shows. *)
Definition poke (buf src : bytes) : bytes :=
  firstn (length buf) (src ++ skipn (length src) buf).

(** The store of [src] through a pointer to the start of [buf] ends inside
    [buf]. A store that does not has run past the end of the buffer, into
    whatever the heap holds behind it; what that does to the program is not
    modelled, so every statement about the bytes a transcoder left in a
    vector is made for a store that [stays_inside] it. *)
Definition stays_inside (buf src : bytes) : Prop := size src <= size buf.

(** ** JavaScript typed arrays *)

(** A [Uint8Array] passed in from JavaScript. [length] and [byteLength]
    coincide. *)
Definition jsbuffer : Type := bytes.

Definition byteLength (b : jsbuffer) : Z := size b.

Inductive js_error : Type :=
| RangeError      (* thrown by TypedArray.prototype.set *)
| RuntimeError.   (* WebAssembly trap: integer division by zero *)

(** [dst.set(src)] at offset 0: throws when [src] is longer than [dst],
    copies all of [src] otherwise. Nothing is written when it throws. *)
Definition js_set (dst src : jsbuffer) : js_error + jsbuffer :=
  if size src <=? size dst
  then inr (src ++ skipn (length src) dst)
  else inl RangeError.

(** ** Outcomes and the method monad *)

Inductive outcome (A : Type) : Type :=
| Returns (a : A)          (* the call returns [a] *)
| Throws (e : js_error)    (* a JavaScript exception leaves the call *)
| Aborts (expr : string).  (* [assert(expr)] failed *)

Arguments Returns {A} a.
Arguments Throws {A} e.
Arguments Aborts {A} expr%_string.

Definition M (St A : Type) : Type := St -> outcome A * St.

Definition ret {St A : Type} (a : A) : M St A := fun s => (Returns a, s).

Definition bind {St A B : Type} (m : M St A) (k : A -> M St B) : M St B :=
  fun s =>
    match m s with
    | (Returns a, s') => k a s'
    | (Throws e, s') => (Throws e, s')
    | (Aborts x, s') => (Aborts x, s')
    end.

Definition get {St : Type} : M St St := fun s => (Returns s, s).

Definition put {St : Type} (s : St) : M St unit := fun _ => (Returns tt, s).

Definition throw {St A : Type} (e : js_error) : M St A := fun s => (Throws e, s).

Notation "x <- m ;; k" := (bind m (fun x => k))
  (at level 61, m at next level, right associativity).
Notation "m ;; k" := (bind m (fun _ => k))
  (at level 61, right associativity).

(** [assert(c)], [expr] being the text of the asserted expression. *)
Definition assert_ {St : Type} (NDEBUG : bool) (c : bool) (expr : string) : M St unit :=
  fun s => if NDEBUG || c then (Returns tt, s) else (Aborts expr, s).

Arguments assert_ {St} NDEBUG c expr%_string.

(** Unsigned division as WebAssembly runs it: a zero divisor traps. *)
Definition udiv {St : Type} (a b : Z) : M St Z :=
  if b =? 0 then throw RuntimeError else ret (a / b).

Definition aborted {A : Type} (o : outcome A) : bool :=
  match o with Aborts _ => true | _ => false end.

(** ** The structures of the wrapper *)

Definition MAGIC : Z := 0xDEADBEE1.

Record basis_file_desc : Type := {
  m_version : Z;
  m_us_per_frame : Z;
  m_total_images : Z;
  m_userdata0 : Z;
  m_userdata1 : Z;
  m_tex_format : Z;
  m_y_flipped : bool;
  m_has_alpha_slices : bool;
  m_num_endpoints : Z;
  m_endpoint_palette_ofs : Z;
  m_endpoint_palette_len : Z;
  m_num_selectors : Z;
  m_selector_palette_ofs : Z;
  m_selector_palette_len : Z;
  m_tables_ofs : Z;
  m_tables_len : Z
}.

Record basis_image_desc : Type := {
  m_orig_width : Z;
  m_orig_height : Z;
  m_num_blocks_x : Z;
  m_num_blocks_y : Z;
  m_num_levels : Z;
  m_alpha_flag : bool;
  m_iframe_flag : bool
}.

Record basis_image_level_desc : Type := {
  m_rgb_file_ofs : Z;
  m_rgb_file_len : Z;
  m_alpha_file_ofs : Z;
  m_alpha_file_len : Z
}.

(** [memset(&result, 0, sizeof(result))] *)
Definition zero_file_desc : basis_file_desc :=
  {| m_version := 0; m_us_per_frame := 0; m_total_images := 0;
     m_userdata0 := 0; m_userdata1 := 0; m_tex_format := 0;
     m_y_flipped := false; m_has_alpha_slices := false;
     m_num_endpoints := 0; m_endpoint_palette_ofs := 0; m_endpoint_palette_len := 0;
     m_num_selectors := 0; m_selector_palette_ofs := 0; m_selector_palette_len := 0;
     m_tables_ofs := 0; m_tables_len := 0 |}.

Definition zero_image_desc : basis_image_desc :=
  {| m_orig_width := 0; m_orig_height := 0; m_num_blocks_x := 0;
     m_num_blocks_y := 0; m_num_levels := 0;
     m_alpha_flag := false; m_iframe_flag := false |}.

Definition zero_image_level_desc : basis_image_level_desc :=
  {| m_rgb_file_ofs := 0; m_rgb_file_len := 0;
     m_alpha_file_ofs := 0; m_alpha_file_len := 0 |}.

(** ** The transcoder library, as the wrappers use it

    [basisu_transcoder.h] is not part of this module. What the wrappers take
    from it is gathered in one record. A texture format is the underlying
    value of its [transcoder_texture_format] enumerator. A method that
    returns [bool] and fills reference parameters is a function to [option];
    the query methods are [const] and leave the transcoder object alone. A
    method that writes through an output pointer receives the buffer's
    current bytes and returns the bytes it wrote from the start of it. *)

Module basisu_file_info.
Record t : Type := {
  m_version : Z;
  m_us_per_frame : Z;
  m_total_images : Z;
  m_userdata0 : Z;
  m_userdata1 : Z;
  m_tex_format : Z;
  m_y_flipped : bool;
  m_has_alpha_slices : bool;
  m_total_endpoints : Z;
  m_endpoint_codebook_ofs : Z;
  m_endpoint_codebook_size : Z;
  m_total_selectors : Z;
  m_selector_codebook_ofs : Z;
  m_selector_codebook_size : Z;
  m_tables_ofs : Z;
  m_tables_size : Z
}.
End basisu_file_info.

Module basisu_image_info.
Record t : Type := {
  m_orig_width : Z;
  m_orig_height : Z;
  m_num_blocks_x : Z;
  m_num_blocks_y : Z;
  m_total_levels : Z;
  m_alpha_flag : bool;
  m_iframe_flag : bool
}.
End basisu_image_info.

Module basisu_image_level_info.
Record t : Type := {
  m_alpha_flag : bool;
  m_rgb_file_ofs : Z;
  m_rgb_file_len : Z;
  m_alpha_file_ofs : Z;
  m_alpha_file_len : Z
}.
End basisu_image_level_info.

Record basist : Type := {
  (* enum class transcoder_texture_format and the decode flags *)
  cTFPVRTC1_4_RGB : Z;
  cTFPVRTC1_4_RGBA : Z;
  cTFTotalTextureFormats : Z;
  cDecodeFlagsTranscodeAlphaDataToOpaqueFormats : Z;
  cUASTC4x4 : Z;
  (* the format helpers *)
  basis_transcoder_format_is_uncompressed : Z -> bool;
  basis_get_uncompressed_bytes_per_pixel : Z -> Z;
  basis_get_bytes_per_block_or_pixel : Z -> Z;
  (* process-wide state and its initialisation *)
  lib_globals : Type;
  basisu_transcoder_init : lib_globals -> lib_globals;
  basisu_encoder_init : lib_globals -> lib_globals;
  (* etc1_global_selector_codebook(g_global_selector_cb_size, g_global_selector_cb) *)
  etc1_global_selector_codebook : Type;
  new_codebook : etc1_global_selector_codebook;
  (* class basisu_transcoder *)
  basisu_transcoder : Type;
  new_transcoder : option etc1_global_selector_codebook -> basisu_transcoder;
  validate_header : basisu_transcoder -> bytes -> bool;
  get_total_images : basisu_transcoder -> bytes -> Z;
  get_tex_format : basisu_transcoder -> bytes -> Z;
  get_file_info : basisu_transcoder -> bytes -> option basisu_file_info.t;
  get_image_info : basisu_transcoder -> bytes -> Z -> option basisu_image_info.t;
  get_image_level_info :
    basisu_transcoder -> bytes -> Z -> Z -> option basisu_image_level_info.t;
  (* (orig_width, orig_height, total_blocks) *)
  get_image_level_desc : basisu_transcoder -> bytes -> Z -> Z -> option (Z * Z * Z);
  start_transcoding : basisu_transcoder -> bytes -> bool * basisu_transcoder;
  (* transcode_image_level(pData/data_size, image_index, level_index,
       pOutput_blocks, output_blocks_buf_size_in_blocks_or_pixels, fmt,
       decode_flags, output_row_pitch_in_blocks_or_pixels, output_rows_in_pixels) *)
  transcode_image_level :
    basisu_transcoder -> bytes -> Z -> Z -> bytes -> Z -> Z -> Z -> Z -> Z ->
    bool * bytes * basisu_transcoder;
  (* class basisu_lowlevel_etc1s_transcoder and its video state *)
  basisu_lowlevel_etc1s_transcoder : Type;
  basisu_transcoder_state : Type;
  new_lowlevel_etc1s : option etc1_global_selector_codebook -> basisu_lowlevel_etc1s_transcoder;
  new_transcoder_state : basisu_transcoder_state;
  etc1s_decode_palettes :
    basisu_lowlevel_etc1s_transcoder -> Z -> bytes -> Z -> bytes ->
    bool * basisu_lowlevel_etc1s_transcoder;
  etc1s_decode_tables :
    basisu_lowlevel_etc1s_transcoder -> bytes -> bool * basisu_lowlevel_etc1s_transcoder;
  (* the scalar arguments of the two low-level transcode_image calls, which
     the wrappers forward as they receive them *)
  etc1s_image_args : Type;
  uastc_image_args : Type;
  (* basisu_lowlevel_etc1s_transcoder::transcode_image(args, pDst_blocks, pImage_data, pState) *)
  etc1s_transcode_image :
    basisu_lowlevel_etc1s_transcoder -> basisu_transcoder_state ->
    etc1s_image_args -> bytes -> bytes ->
    bool * bytes * basisu_lowlevel_etc1s_transcoder * basisu_transcoder_state;
  (* basisu_lowlevel_uastc_transcoder::transcode_image(args, pDst_blocks, pImage_data),
     on a transcoder object local to the call *)
  uastc_transcode_image : uastc_image_args -> bytes -> bytes -> bool * bytes
}.

(** ** Process-wide state: [g_pGlobal_codebook] and what the library keeps *)

Record globals (T : basist) : Type := {
  g_pGlobal_codebook : option (etc1_global_selector_codebook T);
  g_lib : lib_globals T
}.

Arguments g_pGlobal_codebook {T} g.
Arguments g_lib {T} g.

Definition basis_init (BASISU_SUPPORT_ENCODING : bool) (T : basist)
    (g : globals T) : globals T :=
  match g_pGlobal_codebook g with
  | Some _ => g
  | None =>
      let l := if BASISU_SUPPORT_ENCODING then basisu_encoder_init T (g_lib g) else g_lib g in
      let l := basisu_transcoder_init T l in
      {| g_pGlobal_codebook := Some (new_codebook T); g_lib := l |}
  end.

(** [copy_from_jsbuffer]: the vector is resized to the array's length and
    the array is copied over it. *)
Definition copy_from_jsbuffer (srcBuffer : jsbuffer) : bytes :=
  let dstVec := zeros (size srcBuffer) in
  poke dstVec srcBuffer.

(** Runs a computation on a JavaScript array that is one part of a larger state. *)
Definition on_part {St P A : Type} (proj : St -> P) (upd : P -> St -> St)
    (m : M P A) : M St A :=
  fun s => let '(o, p) := m (proj s) in (o, upd p s).

(** ** struct basis_file *)

Record basis_file (T : basist) : Type := {
  m_magic : Z;
  m_transcoder : basisu_transcoder T;
  m_file : bytes
}.

Arguments m_magic {T} b.
Arguments m_transcoder {T} b.
Arguments m_file {T} b.

(** [m_magic == MAGIC]: the [int] is converted to [unsigned]. *)
Definition magic_ok {T : basist} (self : basis_file T) : bool :=
  u32 (m_magic self) =? MAGIC.

(** The state [transcodeImage] works on: the object, the destination array
    [dst], and a record of the [dst_data] vectors the call has sized (their
    byte counts, in order). *)
Record tc_world (T : basist) : Type := {
  w_self : basis_file T;
  w_dst : jsbuffer;
  w_allocated : list Z
}.

Arguments w_self {T} t.
Arguments w_dst {T} t.
Arguments w_allocated {T} t.

Section Wrappers.

Variable NDEBUG : bool.
Variable T : basist.

(** [copy_to_jsbuffer(dstBuffer, srcVec)], the state being [dstBuffer]. The
    comparison [srcVec.size() > dstBufferLen] is the comparison of the two
    lengths (both are below 2^31). *)
Definition copy_to_jsbuffer (srcVec : bytes) : M jsbuffer bool :=
  if size srcVec =? 0 then ret false
  else
    dstBuffer <- get ;;
    let dstBufferLen := byteLength dstBuffer in
    if dstBufferLen <? size srcVec then
      assert_ NDEBUG false "0" ;;
      ret false
    else
      match js_set dstBuffer srcVec with
      | inr written => put written ;; ret true
      | inl e => throw e
      end.

(** The constructor [basis_file(jsBuffer)]; the state is the process-wide one. *)
Definition basis_file_new (jsBuffer : jsbuffer) : M (globals T) (basis_file T) :=
  g <- get ;;
  let file := zeros (byteLength jsBuffer) in
  let transcoder := new_transcoder T (g_pGlobal_codebook g) in
  match g_pGlobal_codebook g with
  | None =>
      assert_ NDEBUG false "0" ;;
      ret {| m_magic := 0; m_transcoder := transcoder; m_file := file |}
  | Some _ =>
      let file := poke file jsBuffer in
      let file := if validate_header T transcoder file then file else [] in
      ret {| m_magic := to_int MAGIC; m_transcoder := transcoder; m_file := file |}
  end.

Definition close : M (basis_file T) unit :=
  self <- get ;;
  assert_ NDEBUG (magic_ok self) "m_magic == MAGIC" ;;
  put {| m_magic := m_magic self; m_transcoder := m_transcoder self; m_file := [] |}.

Definition getHasAlpha : M (basis_file T) Z :=
  self <- get ;;
  assert_ NDEBUG (magic_ok self) "m_magic == MAGIC" ;;
  if negb (magic_ok self) then ret 0
  else
    match get_image_level_info T (m_transcoder self) (m_file self) 0 0 with
    | None => ret 0
    | Some li => ret (Z.b2z (basisu_image_level_info.m_alpha_flag li))
    end.

Definition getNumImages : M (basis_file T) Z :=
  self <- get ;;
  assert_ NDEBUG (magic_ok self) "m_magic == MAGIC" ;;
  if negb (magic_ok self) then ret 0
  else ret (get_total_images T (m_transcoder self) (m_file self)).

Definition getNumLevels (image_index : Z) : M (basis_file T) Z :=
  self <- get ;;
  assert_ NDEBUG (magic_ok self) "m_magic == MAGIC" ;;
  if negb (magic_ok self) then ret 0
  else
    match get_image_info T (m_transcoder self) (m_file self) image_index with
    | None => ret 0
    | Some ii => ret (basisu_image_info.m_total_levels ii)
    end.

Definition getImageWidth (image_index level_index : Z) : M (basis_file T) Z :=
  self <- get ;;
  assert_ NDEBUG (magic_ok self) "m_magic == MAGIC" ;;
  if negb (magic_ok self) then ret 0
  else
    match get_image_level_desc T (m_transcoder self) (m_file self) image_index level_index with
    | None => ret 0
    | Some (orig_width, orig_height, total_blocks) => ret orig_width
    end.

Definition getImageHeight (image_index level_index : Z) : M (basis_file T) Z :=
  self <- get ;;
  assert_ NDEBUG (magic_ok self) "m_magic == MAGIC" ;;
  if negb (magic_ok self) then ret 0
  else
    match get_image_level_desc T (m_transcoder self) (m_file self) image_index level_index with
    | None => ret 0
    | Some (orig_width, orig_height, total_blocks) => ret orig_height
    end.

Definition getFileDesc : M (basis_file T) basis_file_desc :=
  self <- get ;;
  let result := zero_file_desc in
  assert_ NDEBUG (magic_ok self) "m_magic == MAGIC" ;;
  if negb (magic_ok self) then ret result
  else
    match get_file_info T (m_transcoder self) (m_file self) with
    | None =>
        assert_ NDEBUG false "0" ;;
        ret result
    | Some file_info =>
        ret {| m_version := basisu_file_info.m_version file_info;
               m_us_per_frame := basisu_file_info.m_us_per_frame file_info;
               m_total_images := basisu_file_info.m_total_images file_info;
               m_userdata0 := basisu_file_info.m_userdata0 file_info;
               m_userdata1 := basisu_file_info.m_userdata1 file_info;
               m_tex_format := basisu_file_info.m_tex_format file_info;
               m_y_flipped := basisu_file_info.m_y_flipped file_info;
               m_has_alpha_slices := basisu_file_info.m_has_alpha_slices file_info;
               m_num_endpoints := basisu_file_info.m_total_endpoints file_info;
               m_endpoint_palette_ofs := basisu_file_info.m_endpoint_codebook_ofs file_info;
               m_endpoint_palette_len := basisu_file_info.m_endpoint_codebook_size file_info;
               m_num_selectors := basisu_file_info.m_total_selectors file_info;
               m_selector_palette_ofs := basisu_file_info.m_selector_codebook_ofs file_info;
               m_selector_palette_len := basisu_file_info.m_selector_codebook_size file_info;
               m_tables_ofs := basisu_file_info.m_tables_ofs file_info;
               m_tables_len := basisu_file_info.m_tables_size file_info |}
    end.

Definition getImageDesc (image_index : Z) : M (basis_file T) basis_image_desc :=
  self <- get ;;
  let result := zero_image_desc in
  assert_ NDEBUG (magic_ok self) "m_magic == MAGIC" ;;
  if negb (magic_ok self) then ret result
  else
    match get_image_info T (m_transcoder self) (m_file self) image_index with
    | None =>
        assert_ NDEBUG false "0" ;;
        ret result
    | Some image_info =>
        ret {| m_orig_width := basisu_image_info.m_orig_width image_info;
               m_orig_height := basisu_image_info.m_orig_height image_info;
               m_num_blocks_x := basisu_image_info.m_num_blocks_x image_info;
               m_num_blocks_y := basisu_image_info.m_num_blocks_y image_info;
               m_num_levels := basisu_image_info.m_total_levels image_info;
               m_alpha_flag := basisu_image_info.m_alpha_flag image_info;
               m_iframe_flag := basisu_image_info.m_iframe_flag image_info |}
    end.

Definition getImageLevelDesc (image_index level_index : Z)
    : M (basis_file T) basis_image_level_desc :=
  self <- get ;;
  let result := zero_image_level_desc in
  assert_ NDEBUG (magic_ok self) "m_magic == MAGIC" ;;
  if negb (magic_ok self) then ret result
  else
    match get_image_level_info T (m_transcoder self) (m_file self) image_index level_index with
    | None =>
        assert_ NDEBUG false "0" ;;
        ret result
    | Some image_info =>
        ret {| m_rgb_file_ofs := basisu_image_level_info.m_rgb_file_ofs image_info;
               m_rgb_file_len := basisu_image_level_info.m_rgb_file_len image_info;
               m_alpha_file_ofs := basisu_image_level_info.m_alpha_file_ofs image_info;
               m_alpha_file_len := basisu_image_level_info.m_alpha_file_len image_info |}
    end.

Definition getImageTranscodedSizeInBytes (image_index level_index format : Z)
    : M (basis_file T) Z :=
  self <- get ;;
  assert_ NDEBUG (magic_ok self) "m_magic == MAGIC" ;;
  if negb (magic_ok self) then ret 0
  else if cTFTotalTextureFormats T <=? format then ret 0
  else
    match get_image_level_desc T (m_transcoder self) (m_file self) image_index level_index with
    | None => ret 0
    | Some (orig_width, orig_height, total_blocks) =>
        let transcoder_format := format in
        if basis_transcoder_format_is_uncompressed T transcoder_format then
          let bytes_per_pixel := basis_get_uncompressed_bytes_per_pixel T transcoder_format in
          let bytes_per_line := u32 (orig_width * bytes_per_pixel) in
          let bytes_per_slice := u32 (bytes_per_line * orig_height) in
          ret bytes_per_slice
        else
          let bytes_per_block := basis_get_bytes_per_block_or_pixel T transcoder_format in
          if (transcoder_format =? cTFPVRTC1_4_RGB T)
             || (transcoder_format =? cTFPVRTC1_4_RGBA T) then
            let width := Z.land (u32 (orig_width + 3)) (u32 (Z.lnot 3)) in
            let height := Z.land (u32 (orig_height + 3)) (u32 (Z.lnot 3)) in
            let size_in_bytes :=
              u32 (u32 (u32 (Z.max 8 width * Z.max 8 height) * 4) + 7) / 8 in
            ret size_in_bytes
          else ret (u32 (total_blocks * bytes_per_block))
    end.

Definition isUASTC : M (basis_file T) bool :=
  self <- get ;;
  assert_ NDEBUG (magic_ok self) "m_magic == MAGIC" ;;
  if negb (magic_ok self) then ret false
  else ret (get_tex_format T (m_transcoder self) (m_file self) =? cUASTC4x4 T).

Definition startTranscoding : M (basis_file T) Z :=
  self <- get ;;
  assert_ NDEBUG (magic_ok self) "m_magic == MAGIC" ;;
  if negb (magic_ok self) then ret 0
  else
    let '(ok, transcoder) := start_transcoding T (m_transcoder self) (m_file self) in
    put {| m_magic := m_magic self; m_transcoder := transcoder; m_file := m_file self |} ;;
    ret (Z.b2z ok).

(** [dst_data.resize(n)] on the fresh vector: [n] zero bytes, recorded. *)
Definition resize (n : Z) : M (tc_world T) bytes :=
  fun w =>
    (Returns (zeros n),
     {| w_self := w_self w; w_dst := w_dst w; w_allocated := w_allocated w ++ [n] |}).

(** [m_transcoder.transcode_image_level(m_file.data(), m_file.size(), ...)]
    writing into [dst_data]. The transcoder is handed [dst_data.data()] and
    [capacity], a count of blocks or pixels, never the size of the vector:
    [written], the bytes it stored from that pointer on, can be longer than
    the vector, and then it has stored past its end. The vector returned is
    [dst_data] as [memoryView] reads it afterwards, [dst_data.size()] bytes
    ([poke]); whether the store stayed inside it is [stays_inside]. *)
Definition call_transcode_image_level (image_index level_index : Z) (dst_data : bytes)
    (capacity format flags row_pitch rows : Z) : M (tc_world T) (Z * bytes) :=
  fun w =>
    let self := w_self w in
    let '(ok, written, transcoder) :=
      transcode_image_level T (m_transcoder self) (m_file self) image_index level_index
        dst_data capacity format flags row_pitch rows in
    (Returns (Z.b2z ok, poke dst_data written),
     {| w_self := {| m_magic := m_magic self; m_transcoder := transcoder;
                     m_file := m_file self |};
        w_dst := w_dst w; w_allocated := w_allocated w |}).

(** [dst.call<void>("set", memoryView)] *)
Definition dst_set (memoryView : bytes) : M (tc_world T) unit :=
  fun w =>
    match js_set (w_dst w) memoryView with
    | inr written =>
        (Returns tt,
         {| w_self := w_self w; w_dst := written; w_allocated := w_allocated w |})
    | inl e => (Throws e, w)
    end.

Definition transcodeImage
    (image_index level_index format unused get_alpha_for_opaque_formats : Z)
    : M (tc_world T) Z :=
  w <- get ;;
  let self := w_self w in
  assert_ NDEBUG (magic_ok self) "m_magic == MAGIC" ;;
  if negb (magic_ok self) then ret 0
  else if cTFTotalTextureFormats T <=? format then ret 0
  else
    let transcoder_format := format in
    match get_image_level_desc T (m_transcoder self) (m_file self) image_index level_index with
    | None => ret 0
    | Some (orig_width, orig_height, total_blocks) =>
        let flags :=
          if get_alpha_for_opaque_formats =? 0 then 0
          else cDecodeFlagsTranscodeAlphaDataToOpaqueFormats T in
        if basis_transcoder_format_is_uncompressed T transcoder_format then
          let bytes_per_pixel := basis_get_uncompressed_bytes_per_pixel T transcoder_format in
          let bytes_per_line := u32 (orig_width * bytes_per_pixel) in
          let bytes_per_slice := u32 (bytes_per_line * orig_height) in
          dst_data <- resize bytes_per_slice ;;
          r <- call_transcode_image_level image_index level_index dst_data
                 (u32 (orig_width * orig_height)) transcoder_format flags
                 orig_width orig_height ;;
          let '(status, dst_data) := r in
          dst_set dst_data ;;
          ret status
        else
          let bytes_per_block := basis_get_bytes_per_block_or_pixel T transcoder_format in
          let required_size := u32 (total_blocks * bytes_per_block) in
          required_size <-
            (if (transcoder_format =? cTFPVRTC1_4_RGB T)
                || (transcoder_format =? cTFPVRTC1_4_RGBA T) then
               let width := Z.land (u32 (orig_width + 3)) (u32 (Z.lnot 3)) in
               let height := Z.land (u32 (orig_height + 3)) (u32 (Z.lnot 3)) in
               let required_size :=
                 u32 (u32 (u32 (Z.max 8 width * Z.max 8 height) * 4) + 7) / 8 in
               assert_ NDEBUG (u32 (total_blocks * bytes_per_block) <=? required_size)
                 "required_size >= total_blocks * bytes_per_block" ;;
               ret required_size
             else ret required_size) ;;
          dst_data <- resize required_size ;;
          capacity <- udiv (size dst_data) bytes_per_block ;;
          r <- call_transcode_image_level image_index level_index dst_data
                 capacity format flags 0 0 ;;
          let '(status, dst_data) := r in
          dst_set dst_data ;;
          ret status
    end.

(** ** class lowlevel_etc1s_image_transcoder : basisu_lowlevel_etc1s_transcoder *)

Record lowlevel_etc1s_image_transcoder : Type := {
  etc1s_base : basisu_lowlevel_etc1s_transcoder T;   (* the base-class part *)
  m_state : basisu_transcoder_state T
}.

Definition lowlevel_etc1s_image_transcoder_new (g : globals T)
    : lowlevel_etc1s_image_transcoder :=
  {| etc1s_base := new_lowlevel_etc1s T (g_pGlobal_codebook g);
     m_state := new_transcoder_state T |}.

Definition decode_palettes (num_endpoints : Z) (endpoint_data : jsbuffer)
    (num_selectors : Z) (selector_data : jsbuffer)
    : M lowlevel_etc1s_image_transcoder bool :=
  let temp_endpoint_data := copy_from_jsbuffer endpoint_data in
  let temp_selector_data := copy_from_jsbuffer selector_data in
  if (size temp_endpoint_data =? 0) || (size temp_selector_data =? 0) then
    assert_ NDEBUG false "0" ;;
    ret false
  else
    self <- get ;;
    let '(ok, base) :=
      etc1s_decode_palettes T (etc1s_base self)
        num_endpoints temp_endpoint_data num_selectors temp_selector_data in
    put {| etc1s_base := base; m_state := m_state self |} ;;
    ret ok.

Definition decode_tables (table_data : jsbuffer)
    : M lowlevel_etc1s_image_transcoder bool :=
  let temp_table_data := copy_from_jsbuffer table_data in
  if size temp_table_data =? 0 then
    assert_ NDEBUG false "0" ;;
    ret false
  else
    self <- get ;;
    let '(ok, base) := etc1s_decode_tables T (etc1s_base self) temp_table_data in
    put {| etc1s_base := base; m_state := m_state self |} ;;
    ret ok.

(** The state [transcode_image] works on: the object and the array
    [output_blocks]. *)
Record etc1s_world : Type := {
  e_self : lowlevel_etc1s_image_transcoder;
  e_output_blocks : jsbuffer
}.

(** [basisu_lowlevel_etc1s_transcoder::transcode_image(...)] writing into
    [temp_output_blocks]. The capacity the caller declared,
    [output_blocks_buf_size_in_blocks_or_pixels], is one of [args] and goes
    to the transcoder as it came: it is never compared with the length of
    the vector, so [written] can be longer than the vector (see
    [call_transcode_image_level]). *)
Definition call_etc1s_transcode_image (args : etc1s_image_args T)
    (temp_output_blocks temp_comp_data : bytes) : M etc1s_world (bool * bytes) :=
  fun w =>
    let self := e_self w in
    let '(status, written, base, state) :=
      etc1s_transcode_image T (etc1s_base self) (m_state self) args
        temp_output_blocks temp_comp_data in
    (Returns (status, poke temp_output_blocks written),
     {| e_self := {| etc1s_base := base; m_state := state |};
        e_output_blocks := e_output_blocks w |}).

Definition transcode_image (g : globals T) (args : etc1s_image_args T)
    (compressed_data : jsbuffer) : M etc1s_world bool :=
  match g_pGlobal_codebook g with
  | None =>
      assert_ NDEBUG false "0" ;;
      ret false
  | Some _ =>
      let temp_comp_data := copy_from_jsbuffer compressed_data in
      if size temp_comp_data =? 0 then
        assert_ NDEBUG false "0" ;;
        ret false
      else
        w <- get ;;
        let output_blocks_len := byteLength (e_output_blocks w) in
        if output_blocks_len =? 0 then
          assert_ NDEBUG false "0" ;;
          ret false
        else
          let temp_output_blocks := zeros output_blocks_len in
          r <- call_etc1s_transcode_image args temp_output_blocks temp_comp_data ;;
          let '(status, temp_output_blocks) := r in
          if negb status then
            assert_ NDEBUG false "0" ;;
            ret false
          else
            copied <- on_part e_output_blocks
                        (fun b w => {| e_self := e_self w; e_output_blocks := b |})
                        (copy_to_jsbuffer temp_output_blocks) ;;
            if negb copied then ret false else ret true
  end.

(** ** transcode_uastc_image; the state is the array [output_blocks]

    As in [transcode_image], the declared capacity is one of [args] and is
    never compared with the length of [temp_output_blocks]: [written] can be
    longer than the vector, of which [poke] gives the bytes as
    [copy_to_jsbuffer] reads them afterwards. *)

Definition transcode_uastc_image (g : globals T) (args : uastc_image_args T)
    (compressed_data : jsbuffer) : M jsbuffer bool :=
  match g_pGlobal_codebook g with
  | None =>
      assert_ NDEBUG false "0" ;;
      ret false
  | Some _ =>
      let temp_comp_data := copy_from_jsbuffer compressed_data in
      if size temp_comp_data =? 0 then
        assert_ NDEBUG false "0" ;;
        ret false
      else
        output_blocks <- get ;;
        let output_blocks_len := byteLength output_blocks in
        if output_blocks_len =? 0 then
          assert_ NDEBUG false "0" ;;
          ret false
        else
          let temp_output_blocks := zeros output_blocks_len in
          let '(status, written) :=
            uastc_transcode_image T args temp_output_blocks temp_comp_data in
          let temp_output_blocks := poke temp_output_blocks written in
          if negb status then
            assert_ NDEBUG false "0" ;;
            ret false
          else
            copied <- copy_to_jsbuffer temp_output_blocks ;;
            if negb copied then ret false else ret true
  end.

End Wrappers.

Arguments etc1s_base {T} l.
Arguments m_state {T} l.
Arguments e_self {T} e.
Arguments e_output_blocks {T} e.

(** The part of [transcodeImage] that its branches share once the size [s]
    of [dst_data] is known: the vector is sized, the transcoder runs once on
    it with the given capacity (in blocks or pixels), row pitch and row
    count, and the vector is handed to [dst.set] whatever the transcoder
    answered. *)
Definition transcode_and_set {T : basist}
    (image_index level_index s capacity format flags row_pitch rows : Z)
    : M (tc_world T) Z :=
  dst_data <- resize T s ;;
  r <- call_transcode_image_level T image_index level_index dst_data
         capacity format flags row_pitch rows ;;
  let '(status, dst_data) := r in
  dst_set T dst_data ;;
  ret status.

(** ** The layout rule in the words of the specification

    Written over unbounded integers, to be compared with what
    [getImageTranscodedSizeInBytes] computes on 32 bits. *)

(** ceil(a / b) *)
Definition ceil_div (a b : Z) : Z := - ((- a) / b).

(** [x] rounded up to a multiple of [m] *)
Definition round_up_to_multiple (m x : Z) : Z := m * ceil_div x m.

(** ceil(max(8,w') * max(8,h') * 4 / 8), w' and h' being the width and the
    height rounded up to multiples of 4 *)
Definition spec_pvrtc1_size (origWidth origHeight : Z) : Z :=
  ceil_div (Z.max 8 (round_up_to_multiple 4 origWidth)
            * Z.max 8 (round_up_to_multiple 4 origHeight) * 4) 8.

Definition is_pvrtc1 (T : basist) (format : Z) : bool :=
  (format =? cTFPVRTC1_4_RGB T) || (format =? cTFPVRTC1_4_RGBA T).

(** [requiredSize(format, origWidth, origHeight, totalBlocks)] of the Layout
    Calculator. *)
Definition spec_requiredSize (T : basist) (format origWidth origHeight totalBlocks : Z) : Z :=
  if basis_transcoder_format_is_uncompressed T format then
    origWidth * origHeight * basis_get_uncompressed_bytes_per_pixel T format
  else if is_pvrtc1 T format then spec_pvrtc1_size origWidth origHeight
  else totalBlocks * basis_get_bytes_per_block_or_pixel T format.

(** The bound below which the 32-bit computation of a size cannot wrap: the
    PVRTC1 rule multiplies the padded texel count by 4 and adds 7 before it
    divides by 8, the other rules only form the size itself. *)
Definition size_limit (T : basist) (format : Z) : Z :=
  if negb (basis_transcoder_format_is_uncompressed T format) && is_pvrtc1 T format
  then 2 ^ 29 else 2 ^ 32.

(** The number of 4x4 blocks that cover a [w] x [h] image. *)
Definition blocks_4x4 (w h : Z) : Z := ((w + 3) / 4) * ((h + 3) / 4).

(** ** What the wrappers rely on from the container parser *)

(** Modelled from the spec: [basisu_transcoder.cpp], which implements the
    container queries of [basisu_transcoder], is not part of this module. The
    specification has it that a container which fails validation (truncated,
    bad magic) makes every query return its neutral result without reading
    payload bytes. A buffer of no bytes holds no header, so the queries fail
    on it. *)
Definition rejects_empty_buffer (T : basist) : Prop :=
  forall t : basisu_transcoder T,
    get_total_images T t [] = 0
    /\ get_file_info T t [] = None
    /\ (forall i, get_image_info T t [] i = None)
    /\ (forall i l, get_image_level_info T t [] i l = None)
    /\ (forall i l, get_image_level_desc T t [] i l = None).

(** The container of [self] holds a level ([image_index], [level_index]) of
    the given original size and block count, and [self] is a live object. *)
Definition has_level {T : basist} (self : basis_file T)
    (image_index level_index orig_width orig_height total_blocks : Z) : Prop :=
  magic_ok self = true
  /\ get_image_level_desc T (m_transcoder self) (m_file self) image_index level_index
     = Some (orig_width, orig_height, total_blocks).

(** What holds of every object the constructor has returned: with assertions
    enabled it is live (the constructor stops at [assert(0)] when
    [basis_init] has not run), with assertions compiled out it may also be an
    object whose [m_magic] was left at 0. *)
Definition constructed {T : basist} (NDEBUG : bool) (self : basis_file T) : Prop :=
  NDEBUG = true \/ magic_ok self = true.

(** A [basis_file] after [close()]. *)
Definition closed {T : basist} (self : basis_file T) : basis_file T :=
  {| m_magic := m_magic self; m_transcoder := m_transcoder self; m_file := [] |}.

(** ** A test double of the library

    [stub] is a small instance of [basist] on which the wrappers can be run.
    It is not the real transcoder. Its container holds five bytes per image
    (alpha flag, width and height as two big-endian bytes each), every image
    has one level, and transcoding fills the output with [0xaa]. Its formats
    are numbered 0 to 21: 8 and 9 are the PVRTC1 formats, 13 to 16 the
    uncompressed ones (RGBA32 with 4 bytes per pixel, the others with 2),
    and the block formats take 8 or 16 bytes per block. *)

Definition byte_val (b : byte) : Z := Z.of_N (Byte.to_N b).

Definition byte_of (z : Z) : byte :=
  match Byte.of_N (Z.to_N (z mod 256)) with
  | Some b => b
  | None => x00
  end.

Fixpoint stub_images (d : bytes) : list (bool * Z * Z) :=
  match d with
  | f :: wh :: wl :: hh :: hl :: rest =>
      (negb (byte_val f =? 0), 256 * byte_val wh + byte_val wl,
       256 * byte_val hh + byte_val hl) :: stub_images rest
  | _ => []
  end.

Definition stub_valid (d : bytes) : bool :=
  (0 <? size d) && (size d mod 5 =? 0).

Definition stub_image (d : bytes) (image_index : Z) : option (bool * Z * Z) :=
  if stub_valid d && (0 <=? image_index)
  then nth_error (stub_images d) (Z.to_nat image_index)
  else None.

(** The container bytes of a list of images (alpha, width, height). *)
Definition stub_container (images : list (bool * Z * Z)) : bytes :=
  flat_map (fun '(a, w, h) =>
              [byte_of (Z.b2z a); byte_of (w / 256); byte_of w;
               byte_of (h / 256); byte_of h]) images.

Definition stub_uncompressed (format : Z) : bool :=
  (13 <=? format) && (format <=? 16).

Definition stub_bytes_per_pixel (format : Z) : Z :=
  if format =? 13 then 4 else if stub_uncompressed format then 2 else 0.

Definition stub_bytes_per_block_or_pixel (format : Z) : Z :=
  if stub_uncompressed format then stub_bytes_per_pixel format
  else if existsb (Z.eqb format) [0; 2; 4; 8; 9; 11; 18; 19; 20] then 8
  else if existsb (Z.eqb format) [1; 3; 5; 6; 7; 10; 12; 17; 21] then 16
  else 0.

Definition stub_transcode_image_level (ready : bool) (d : bytes)
    (image_index level_index : Z) (out : bytes) (capacity format flags pitch rows : Z)
    : bool * bytes * bool :=
  match stub_image d image_index with
  | Some (_, w, h) =>
      let units := if stub_uncompressed format then w * h else blocks_4x4 w h in
      if ready && (level_index =? 0) && (units <=? capacity)
      then (true, repeat xaa (Z.to_nat (units * stub_bytes_per_block_or_pixel format)), ready)
      else (false, [], ready)
  | None => (false, [], ready)
  end.

Definition stub : basist :=
  {| cTFPVRTC1_4_RGB := 8;
     cTFPVRTC1_4_RGBA := 9;
     cTFTotalTextureFormats := 22;
     cDecodeFlagsTranscodeAlphaDataToOpaqueFormats := 4;
     cUASTC4x4 := 1;
     basis_transcoder_format_is_uncompressed := stub_uncompressed;
     basis_get_uncompressed_bytes_per_pixel := stub_bytes_per_pixel;
     basis_get_bytes_per_block_or_pixel := stub_bytes_per_block_or_pixel;
     lib_globals := bool;
     basisu_transcoder_init := fun _ => true;
     basisu_encoder_init := fun l => l;
     etc1_global_selector_codebook := unit;
     new_codebook := tt;
     basisu_transcoder := bool;
     new_transcoder := fun _ => false;
     validate_header := fun _ d => stub_valid d;
     get_total_images := fun _ d => Z.of_nat (length (stub_images d)) * Z.b2z (stub_valid d);
     get_tex_format := fun _ _ => 0;
     get_file_info := fun _ d =>
       if stub_valid d then
         Some {| basisu_file_info.m_version := 19;
                 basisu_file_info.m_us_per_frame := 0;
                 basisu_file_info.m_total_images := Z.of_nat (length (stub_images d));
                 basisu_file_info.m_userdata0 := 0;
                 basisu_file_info.m_userdata1 := 0;
                 basisu_file_info.m_tex_format := 0;
                 basisu_file_info.m_y_flipped := false;
                 basisu_file_info.m_has_alpha_slices := existsb (fun i => fst (fst i)) (stub_images d);
                 basisu_file_info.m_total_endpoints := 0;
                 basisu_file_info.m_endpoint_codebook_ofs := 0;
                 basisu_file_info.m_endpoint_codebook_size := 0;
                 basisu_file_info.m_total_selectors := 0;
                 basisu_file_info.m_selector_codebook_ofs := 0;
                 basisu_file_info.m_selector_codebook_size := 0;
                 basisu_file_info.m_tables_ofs := 0;
                 basisu_file_info.m_tables_size := 0 |}
       else None;
     get_image_info := fun _ d i =>
       match stub_image d i with
       | Some (a, w, h) =>
           Some {| basisu_image_info.m_orig_width := w;
                   basisu_image_info.m_orig_height := h;
                   basisu_image_info.m_num_blocks_x := (w + 3) / 4;
                   basisu_image_info.m_num_blocks_y := (h + 3) / 4;
                   basisu_image_info.m_total_levels := 1;
                   basisu_image_info.m_alpha_flag := a;
                   basisu_image_info.m_iframe_flag := false |}
       | None => None
       end;
     get_image_level_info := fun _ d i l =>
       match stub_image d i with
       | Some (a, w, h) =>
           if l =? 0 then
             Some {| basisu_image_level_info.m_alpha_flag := a;
                     basisu_image_level_info.m_rgb_file_ofs := 5 * i + 1;
                     basisu_image_level_info.m_rgb_file_len := 4;
                     basisu_image_level_info.m_alpha_file_ofs := 0;
                     basisu_image_level_info.m_alpha_file_len := 0 |}
           else None
       | None => None
       end;
     get_image_level_desc := fun _ d i l =>
       match stub_image d i with
       | Some (a, w, h) => if l =? 0 then Some (w, h, blocks_4x4 w h) else None
       | None => None
       end;
     start_transcoding := fun _ d => (stub_valid d, stub_valid d);
     transcode_image_level := stub_transcode_image_level;
     basisu_lowlevel_etc1s_transcoder := (bool * bool)%type;
     basisu_transcoder_state := unit;
     new_lowlevel_etc1s := fun _ => (false, false);
     new_transcoder_state := tt;
     etc1s_decode_palettes := fun s ne ed ns sd =>
       if (0 <? ne) && (0 <? ns) then (true, (true, snd s)) else (false, s);
     etc1s_decode_tables := fun s td => (true, (fst s, true));
     etc1s_image_args := Z;
     uastc_image_args := Z;
     etc1s_transcode_image := fun s st blocks out comp =>
       if fst s && snd s && (8 * blocks <=? size out)
       then (true, repeat xaa (Z.to_nat (8 * blocks)), s, st)
       else (false, [], s, st);
     uastc_transcode_image := fun blocks out comp =>
       if 16 * blocks <=? size out
       then (true, repeat xaa (Z.to_nat (16 * blocks)))
       else (false, []) |}.

(** A live [basis_file] of the test double over the given images, as the
    constructor leaves it once [basis_init] has run. *)
Definition stub_file (ready : bool) (images : list (bool * Z * Z)) : basis_file stub :=
  Build_basis_file stub (to_int MAGIC) ready (stub_container images).

(** ** The encoder wrappers: class basis_encoder

    Compiled when [BASISU_SUPPORT_ENCODING] is 1. The compressor
    ([encoder/basisu_comp.h], namespace [basisu]) is not part of this module
    and is a parameter, as the transcoder is. [size_t] is 32 bits wide, the
    module being built for WebAssembly. *)

Set Implicit Arguments.

(** [basis_compressor_params]: the members that [set_slice_source_image] and
    [encode] read or write; a pointer member is the object it points to, or
    [None] for a null pointer. [m_others] stands for all the other members,
    which this module only sets from the option setters of its bindings. *)
Record basis_compressor_params (image job_pool codebook others : Type) : Type := {
  m_source_images : list image;
  m_pJob_pool : option job_pool;
  m_multithreading : bool;
  m_status_output : bool;
  m_debug : bool;
  m_read_source_images : bool;
  m_write_output_basis_files : bool;
  m_pSel_codebook : option codebook;
  m_others : others
}.

Record basisu (T : basist) : Type := {
  (* class image *)
  image : Type;
  new_image : image;
  get_width : image -> Z;
  get_height : image -> Z;
  (* img.resize(w, h) *)
  image_resize : image -> Z -> Z -> image;
  (* the image after memcpy(img.get_ptr(), src, n), the n bytes being given *)
  store_at_get_ptr : image -> bytes -> image;
  (* load_png(pBuf, buf_size, img, nullptr) *)
  load_png : bytes -> image -> bool * image;
  (* job_pool(num_threads) *)
  job_pool : Type;
  new_job_pool : Z -> job_pool;
  other_params : Type;
  (* class basis_compressor *)
  basis_compressor : Type;
  new_compressor : basis_compressor;
  compressor_init :
    basis_compressor ->
    basis_compressor_params image job_pool (etc1_global_selector_codebook T) other_params ->
    bool * basis_compressor;
  (* process() and its error_code *)
  compressor_process : basis_compressor -> Z * basis_compressor;
  cECSuccess : Z;
  get_output_basis_file : basis_compressor -> bytes
}.

Unset Implicit Arguments.

(** [v.resize(n)] on a vector whose elements are default-constructed. *)
Definition vector_resize {A : Type} (default : A) (n : Z) (v : list A) : list A :=
  firstn (Z.to_nat n) v ++ repeat default (Z.to_nat n - length v).

(** [v[i] = x], for an index inside the vector. *)
Fixpoint vector_set {A : Type} (v : list A) (i : nat) (x : A) : list A :=
  match v, i with
  | [], _ => []
  | _ :: rest, O => x :: rest
  | y :: rest, S i => y :: vector_set rest i x
  end.

Section Encoder.

Variable NDEBUG : bool.
Variable T : basist.
Variable E : basisu T.

Definition compressor_params : Type :=
  basis_compressor_params (image E) (job_pool E) (etc1_global_selector_codebook T)
    (other_params E).

Record basis_encoder : Type := {
  m_params : compressor_params
}.

(** [m_params.m_source_images = images] *)
Definition with_source_images (images : list (image E)) (params : compressor_params)
    : compressor_params :=
  {| m_source_images := images;
     m_pJob_pool := m_pJob_pool params;
     m_multithreading := m_multithreading params;
     m_status_output := m_status_output params;
     m_debug := m_debug params;
     m_read_source_images := m_read_source_images params;
     m_write_output_basis_files := m_write_output_basis_files params;
     m_pSel_codebook := m_pSel_codebook params;
     m_others := m_others params |}.

(** The first statement of [set_slice_source_image]:
    [if (slice_index >= m_source_images.size()) m_source_images.resize(slice_index + 1)]. *)
Definition resize_for_slice (slice_index : Z) (source_images : list (image E))
    : list (image E) :=
  if Z.of_nat (length source_images) <=? slice_index
  then vector_resize (new_image E) (u32 (slice_index + 1)) source_images
  else source_images.

(** [set_slice_source_image]. The result is [None] where the C++ has no
    defined behaviour: [m_source_images[slice_index]] past the end of the
    vector. [src_img] is a reference into the vector, so what is done to it
    is done to the slice. *)
Definition set_slice_source_image (slice_index : Z) (src_image_js_val : jsbuffer)
    (src_image_width src_image_height : Z) (src_image_is_png : bool)
    (self : basis_encoder) : option (bool * basis_encoder) :=
  let params := m_params self in
  let source_images := resize_for_slice slice_index (m_source_images params) in
  let self := {| m_params := with_source_images source_images params |} in
  let src_image_buf := copy_from_jsbuffer src_image_js_val in
  match nth_error source_images (Z.to_nat slice_index) with
  | None => None
  | Some src_img =>
      let slice_is (img : image E) : basis_encoder :=
        {| m_params :=
             with_source_images (vector_set source_images (Z.to_nat slice_index) img)
               params |} in
      if src_image_is_png then
        let '(ok, src_img) := load_png E src_image_buf src_img in
        if negb ok then Some (false, slice_is src_img)
        else
          let src_image_width := get_width E src_img in
          let src_image_height := get_height E src_img in
          Some (true, slice_is src_img)
      else
        let n := u32 (u32 (src_image_width * src_image_height) * 4) in
        if negb (size src_image_buf =? n) then Some (false, self)
        else
          let src_img := image_resize E src_img src_image_width src_image_height in
          let src_img := store_at_get_ptr E src_img (firstn (Z.to_nat n) src_image_buf) in
          Some (true, slice_is src_img)
  end.

(** The state [encode] works on: the object and the array
    [dst_basis_file_js_val]. *)
Record encoder_world : Type := {
  enc_self : basis_encoder;
  enc_dst : jsbuffer
}.

(** [params], the reference to [m_params], once [encode] has filled it in
    for the job pool [jpool] and the codebook [sel_codebook] of the call. *)
Definition encode_params (jpool : job_pool E)
    (sel_codebook : etc1_global_selector_codebook T) (params : compressor_params)
    : compressor_params :=
  {| m_source_images := m_source_images params;
     m_pJob_pool := Some jpool;
     m_multithreading := false;
     m_status_output := m_debug params;
     m_debug := m_debug params;
     m_read_source_images := false;
     m_write_output_basis_files := false;
     m_pSel_codebook := Some sel_codebook;
     m_others := m_others params |}.

Definition encode (g : globals T) : M encoder_world Z :=
  match g_pGlobal_codebook g with
  | None =>
      assert_ NDEBUG false "0" ;;
      ret 0
  | Some _ =>
      w <- get ;;
      let sel_codebook := new_codebook T in
      let jpool := new_job_pool E 1 in
      let params := encode_params jpool sel_codebook (m_params (enc_self w)) in
      put {| enc_self := {| m_params := params |}; enc_dst := enc_dst w |} ;;
      let comp := new_compressor E in
      let '(ok, comp) := compressor_init E comp params in
      if negb ok then ret 0
      else
        let '(ec, comp) := compressor_process E comp in
        if negb (ec =? cECSuccess E) then ret 0
        else
          copied <- on_part enc_dst (fun b w => {| enc_self := enc_self w; enc_dst := b |})
                      (copy_to_jsbuffer NDEBUG (get_output_basis_file E comp)) ;;
          if negb copied then ret 0
          else ret (u32 (size (get_output_basis_file E comp)))
  end.

End Encoder.

Arguments m_params {T E} b.
Arguments enc_self {T E} e.
Arguments enc_dst {T E} e.

(** ** A test double of the compressor

    An image is its width, its height and its pixel bytes. A PNG file of the
    double is a width byte, a height byte and 4 bytes per pixel. The
    compressor wants at least one source image and writes the container of
    the transcoder's test double. *)

Definition stub_load_png (buf : bytes) (img : Z * Z * bytes) : bool * (Z * Z * bytes) :=
  match buf with
  | w :: h :: pixels =>
      if size pixels =? byte_val w * byte_val h * 4
      then (true, (byte_val w, byte_val h, pixels))
      else (false, img)
  | _ => (false, img)
  end.

Definition enc_stub : basisu stub :=
  {| image := (Z * Z * bytes)%type;
     new_image := (0, 0, []);
     get_width := fun img => fst (fst img);
     get_height := fun img => snd (fst img);
     image_resize := fun img w h => (w, h, zeros (w * h * 4));
     store_at_get_ptr := fun img src => (fst img, poke (snd img) src);
     load_png := stub_load_png;
     job_pool := Z;
     new_job_pool := fun n => n;
     other_params := unit;
     basis_compressor := option bytes;
     new_compressor := None;
     compressor_init := fun comp params =>
       match m_source_images params with
       | [] => (false, comp)
       | images =>
           (true, Some (stub_container (map (fun img => (false, fst (fst img), snd (fst img)))
                                          images)))
       end;
     compressor_process := fun comp =>
       match comp with
       | Some file => (0, comp)
       | None => (1, comp)
       end;
     cECSuccess := 0;
     get_output_basis_file := fun comp =>
       match comp with
       | Some file => file
       | None => []
       end |}.

(** An encoder object of the test double over the given source images; the
    other parameters hold some values. *)
Definition stub_encoder (images : list (Z * Z * bytes)) : basis_encoder stub enc_stub :=
  {| m_params :=
       {| m_source_images := images : list (image enc_stub);
          m_pJob_pool := None;
          m_multithreading := true;
          m_status_output := true;
          m_debug := false;
          m_read_source_images := false;
          m_write_output_basis_files := false;
          m_pSel_codebook := None;
          m_others := tt : other_params enc_stub |} |}.

(** The process-wide state of the test double when the module is loaded. *)
Definition stub_start : globals stub :=
  {| g_pGlobal_codebook := None; g_lib := false : lib_globals stub |}.

(** ** Proof steps shared by the proofs below *)

(** Unfolds the monad so that a method body reduces on its state. *)
Ltac run_monad :=
  unfold bind, get, put, ret, throw, assert_; cbn beta iota.

(** Passes the two guards at the head of a method on a live object and a
    format below [cTFTotalTextureFormats]. *)
Ltac live_format Hm Hfmt :=
  rewrite Hm, orb_true_r; cbn [negb];
  match type of Hfmt with
  | ?f < ?t => destruct (Z.leb_spec t f); [lia |]
  end.

(** Splits on why an object is [constructed]: assertions compiled out, or a
    live object. *)
Ltac dead_or_live Hobj :=
  unfold constructed in Hobj;
  match type of Hobj with
  | ?n = true \/ magic_ok ?s = true =>
      let Hn := fresh "Hn" in
      let Hm := fresh "Hm" in
      destruct Hobj as [Hn | Hm];
      [ rewrite Hn; cbn [orb]; destruct (magic_ok s); cbn [negb]
      | rewrite Hm, ?orb_true_r; cbn [negb] ]
  end.

(** Case analysis on every test and library call of a method body. *)
Ltac split_branches :=
  repeat (cbn beta iota zeta;
          cbn [fst snd w_self w_dst w_allocated m_file m_magic m_transcoder];
          match goal with
          | |- context [if ?b then _ else _] => destruct b
          | |- context [transcode_image_level ?T ?t ?d ?i ?l ?o ?c ?f ?g ?p ?r] =>
              destruct (transcode_image_level T t d i l o c f g p r) as [[? ?] ?]
          | |- context [start_transcoding ?T ?t ?d] =>
              destruct (start_transcoding T t d) as [? ?]
          | |- context [js_set ?d ?s] => destruct (js_set d s)
          | |- context [match ?x with Some _ => _ | None => _ end] => destruct x
          | |- context [let (_, _) := ?x in _] => destruct x
          end);
  cbn beta iota zeta;
  cbn [fst snd w_self w_dst w_allocated m_file m_magic m_transcoder].

(** * Properties *)

(** ** 32-bit arithmetic and the rounding mask *)

Lemma u32_small (z : Z) : 0 <= z < 2 ^ 32 -> u32 z = z.
Proof. intros H. unfold u32. now apply Z.mod_small. Qed.

Lemma u32_range (z : Z) : 0 <= u32 z < 2 ^ 32.
Proof. unfold u32. apply Z.mod_pos_bound. lia. Qed.

Lemma u32_mul_idemp_l (a b : Z) : u32 (u32 a * b) = u32 (a * b).
Proof. unfold u32. apply Z.mul_mod_idemp_l. lia. Qed.

Lemma ldiff_3 (x : Z) : 0 <= x -> Z.ldiff x 3 = 4 * (x / 4).
Proof.
  intros Hx. change 3 with (Z.ones 2).
  rewrite Z.ldiff_ones_r by lia.
  rewrite Z.shiftl_mul_pow2, Z.shiftr_div_pow2 by lia.
  change (2 ^ 2) with 4. lia.
Qed.

(** [x & ~3] clears the two low bits of a 32-bit value. *)
Lemma land_not3 (x : Z) :
  0 <= x < 2 ^ 32 -> Z.land x (u32 (Z.lnot 3)) = 4 * (x / 4).
Proof.
  intros Hx. unfold u32.
  rewrite <- (Z.land_ones (Z.lnot 3) 32) by lia.
  rewrite Z.land_assoc, <- Z.ldiff_land, ldiff_3 by lia.
  rewrite Z.land_ones by lia.
  apply Z.mod_small.
  pose proof (Z.mul_div_le x 4).
  assert (0 <= x / 4) by (apply Z.div_pos; lia). lia.
Qed.

Lemma magic_ok_to_int_MAGIC : (u32 (to_int MAGIC) =? MAGIC) = true.
Proof. reflexivity. Qed.

(** ** Ceiling division and rounding, as the specification words them *)

Lemma ceil_div_eq (a b : Z) : 0 < b -> ceil_div a b = (a + b - 1) / b.
Proof.
  intros Hb. unfold ceil_div.
  pose proof (Z.div_mod (a + b - 1) b ltac:(lia)) as E.
  pose proof (Z.mod_pos_bound (a + b - 1) b Hb) as B.
  assert (Hq : - ((a + b - 1) / b) = (- a) / b).
  { apply (Z.div_unique_pos _ _ _ (b - 1 - (a + b - 1) mod b)); lia. }
  lia.
Qed.

(** [ceil_div a b] is the least [n] with [a <= b * n]. *)
Lemma ceil_div_spec (a b : Z) : 0 < b -> a <= b * ceil_div a b < a + b.
Proof.
  intros Hb. rewrite ceil_div_eq by lia.
  pose proof (Z.div_mod (a + b - 1) b ltac:(lia)).
  pose proof (Z.mod_pos_bound (a + b - 1) b Hb). lia.
Qed.

Lemma ceil_div_mono (a a' b : Z) : 0 < b -> a <= a' -> ceil_div a b <= ceil_div a' b.
Proof.
  intros Hb Ha. rewrite !ceil_div_eq by lia. apply Z.div_le_mono; lia.
Qed.

Lemma round_up_4 (w : Z) : round_up_to_multiple 4 w = 4 * ((w + 3) / 4).
Proof.
  unfold round_up_to_multiple. rewrite ceil_div_eq by lia.
  f_equal. f_equal. lia.
Qed.

(** [round_up_to_multiple 4 w] is the least multiple of 4 that is at least [w]. *)
Lemma round_up_4_spec (w : Z) :
  w <= round_up_to_multiple 4 w < w + 4 /\ round_up_to_multiple 4 w mod 4 = 0.
Proof.
  unfold round_up_to_multiple. split.
  - apply ceil_div_spec. lia.
  - rewrite Z.mul_comm. apply Z.mod_mul. lia.
Qed.

Lemma round_up_4_mono (w w' : Z) :
  w <= w' -> round_up_to_multiple 4 w <= round_up_to_multiple 4 w'.
Proof.
  intros H. unfold round_up_to_multiple.
  pose proof (ceil_div_mono w w' 4 ltac:(lia) H). lia.
Qed.

(** The padded texel count is a multiple of 8 bits-times-two: the ceiling in
    the PVRTC1 rule is exact. *)
Lemma spec_pvrtc1_size_eq (w h : Z) :
  0 <= w -> 0 <= h ->
  8 * spec_pvrtc1_size w h
  = Z.max 8 (round_up_to_multiple 4 w) * Z.max 8 (round_up_to_multiple 4 h) * 4.
Proof.
  intros Hw Hh. unfold spec_pvrtc1_size. rewrite !round_up_4.
  assert (0 <= (w + 3) / 4) by (apply Z.div_pos; lia).
  assert (0 <= (h + 3) / 4) by (apply Z.div_pos; lia).
  set (x := (w + 3) / 4) in *. set (y := (h + 3) / 4) in *.
  assert (exists a, Z.max 8 (4 * x) = 4 * a /\ 2 <= a) as [a [Ea Ha]].
  { destruct (Z.max_spec 8 (4 * x)) as [[? E]|[? E]]; rewrite E.
    - exists x. lia.
    - exists 2. lia. }
  assert (exists b, Z.max 8 (4 * y) = 4 * b /\ 2 <= b) as [b [Eb Hb]].
  { destruct (Z.max_spec 8 (4 * y)) as [[? E]|[? E]]; rewrite E.
    - exists y. lia.
    - exists 2. lia. }
  rewrite Ea, Eb.
  replace (4 * a * (4 * b) * 4) with ((a * b * 8) * 8) by ring.
  rewrite ceil_div_eq by lia.
  replace (a * b * 8 * 8 + 8 - 1) with (7 + (a * b * 8) * 8) by ring.
  rewrite Z.div_add by lia. change (7 / 8) with 0. lia.
Qed.

Lemma spec_pvrtc1_size_mono (w h w' h' : Z) :
  0 <= w <= w' -> 0 <= h <= h' -> spec_pvrtc1_size w h <= spec_pvrtc1_size w' h'.
Proof.
  intros Hw Hh.
  pose proof (spec_pvrtc1_size_eq w h ltac:(lia) ltac:(lia)).
  pose proof (spec_pvrtc1_size_eq w' h' ltac:(lia) ltac:(lia)).
  pose proof (round_up_4_mono w w' ltac:(lia)).
  pose proof (round_up_4_mono h h' ltac:(lia)).
  assert (Z.max 8 (round_up_to_multiple 4 w) * Z.max 8 (round_up_to_multiple 4 h)
          <= Z.max 8 (round_up_to_multiple 4 w') * Z.max 8 (round_up_to_multiple 4 h')).
  { apply Z.mul_le_mono_nonneg; lia. }
  lia.
Qed.

(** The padded size is never below the bytes of the blocks themselves. *)
Lemma blocks_fit_in_spec_pvrtc1_size (w h : Z) :
  0 <= w -> 0 <= h -> blocks_4x4 w h * 8 <= spec_pvrtc1_size w h.
Proof.
  intros Hw Hh. pose proof (spec_pvrtc1_size_eq w h Hw Hh) as E.
  rewrite !round_up_4 in E. unfold blocks_4x4.
  assert (0 <= (w + 3) / 4) by (apply Z.div_pos; lia).
  assert (0 <= (h + 3) / 4) by (apply Z.div_pos; lia).
  set (x := (w + 3) / 4) in *. set (y := (h + 3) / 4) in *.
  assert (4 * x * (4 * y) <= Z.max 8 (4 * x) * Z.max 8 (4 * y)).
  { apply Z.mul_le_mono_nonneg; lia. }
  lia.
Qed.

(** What the wrappers compute on 32 bits is the padded size of the
    specification as long as that size is below 2^29 bytes, that is, as long
    as [max(8,w') * max(8,h') * 4 + 7] does not wrap around. *)
Lemma pvrtc1_code_eq_spec (w h : Z) :
  0 <= w -> 0 <= h -> spec_pvrtc1_size w h < 2 ^ 29 ->
  u32 (u32 (u32 (Z.max 8 (Z.land (u32 (w + 3)) (u32 (Z.lnot 3)))
                 * Z.max 8 (Z.land (u32 (h + 3)) (u32 (Z.lnot 3)))) * 4) + 7) / 8
  = spec_pvrtc1_size w h.
Proof.
  intros Hw Hh Hfit.
  pose proof (spec_pvrtc1_size_eq w h Hw Hh) as E.
  pose proof (round_up_4_spec w) as [Rw _]. pose proof (round_up_4_spec h) as [Rh _].
  set (A := Z.max 8 (round_up_to_multiple 4 w)) in *.
  set (B := Z.max 8 (round_up_to_multiple 4 h)) in *.
  assert (8 <= A) by (unfold A; lia). assert (8 <= B) by (unfold B; lia).
  assert (HAB : A * B * 4 < 2 ^ 32) by lia.
  assert (A < 2 ^ 27) by nia. assert (B < 2 ^ 27) by nia.
  assert (Ew : Z.land (u32 (w + 3)) (u32 (Z.lnot 3)) = round_up_to_multiple 4 w).
  { rewrite round_up_4, u32_small by (unfold A in *; lia).
    apply land_not3. unfold A in *; lia. }
  assert (Eh : Z.land (u32 (h + 3)) (u32 (Z.lnot 3)) = round_up_to_multiple 4 h).
  { rewrite round_up_4, u32_small by (unfold B in *; lia).
    apply land_not3. unfold B in *; lia. }
  rewrite Ew, Eh. fold A B.
  assert (0 <= A * B) by nia.
  rewrite (u32_small (A * B)) by lia.
  rewrite (u32_small (A * B * 4)) by lia.
  rewrite u32_small by lia.
  rewrite <- E.
  replace (8 * spec_pvrtc1_size w h + 7) with (7 + spec_pvrtc1_size w h * 8) by ring.
  rewrite Z.div_add by lia. reflexivity.
Qed.

Lemma spec_pvrtc1_size_up_to_8 (w h : Z) :
  0 <= w <= 8 -> 0 <= h <= 8 -> spec_pvrtc1_size w h = 32.
Proof.
  intros Hw Hh. pose proof (spec_pvrtc1_size_eq w h ltac:(lia) ltac:(lia)) as E.
  pose proof (round_up_4_spec w) as [Rw Mw]. pose proof (round_up_4_spec h) as [Rh Mh].
  assert (round_up_to_multiple 4 w <= 8).
  { apply Z.mod_divide in Mw; [destruct Mw as [k Hk]|]; lia. }
  assert (round_up_to_multiple 4 h <= 8).
  { apply Z.mod_divide in Mh; [destruct Mh as [k Hk]|]; lia. }
  rewrite !Z.max_l in E by lia. lia.
Qed.

(** Levels of up to 16384 x 16384 pixels stay clear of the 32-bit limits,
    in PVRTC1 and at 4 bytes per pixel. *)
Lemma sizes_fit_up_to_16384 (w h : Z) :
  0 <= w <= 16384 -> 0 <= h <= 16384 ->
  spec_pvrtc1_size w h < 2 ^ 29 /\ w * h * 4 < 2 ^ 32.
Proof.
  intros Hw Hh. split.
  - pose proof (spec_pvrtc1_size_eq w h ltac:(lia) ltac:(lia)) as E.
    pose proof (round_up_4_mono w 16384 ltac:(lia)) as Mw.
    pose proof (round_up_4_mono h 16384 ltac:(lia)) as Mh.
    change (round_up_to_multiple 4 16384) with 16384 in Mw, Mh.
    assert (Z.max 8 (round_up_to_multiple 4 w) * Z.max 8 (round_up_to_multiple 4 h)
            <= 16384 * 16384) by (apply Z.mul_le_mono_nonneg; lia).
    lia.
  - assert (w * h <= 16384 * 16384) by (apply Z.mul_le_mono_nonneg; lia). lia.
Qed.

(** ** Buffers *)

Lemma size_nil : size [] = 0.
Proof. reflexivity. Qed.

Lemma size_zero_iff (v : bytes) : (size v =? 0) = true <-> v = [].
Proof.
  unfold size. rewrite Z.eqb_eq. destruct v; cbn [length]; split; intros H.
  - reflexivity.
  - reflexivity.
  - lia.
  - discriminate.
Qed.

Lemma poke_length (buf src : bytes) : length (poke buf src) = length buf.
Proof.
  unfold poke. rewrite length_firstn, length_app, length_skipn. lia.
Qed.

Lemma copy_from_jsbuffer_id (srcBuffer : jsbuffer) : copy_from_jsbuffer srcBuffer = srcBuffer.
Proof.
  unfold copy_from_jsbuffer, poke, zeros, size.
  rewrite Nat2Z.id, repeat_length.
  rewrite skipn_all2 by (rewrite repeat_length; lia).
  rewrite app_nil_r. apply firstn_all.
Qed.

(** [set] either throws and writes nothing, or writes all of the source. *)
Lemma js_set_cases (dst src : jsbuffer) :
  (size dst < size src /\ js_set dst src = inl RangeError)
  \/ (size src <= size dst
      /\ js_set dst src = inr (src ++ skipn (length src) dst)).
Proof.
  unfold js_set. destruct (Z.leb_spec (size src) (size dst)); [right | left]; auto.
Qed.

(** ** getImageTranscodedSizeInBytes, branch by branch *)

Section SizeBranches.

Variable NDEBUG : bool.
Variable T : basist.
Variables (self : basis_file T) (i l fmt w h tb : Z).
Hypothesis Hlevel : has_level self i l w h tb.
Hypothesis Hfmt : fmt < cTFTotalTextureFormats T.

Lemma size_uncompressed :
  basis_transcoder_format_is_uncompressed T fmt = true ->
  getImageTranscodedSizeInBytes NDEBUG T i l fmt self
  = (Returns (u32 (u32 (w * basis_get_uncompressed_bytes_per_pixel T fmt) * h)), self).
Proof.
  intros Hu. destruct Hlevel as [Hm Hd].
  unfold getImageTranscodedSizeInBytes. run_monad. live_format Hm Hfmt.
  rewrite Hd, Hu. reflexivity.
Qed.

Lemma size_pvrtc1 :
  basis_transcoder_format_is_uncompressed T fmt = false ->
  is_pvrtc1 T fmt = true ->
  getImageTranscodedSizeInBytes NDEBUG T i l fmt self
  = (Returns
       (u32 (u32 (u32 (Z.max 8 (Z.land (u32 (w + 3)) (u32 (Z.lnot 3)))
                       * Z.max 8 (Z.land (u32 (h + 3)) (u32 (Z.lnot 3)))) * 4) + 7) / 8),
     self).
Proof.
  intros Hu Hp. destruct Hlevel as [Hm Hd]. unfold is_pvrtc1 in Hp.
  unfold getImageTranscodedSizeInBytes. run_monad. live_format Hm Hfmt.
  rewrite Hd, Hu, Hp. reflexivity.
Qed.

Lemma size_block :
  basis_transcoder_format_is_uncompressed T fmt = false ->
  is_pvrtc1 T fmt = false ->
  getImageTranscodedSizeInBytes NDEBUG T i l fmt self
  = (Returns (u32 (tb * basis_get_bytes_per_block_or_pixel T fmt)), self).
Proof.
  intros Hu Hp. destruct Hlevel as [Hm Hd]. unfold is_pvrtc1 in Hp.
  unfold getImageTranscodedSizeInBytes. run_monad. live_format Hm Hfmt.
  rewrite Hd, Hu, Hp. reflexivity.
Qed.

End SizeBranches.

(** The facts used about the test double's containers. *)
Lemma stub_file_live (ready : bool) (images : list (bool * Z * Z)) :
  magic_ok (stub_file ready images) = true.
Proof. reflexivity. Qed.

(** ** The constructor *)

(** The constructor returns a [constructed] object holding the bytes of the
    array when they validate and no bytes otherwise, or stops at [assert(0)];
    it never changes the process-wide state. *)
Lemma basis_file_new_constructed
    (NDEBUG : bool) (T : basist) (jsBuffer : jsbuffer) (g : globals T) :
  match basis_file_new NDEBUG T jsBuffer g with
  | (Returns self, g') =>
      g' = g /\ constructed NDEBUG self
      /\ (m_file self = jsBuffer \/ m_file self = [] \/ g_pGlobal_codebook g = None)
  | (Aborts _, g') => g' = g /\ NDEBUG = false /\ g_pGlobal_codebook g = None
  | (Throws _, _) => False
  end.
Proof.
  unfold basis_file_new, constructed. run_monad. cbv zeta.
  destruct (g_pGlobal_codebook g) as [c |] eqn:Hc.
  - change (poke (zeros (byteLength jsBuffer)) jsBuffer)
      with (copy_from_jsbuffer jsBuffer).
    rewrite copy_from_jsbuffer_id.
    repeat split.
    + right. reflexivity.
    + destruct (validate_header T _ jsBuffer); auto.
  - run_monad. destruct NDEBUG; cbn; auto.
Qed.

(** A container that fails validation is constructed as a closed object. *)
Lemma failed_validation_constructs_closed
    (NDEBUG : bool) (T : basist) (jsBuffer : jsbuffer) (g : globals T)
    (c : etc1_global_selector_codebook T) :
  g_pGlobal_codebook g = Some c ->
  validate_header T (new_transcoder T (Some c)) jsBuffer = false ->
  exists self,
    basis_file_new NDEBUG T jsBuffer g = (Returns self, g)
    /\ magic_ok self = true /\ closed self = self.
Proof.
  intros Hc Hv. unfold basis_file_new. run_monad. cbv zeta. rewrite Hc.
  change (poke (zeros (byteLength jsBuffer)) jsBuffer)
    with (copy_from_jsbuffer jsBuffer).
  rewrite copy_from_jsbuffer_id, Hv.
  eexists. split; [reflexivity |]. split; reflexivity.
Qed.

(** ** The object across calls *)

(** The queries are read-only: whatever they return, the object is the same
    afterwards. *)
Lemma queries_leave_the_object
    (NDEBUG : bool) (T : basist) (self : basis_file T) (i l fmt : Z) :
  snd (getHasAlpha NDEBUG T self) = self
  /\ snd (getNumImages NDEBUG T self) = self
  /\ snd (getNumLevels NDEBUG T i self) = self
  /\ snd (getImageWidth NDEBUG T i l self) = self
  /\ snd (getImageHeight NDEBUG T i l self) = self
  /\ snd (getFileDesc NDEBUG T self) = self
  /\ snd (getImageDesc NDEBUG T i self) = self
  /\ snd (getImageLevelDesc NDEBUG T i l self) = self
  /\ snd (getImageTranscodedSizeInBytes NDEBUG T i l fmt self) = self
  /\ snd (isUASTC NDEBUG T self) = self.
Proof.
  repeat split;
    unfold getHasAlpha, getNumImages, getNumLevels, getImageWidth, getImageHeight,
      getFileDesc, getImageDesc, getImageLevelDesc, getImageTranscodedSizeInBytes,
      isUASTC;
    run_monad; split_branches; reflexivity.
Qed.

(** [startTranscoding] and [transcodeImage] change the transcoder object at
    most: the bytes and the magic stay. Only [close] (and a failed
    validation in the constructor) empties [m_file], and nothing fills it
    again. *)
Lemma only_close_changes_the_bytes
    (NDEBUG : bool) (T : basist) (self : basis_file T) (dst : jsbuffer)
    (allocated : list Z) (i l fmt unused alpha : Z) :
  m_file (snd (startTranscoding NDEBUG T self)) = m_file self
  /\ m_magic (snd (startTranscoding NDEBUG T self)) = m_magic self
  /\ m_file (w_self (snd (transcodeImage NDEBUG T i l fmt unused alpha
                            {| w_self := self; w_dst := dst; w_allocated := allocated |})))
     = m_file self
  /\ m_magic (w_self (snd (transcodeImage NDEBUG T i l fmt unused alpha
                            {| w_self := self; w_dst := dst; w_allocated := allocated |})))
     = m_magic self.
Proof.
  repeat split.
  - unfold startTranscoding. run_monad. split_branches; reflexivity.
  - unfold startTranscoding. run_monad. split_branches; reflexivity.
  - unfold transcodeImage, resize, udiv, call_transcode_image_level, dst_set.
    run_monad. cbn [w_self w_dst w_allocated]. split_branches; reflexivity.
  - unfold transcodeImage, resize, udiv, call_transcode_image_level, dst_set.
    run_monad. cbn [w_self w_dst w_allocated]. split_branches; reflexivity.
Qed.

(** Every method keeps an object [constructed]. *)
Lemma constructed_is_kept
    (NDEBUG : bool) (T : basist) (self : basis_file T) (dst : jsbuffer)
    (allocated : list Z) (i l fmt unused alpha : Z) :
  constructed NDEBUG self ->
  constructed NDEBUG (snd (close NDEBUG T self))
  /\ constructed NDEBUG (snd (startTranscoding NDEBUG T self))
  /\ constructed NDEBUG
       (w_self (snd (transcodeImage NDEBUG T i l fmt unused alpha
                       {| w_self := self; w_dst := dst; w_allocated := allocated |}))).
Proof.
  intros Hobj.
  destruct (only_close_changes_the_bytes NDEBUG T self dst allocated i l fmt unused alpha)
    as (_ & Hs & _ & Ht).
  unfold constructed, magic_ok in *. rewrite Hs, Ht.
  repeat split; try assumption.
  unfold close. run_monad.
  destruct Hobj as [-> | Hm]; [left; reflexivity | right].
  fold (magic_ok self). unfold magic_ok. rewrite Hm, orb_true_r. cbn. exact Hm.
Qed.

(** ** C1: the PVRTC1 size *)

(** Where the code agrees with the claim. For a PVRTC1 4x4 destination
    format and a level of original width [w] and height [h],
    [getImageTranscodedSizeInBytes] returns exactly
    ceil(max(8,w') * max(8,h') * 4 / 8), w' and h' being [w] and [h] rounded up
    to multiples of 4, provided that padded size is below 2^29 bytes (so that
    the 32-bit product [max(8,w') * max(8,h') * 4 + 7] does not wrap). In
    particular every width and height up to 8 gives 32 bytes. The object is
    left unchanged. *)
Theorem pvrtc1_size_is_padded_size
    (NDEBUG : bool) (T : basist) (self : basis_file T) (i l fmt w h tb : Z) :
  has_level self i l w h tb ->
  fmt < cTFTotalTextureFormats T ->
  basis_transcoder_format_is_uncompressed T fmt = false ->
  is_pvrtc1 T fmt = true ->
  0 <= w -> 0 <= h ->
  spec_pvrtc1_size w h < 2 ^ 29 ->
  getImageTranscodedSizeInBytes NDEBUG T i l fmt self
  = (Returns (spec_pvrtc1_size w h), self)
  /\ (w <= 8 -> h <= 8 ->
      getImageTranscodedSizeInBytes NDEBUG T i l fmt self = (Returns 32, self)).
Proof.
  intros Hlevel Hfmt Hu Hp Hw Hh Hfit.
  rewrite (size_pvrtc1 NDEBUG T self i l fmt w h tb Hlevel Hfmt Hu Hp).
  rewrite pvrtc1_code_eq_spec by assumption.
  split; [reflexivity |].
  intros Hw8 Hh8. now rewrite spec_pvrtc1_size_up_to_8 by lia.
Qed.

(** The pairs (1,1), (4,4) and (7,9) on the two PVRTC1 formats: 32, 32 and 48 bytes. *)
Lemma pvrtc1_size_is_padded_size_witness :
  getImageTranscodedSizeInBytes true stub 0 0 8 (stub_file true [(false, 1, 1)])
  = (Returns 32, stub_file true [(false, 1, 1)])
  /\ getImageTranscodedSizeInBytes true stub 0 0 9 (stub_file true [(true, 4, 4)])
     = (Returns 32, stub_file true [(true, 4, 4)])
  /\ getImageTranscodedSizeInBytes false stub 0 0 8 (stub_file true [(false, 7, 9)])
     = (Returns 48, stub_file true [(false, 7, 9)]).
Proof.
  split; [| split].
  - apply (pvrtc1_size_is_padded_size true stub (stub_file true [(false, 1, 1)])
             0 0 8 1 1 1);
      first [ split; reflexivity | reflexivity | lia ].
  - apply (pvrtc1_size_is_padded_size true stub (stub_file true [(true, 4, 4)])
             0 0 9 4 4 1);
      first [ split; reflexivity | reflexivity | lia ].
  - apply (pvrtc1_size_is_padded_size false stub (stub_file true [(false, 7, 9)])
             0 0 8 7 9 6);
      first [ split; reflexivity | reflexivity | lia ].
Defined.

(** C1. The size the claim states is right and the code misses it on a
    large level. A 32768 x 32768 level has a padded size of 2^29 bytes, which
    fits the [uint32_t] that [getImageTranscodedSizeInBytes] returns, and the
    wrapper returns 0 for it, with assertions enabled or not: it multiplies
    by 4 before it divides by 8, and the intermediate product
    [32768 * 32768 * 4] is 2^32, which wraps to 0. The same expression in
    [transcodeImage] is followed by an assertion that fails on this level
    (see C9 below). *)
Theorem pvrtc1_size_wraps_at_32768 :
  get_image_level_desc stub true (stub_container [(false, 32768, 32768)]) 0 0
  = Some (32768, 32768, 67108864)
  /\ getImageTranscodedSizeInBytes true stub 0 0 8 (stub_file true [(false, 32768, 32768)])
     = (Returns 0, stub_file true [(false, 32768, 32768)])
  /\ getImageTranscodedSizeInBytes false stub 0 0 8 (stub_file true [(false, 32768, 32768)])
     = (Returns 0, stub_file true [(false, 32768, 32768)])
  /\ spec_pvrtc1_size 32768 32768 = 536870912
  /\ spec_pvrtc1_size 32768 32768 < 2 ^ 32.
Proof. repeat split; vm_compute; reflexivity. Qed.

(** The same on every library: a live PVRTC1 level of 32768 x 32768 pixels is
    given the size 0. *)
Lemma pvrtc1_size_of_a_32768_level
    (NDEBUG : bool) (T : basist) (self : basis_file T) (i l fmt tb : Z) :
  has_level self i l 32768 32768 tb ->
  fmt < cTFTotalTextureFormats T ->
  basis_transcoder_format_is_uncompressed T fmt = false ->
  is_pvrtc1 T fmt = true ->
  getImageTranscodedSizeInBytes NDEBUG T i l fmt self = (Returns 0, self).
Proof.
  intros Hlevel Hfmt Hu Hp.
  now rewrite (size_pvrtc1 NDEBUG T self i l fmt 32768 32768 tb Hlevel Hfmt Hu Hp).
Qed.

(** ** C2: queries after close *)

Lemma stub_rejects_empty_buffer : rejects_empty_buffer stub.
Proof. intros t. repeat split. Qed.

(** C2, as amended. After [close()] on a constructed object (the library
    failing its queries on an empty buffer), [getNumImages], [getNumLevels],
    [getImageWidth], [getImageHeight], [getHasAlpha] and
    [getImageTranscodedSizeInBytes] return 0, and [close()] can be called
    again and leaves the object as it is. [getFileDesc], [getImageDesc] and
    [getImageLevelDesc] return the all-zero descriptor when assertions are
    compiled out ([NDEBUG]) and stop at their [assert(0)] when assertions are
    enabled. No query changes the object. *)
Theorem queries_after_close
    (NDEBUG : bool) (T : basist) (self : basis_file T) :
  rejects_empty_buffer T ->
  constructed NDEBUG self ->
  close NDEBUG T self = (Returns tt, closed self)
  /\ close NDEBUG T (closed self) = (Returns tt, closed self)
  /\ getNumImages NDEBUG T (closed self) = (Returns 0, closed self)
  /\ (forall i, getNumLevels NDEBUG T i (closed self) = (Returns 0, closed self))
  /\ (forall i l, getImageWidth NDEBUG T i l (closed self) = (Returns 0, closed self))
  /\ (forall i l, getImageHeight NDEBUG T i l (closed self) = (Returns 0, closed self))
  /\ getHasAlpha NDEBUG T (closed self) = (Returns 0, closed self)
  /\ (forall i l fmt,
        getImageTranscodedSizeInBytes NDEBUG T i l fmt (closed self)
        = (Returns 0, closed self))
  /\ getFileDesc NDEBUG T (closed self)
     = (if NDEBUG then Returns zero_file_desc else Aborts "0", closed self)
  /\ (forall i, getImageDesc NDEBUG T i (closed self)
                = (if NDEBUG then Returns zero_image_desc else Aborts "0", closed self))
  /\ (forall i l, getImageLevelDesc NDEBUG T i l (closed self)
                  = (if NDEBUG then Returns zero_image_level_desc else Aborts "0",
                     closed self)).
Proof.
  intros Hempty Hobj.
  destruct (Hempty (m_transcoder self)) as (Hn & Hf & Hi & Hli & Hld).
  assert (Hc : magic_ok (closed self) = magic_ok self) by reflexivity.
  repeat split; intros;
    unfold close, getNumImages, getNumLevels, getImageWidth, getImageHeight,
      getHasAlpha, getImageTranscodedSizeInBytes, getFileDesc, getImageDesc,
      getImageLevelDesc;
    run_monad; rewrite ?Hc; cbn [m_transcoder m_file m_magic closed];
    rewrite ?Hn, ?Hf, ?Hi, ?Hli, ?Hld;
    dead_or_live Hobj;
    try reflexivity;
    try (destruct (cTFTotalTextureFormats T <=? fmt); reflexivity);
    try (destruct NDEBUG; reflexivity).
Qed.

(** A container of two images, closed, with assertions compiled out. *)
Lemma queries_after_close_witness :
  close true stub (stub_file true [(true, 16, 16); (false, 8, 8)])
  = (Returns tt, closed (stub_file true [(true, 16, 16); (false, 8, 8)]))
  /\ getNumImages true stub (closed (stub_file true [(true, 16, 16); (false, 8, 8)]))
     = (Returns 0, closed (stub_file true [(true, 16, 16); (false, 8, 8)]))
  /\ getFileDesc true stub (closed (stub_file true [(true, 16, 16); (false, 8, 8)]))
     = (Returns zero_file_desc, closed (stub_file true [(true, 16, 16); (false, 8, 8)])).
Proof.
  pose proof (queries_after_close true stub
                (stub_file true [(true, 16, 16); (false, 8, 8)])
                stub_rejects_empty_buffer (or_introl eq_refl))
    as (Hclose & _ & Hnum & _ & _ & _ & _ & _ & Hdesc & _).
  exact (conj Hclose (conj Hnum Hdesc)).
Defined.

(** C2 as stated fails with assertions enabled: on a closed container the
    three descriptor queries do not return, they stop at [assert(0)]. *)
Lemma descriptor_queries_assert_after_close :
  close false stub (stub_file true [(true, 16, 16)])
  = (Returns tt, closed (stub_file true [(true, 16, 16)]))
  /\ fst (getFileDesc false stub (closed (stub_file true [(true, 16, 16)]))) = Aborts "0"
  /\ fst (getImageDesc false stub 0 (closed (stub_file true [(true, 16, 16)])))
     = Aborts "0"
  /\ fst (getImageLevelDesc false stub 0 0 (closed (stub_file true [(true, 16, 16)])))
     = Aborts "0".
Proof. repeat split. Qed.

(** ** C3: marshalling into the destination array *)

Lemma size_nonneg (v : bytes) : 0 <= size v.
Proof. unfold size. lia. Qed.

Lemma size_zeros (n : Z) : 0 <= n -> size (zeros n) = n.
Proof. intros H. unfold size, zeros. rewrite repeat_length. lia. Qed.

Lemma size_poke (buf src : bytes) : size (poke buf src) = size buf.
Proof. unfold size. now rewrite poke_length. Qed.

Lemma firstn_length_app {A : Type} (l k : list A) : firstn (length l) (l ++ k) = l.
Proof.
  rewrite firstn_app, Nat.sub_diag, firstn_all. cbn. apply app_nil_r.
Qed.

Lemma skipn_length_app {A : Type} (l k : list A) : skipn (length l) (l ++ k) = k.
Proof.
  rewrite skipn_app, Nat.sub_diag, skipn_all. reflexivity.
Qed.

Lemma size_app (a b : bytes) : size (a ++ b) = size a + size b.
Proof. unfold size. rewrite length_app. lia. Qed.

Lemma size_skipn (n : nat) (b : bytes) : size (skipn n b) = Z.max 0 (size b - Z.of_nat n).
Proof. unfold size. rewrite length_skipn. lia. Qed.

(** *** copy_to_jsbuffer and the two low-level entry points *)

Section Marshalling.
Variable NDEBUG : bool.
Variable T : basist.

(** An empty source fails the call and leaves the destination alone. *)
Lemma copy_to_jsbuffer_empty_source (dstBuffer : jsbuffer) :
  copy_to_jsbuffer NDEBUG [] dstBuffer = (Returns false, dstBuffer).
Proof. reflexivity. Qed.

(** A destination shorter than the source fails the call and leaves the
    destination alone. *)
Lemma copy_to_jsbuffer_small_destination (srcVec : bytes) (dstBuffer : jsbuffer) :
  byteLength dstBuffer < size srcVec ->
  copy_to_jsbuffer NDEBUG srcVec dstBuffer
  = (if NDEBUG then Returns false else Aborts "0", dstBuffer).
Proof.
  intros Hsmall. unfold byteLength in Hsmall. pose proof (size_nonneg dstBuffer).
  unfold copy_to_jsbuffer.
  destruct (Z.eqb_spec (size srcVec) 0); [lia |].
  run_monad. unfold byteLength.
  destruct (Z.ltb_spec (size dstBuffer) (size srcVec)); [| lia].
  destruct NDEBUG; reflexivity.
Qed.

(** Otherwise the whole source is copied; [set] cannot throw here. *)
Lemma copy_to_jsbuffer_copies (srcVec : bytes) (dstBuffer : jsbuffer) :
  srcVec <> [] -> size srcVec <= byteLength dstBuffer ->
  copy_to_jsbuffer NDEBUG srcVec dstBuffer
  = (Returns true, srcVec ++ skipn (length srcVec) dstBuffer).
Proof.
  intros Hne Hfit. unfold byteLength in Hfit. unfold copy_to_jsbuffer.
  destruct (size srcVec =? 0) eqn:E; [apply size_zero_iff in E; contradiction |].
  run_monad. unfold byteLength.
  destruct (Z.ltb_spec (size dstBuffer) (size srcVec)); [lia |].
  unfold js_set. destruct (Z.leb_spec (size srcVec) (size dstBuffer)); [| lia].
  reflexivity.
Qed.






End Marshalling.

(** *** transcodeImage, branch by branch *)

Section TranscodeBranches.

Variable NDEBUG : bool.
Variable T : basist.
Variables (self : basis_file T) (dst : jsbuffer) (allocated : list Z).
Variables (i l fmt unused alpha w h tb : Z).
Hypothesis Hlevel : has_level self i l w h tb.
Hypothesis Hfmt : fmt < cTFTotalTextureFormats T.

Lemma transcodeImage_uncompressed :
  basis_transcoder_format_is_uncompressed T fmt = true ->
  transcodeImage NDEBUG T i l fmt unused alpha
    {| w_self := self; w_dst := dst; w_allocated := allocated |}
  = transcode_and_set i l
      (u32 (u32 (w * basis_get_uncompressed_bytes_per_pixel T fmt) * h))
      (u32 (w * h)) fmt
      (if alpha =? 0 then 0 else cDecodeFlagsTranscodeAlphaDataToOpaqueFormats T)
      w h {| w_self := self; w_dst := dst; w_allocated := allocated |}.
Proof.
  intros Hu. destruct Hlevel as [Hm Hd].
  unfold transcodeImage. run_monad. cbn [w_self].
  live_format Hm Hfmt. rewrite Hd, Hu. reflexivity.
Qed.

Lemma transcodeImage_block :
  basis_transcoder_format_is_uncompressed T fmt = false ->
  is_pvrtc1 T fmt = false ->
  basis_get_bytes_per_block_or_pixel T fmt <> 0 ->
  transcodeImage NDEBUG T i l fmt unused alpha
    {| w_self := self; w_dst := dst; w_allocated := allocated |}
  = transcode_and_set i l
      (u32 (tb * basis_get_bytes_per_block_or_pixel T fmt))
      (u32 (tb * basis_get_bytes_per_block_or_pixel T fmt)
       / basis_get_bytes_per_block_or_pixel T fmt)
      fmt
      (if alpha =? 0 then 0 else cDecodeFlagsTranscodeAlphaDataToOpaqueFormats T)
      0 0 {| w_self := self; w_dst := dst; w_allocated := allocated |}.
Proof.
  intros Hu Hp Hb. destruct Hlevel as [Hm Hd]. unfold is_pvrtc1 in Hp.
  unfold transcodeImage. run_monad. cbn [w_self].
  live_format Hm Hfmt. rewrite Hd, Hu, Hp.
  unfold transcode_and_set, resize, udiv. run_monad.
  destruct (Z.eqb_spec (basis_get_bytes_per_block_or_pixel T fmt) 0); [contradiction |].
  run_monad. rewrite size_zeros by apply u32_range. reflexivity.
Qed.

Lemma transcodeImage_pvrtc1 (padded : Z) :
  basis_transcoder_format_is_uncompressed T fmt = false ->
  is_pvrtc1 T fmt = true ->
  basis_get_bytes_per_block_or_pixel T fmt <> 0 ->
  padded = u32 (u32 (u32 (Z.max 8 (Z.land (u32 (w + 3)) (u32 (Z.lnot 3)))
                          * Z.max 8 (Z.land (u32 (h + 3)) (u32 (Z.lnot 3)))) * 4) + 7) / 8 ->
  0 <= padded
  /\ transcodeImage NDEBUG T i l fmt unused alpha
       {| w_self := self; w_dst := dst; w_allocated := allocated |}
     = if NDEBUG || (u32 (tb * basis_get_bytes_per_block_or_pixel T fmt) <=? padded)
       then transcode_and_set i l padded
              (padded / basis_get_bytes_per_block_or_pixel T fmt) fmt
              (if alpha =? 0 then 0 else cDecodeFlagsTranscodeAlphaDataToOpaqueFormats T)
              0 0 {| w_self := self; w_dst := dst; w_allocated := allocated |}
       else (Aborts "required_size >= total_blocks * bytes_per_block",
             {| w_self := self; w_dst := dst; w_allocated := allocated |}).
Proof.
  intros Hu Hp Hb Epadded.
  assert (Hpadded : 0 <= padded).
  { subst padded. apply Z.div_pos; [apply u32_range | lia]. }
  split; [exact Hpadded |].
  destruct Hlevel as [Hm Hd]. unfold is_pvrtc1 in Hp.
  unfold transcodeImage. run_monad. cbn [w_self].
  live_format Hm Hfmt. rewrite Hd, Hu, Hp. rewrite <- Epadded.
  destruct (NDEBUG || (u32 (tb * basis_get_bytes_per_block_or_pixel T fmt) <=? padded));
    [| reflexivity].
  unfold transcode_and_set, resize, udiv. run_monad.
  destruct (Z.eqb_spec (basis_get_bytes_per_block_or_pixel T fmt) 0); [contradiction |].
  run_monad. rewrite size_zeros by exact Hpadded. reflexivity.
Qed.

End TranscodeBranches.





(** The same on a level the container has, with a block size that is not
    zero: the arguments of the one run of the transcoder. *)
Lemma transcodeImage_on_a_level
    (NDEBUG : bool) (T : basist) (self : basis_file T) (dst : jsbuffer)
    (allocated : list Z) (i l fmt unused alpha w h tb s : Z) :
  has_level self i l w h tb ->
  fmt < cTFTotalTextureFormats T ->
  (basis_transcoder_format_is_uncompressed T fmt = false ->
   basis_get_bytes_per_block_or_pixel T fmt <> 0) ->
  getImageTranscodedSizeInBytes NDEBUG T i l fmt self = (Returns s, self) ->
  let raster := basis_transcoder_format_is_uncompressed T fmt in
  let w0 := {| w_self := self; w_dst := dst; w_allocated := allocated |} in
  let r := transcodeImage NDEBUG T i l fmt unused alpha w0 in
  0 <= s
  /\ (r = transcode_and_set i l s
            (if raster then u32 (w * h) else s / basis_get_bytes_per_block_or_pixel T fmt)
            fmt
            (if alpha =? 0 then 0 else cDecodeFlagsTranscodeAlphaDataToOpaqueFormats T)
            (if raster then w else 0) (if raster then h else 0) w0
      \/ aborted (fst r) = true).
Proof.
  intros Hlevel Hfmt Hbpb Hsize raster w0 r. subst r w0 raster.
  destruct (basis_transcoder_format_is_uncompressed T fmt) eqn:Hu.
  - rewrite (size_uncompressed NDEBUG T self i l fmt w h tb Hlevel Hfmt Hu) in Hsize.
    injection Hsize as <-. split; [apply u32_range |]. left.
    apply (transcodeImage_uncompressed NDEBUG T self dst allocated i l fmt unused alpha
             w h tb Hlevel Hfmt Hu).
  - specialize (Hbpb eq_refl). destruct (is_pvrtc1 T fmt) eqn:Hp.
    + rewrite (size_pvrtc1 NDEBUG T self i l fmt w h tb Hlevel Hfmt Hu Hp) in Hsize.
      injection Hsize as <-.
      destruct (transcodeImage_pvrtc1 NDEBUG T self dst allocated i l fmt unused alpha
                  w h tb Hlevel Hfmt _ Hu Hp Hbpb eq_refl) as [Hpadded ->].
      split; [exact Hpadded |].
      destruct (NDEBUG || _); [left; reflexivity | right; reflexivity].
    + rewrite (size_block NDEBUG T self i l fmt w h tb Hlevel Hfmt Hu Hp) in Hsize.
      injection Hsize as <-. split; [apply u32_range |]. left.
      apply (transcodeImage_block NDEBUG T self dst allocated i l fmt unused alpha
               w h tb Hlevel Hfmt Hu Hp Hbpb).
Qed.

(** *** The low-level entry points succeed only through the transcoder *)



(** *** The claim *)



(** ** C4: formats at or past cTFTotalTextureFormats *)

(** C4. For every format enumerant greater than or equal to
    [cTFTotalTextureFormats], on every constructed object,
    [getImageTranscodedSizeInBytes] and [transcodeImage] fail the call by
    returning 0 before anything else happens: the object and its transcoder
    are unchanged, no destination vector has been sized, and the destination
    array is untouched (no zero-length or truncated buffer is produced). *)
Theorem out_of_range_format_is_rejected
    (NDEBUG : bool) (T : basist) (self : basis_file T) (dst : jsbuffer)
    (allocated : list Z) (i l fmt unused alpha : Z) :
  cTFTotalTextureFormats T <= fmt ->
  constructed NDEBUG self ->
  getImageTranscodedSizeInBytes NDEBUG T i l fmt self = (Returns 0, self)
  /\ transcodeImage NDEBUG T i l fmt unused alpha
       {| w_self := self; w_dst := dst; w_allocated := allocated |}
     = (Returns 0, {| w_self := self; w_dst := dst; w_allocated := allocated |}).
Proof.
  intros Hfmt Hobj. apply Z.leb_le in Hfmt. split.
  - unfold getImageTranscodedSizeInBytes. run_monad.
    dead_or_live Hobj; rewrite ?Hfmt; reflexivity.
  - unfold transcodeImage. run_monad. cbn [w_self].
    dead_or_live Hobj; rewrite ?Hfmt; reflexivity.
Qed.

(** Format 22 ([cTFTotalTextureFormats] itself) on a valid container, with
    assertions enabled. *)
Lemma out_of_range_format_is_rejected_witness :
  getImageTranscodedSizeInBytes false stub 0 0 22 (stub_file true [(false, 16, 16)])
  = (Returns 0, stub_file true [(false, 16, 16)])
  /\ transcodeImage false stub 0 0 22 0 0
       {| w_self := stub_file true [(false, 16, 16)];
          w_dst := repeat x55 128; w_allocated := [] |}
     = (Returns 0, {| w_self := stub_file true [(false, 16, 16)];
                      w_dst := repeat x55 128; w_allocated := [] |}).
Proof.
  apply (out_of_range_format_is_rejected false stub (stub_file true [(false, 16, 16)])
           (repeat x55 128) [] 0 0 22 0 0).
  - cbn. lia.
  - right. reflexivity.
Defined.

(** ** C5: raster formats and the general block formats *)

(** On 32 bits the two rules give the size of the specification reduced
    modulo 2^32. *)
Lemma size_is_spec_modulo_2_32
    (NDEBUG : bool) (T : basist) (self : basis_file T) (i l fmt w h tb : Z) :
  has_level self i l w h tb ->
  fmt < cTFTotalTextureFormats T ->
  basis_transcoder_format_is_uncompressed T fmt = true \/ is_pvrtc1 T fmt = false ->
  getImageTranscodedSizeInBytes NDEBUG T i l fmt self
  = (Returns (u32 (spec_requiredSize T fmt w h tb)), self).
Proof.
  intros Hlevel Hfmt Hkind. unfold spec_requiredSize.
  destruct (basis_transcoder_format_is_uncompressed T fmt) eqn:Hu.
  - rewrite (size_uncompressed NDEBUG T self i l fmt w h tb Hlevel Hfmt Hu).
    rewrite u32_mul_idemp_l. do 3 f_equal. ring.
  - destruct Hkind as [Hk | Hk]; [discriminate |]. rewrite Hk.
    apply (size_block NDEBUG T self i l fmt w h tb Hlevel Hfmt Hu Hk).
Qed.

(** C5, as amended. For an uncompressed format and a level of original
    width [w] and height [h], [getImageTranscodedSizeInBytes] returns exactly
    [w * h * bytesPerPixel], with no padding, whenever that product is below
    2^32; for a block format other than PVRTC1 it returns exactly
    [totalBlocks * bytesPerBlock] whenever that product is below 2^32. *)
Theorem raster_and_block_sizes
    (NDEBUG : bool) (T : basist) (self : basis_file T) (i l fmt w h tb : Z) :
  has_level self i l w h tb ->
  fmt < cTFTotalTextureFormats T ->
  (basis_transcoder_format_is_uncompressed T fmt = true ->
   0 <= w * h * basis_get_uncompressed_bytes_per_pixel T fmt < 2 ^ 32 ->
   getImageTranscodedSizeInBytes NDEBUG T i l fmt self
   = (Returns (w * h * basis_get_uncompressed_bytes_per_pixel T fmt), self))
  /\ (basis_transcoder_format_is_uncompressed T fmt = false ->
      is_pvrtc1 T fmt = false ->
      0 <= tb * basis_get_bytes_per_block_or_pixel T fmt < 2 ^ 32 ->
      getImageTranscodedSizeInBytes NDEBUG T i l fmt self
      = (Returns (tb * basis_get_bytes_per_block_or_pixel T fmt), self)).
Proof.
  intros Hlevel Hfmt. split.
  - intros Hu Hfit.
    rewrite (size_is_spec_modulo_2_32 NDEBUG T self i l fmt w h tb Hlevel Hfmt
               (or_introl Hu)).
    unfold spec_requiredSize. rewrite Hu. now rewrite u32_small.
  - intros Hu Hp Hfit.
    rewrite (size_is_spec_modulo_2_32 NDEBUG T self i l fmt w h tb Hlevel Hfmt
               (or_intror Hp)).
    unfold spec_requiredSize. rewrite Hu, Hp. now rewrite u32_small.
Qed.

(** RGBA32 (4 bytes per pixel) on a 7 x 9 level, and ETC1 (8 bytes per
    block) on its 2 x 3 blocks. *)
Lemma raster_and_block_sizes_witness :
  getImageTranscodedSizeInBytes true stub 0 0 13 (stub_file true [(false, 7, 9)])
  = (Returns (7 * 9 * 4), stub_file true [(false, 7, 9)])
  /\ getImageTranscodedSizeInBytes true stub 0 0 0 (stub_file true [(false, 7, 9)])
     = (Returns (6 * 8), stub_file true [(false, 7, 9)]).
Proof.
  split.
  - apply (proj1 (raster_and_block_sizes true stub (stub_file true [(false, 7, 9)])
                    0 0 13 7 9 6 (conj eq_refl eq_refl) eq_refl) eq_refl).
    vm_compute. split; [discriminate | reflexivity].
  - apply (proj2 (raster_and_block_sizes true stub (stub_file true [(false, 7, 9)])
                    0 0 0 7 9 6 (conj eq_refl eq_refl) eq_refl) eq_refl eq_refl).
    vm_compute. split; [discriminate | reflexivity].
Defined.

(** C5 as stated fails on large levels: a 32768 x 32768 RGBA32 level takes
    2^32 bytes, and the wrapper returns 0. *)
Lemma raster_size_wraps_at_32768 :
  basis_transcoder_format_is_uncompressed stub 13 = true
  /\ get_image_level_desc stub true (stub_container [(false, 32768, 32768)]) 0 0
     = Some (32768, 32768, 67108864)
  /\ getImageTranscodedSizeInBytes true stub 0 0 13 (stub_file true [(false, 32768, 32768)])
     = (Returns 0, stub_file true [(false, 32768, 32768)])
  /\ 32768 * 32768 * basis_get_uncompressed_bytes_per_pixel stub 13 = 4294967296.
Proof. repeat split; vm_compute; reflexivity. Qed.

(** The same on every library with a format of 4 bytes per pixel. *)
Lemma raster_size_of_a_32768_level
    (NDEBUG : bool) (T : basist) (self : basis_file T) (i l fmt tb : Z) :
  has_level self i l 32768 32768 tb ->
  fmt < cTFTotalTextureFormats T ->
  basis_transcoder_format_is_uncompressed T fmt = true ->
  basis_get_uncompressed_bytes_per_pixel T fmt = 4 ->
  getImageTranscodedSizeInBytes NDEBUG T i l fmt self = (Returns 0, self).
Proof.
  intros Hlevel Hfmt Hu Hbpp.
  rewrite (size_uncompressed NDEBUG T self i l fmt 32768 32768 tb Hlevel Hfmt Hu).
  now rewrite Hbpp.
Qed.

(** ** C6: empty palette and table buffers *)

(** C6, as amended. [decode_palettes] with an empty endpoint buffer or an
    empty selector buffer, and [decode_tables] with an empty table buffer,
    never reach the decoder and never change the session: they return
    [false] when assertions are compiled out ([NDEBUG]) and stop at
    [assert(0)] when assertions are enabled. *)
Theorem empty_palette_or_table_buffer_fails
    (NDEBUG : bool) (T : basist) (session : lowlevel_etc1s_image_transcoder T)
    (num_endpoints num_selectors : Z) (endpoint_data selector_data : jsbuffer) :
  endpoint_data = [] \/ selector_data = [] ->
  decode_palettes NDEBUG T num_endpoints endpoint_data num_selectors selector_data session
  = (if NDEBUG then Returns false else Aborts "0", session)
  /\ decode_tables NDEBUG T [] session
     = (if NDEBUG then Returns false else Aborts "0", session).
Proof.
  intros Hempty. split.
  - unfold decode_palettes. rewrite !copy_from_jsbuffer_id.
    assert (E : (size endpoint_data =? 0) || (size selector_data =? 0) = true).
    { apply orb_true_iff. destruct Hempty as [-> | ->]; [left | right]; reflexivity. }
    rewrite E. run_monad. destruct NDEBUG; reflexivity.
  - unfold decode_tables. cbn. run_monad. destruct NDEBUG; reflexivity.
Qed.

(** A session whose palettes and tables are loaded, then an empty selector
    buffer and an empty table buffer, with assertions compiled out. *)
Lemma empty_palette_or_table_buffer_fails_witness :
  decode_palettes true stub 4 [x01; x02] 4 []
    {| etc1s_base := (true, true) : basisu_lowlevel_etc1s_transcoder stub;
       m_state := tt : basisu_transcoder_state stub |}
  = (Returns false,
     {| etc1s_base := (true, true) : basisu_lowlevel_etc1s_transcoder stub;
        m_state := tt : basisu_transcoder_state stub |})
  /\ decode_tables true stub []
       {| etc1s_base := (true, true) : basisu_lowlevel_etc1s_transcoder stub;
          m_state := tt : basisu_transcoder_state stub |}
     = (Returns false,
        {| etc1s_base := (true, true) : basisu_lowlevel_etc1s_transcoder stub;
           m_state := tt : basisu_transcoder_state stub |}).
Proof.
  apply (empty_palette_or_table_buffer_fails true stub
           {| etc1s_base := (true, true) : basisu_lowlevel_etc1s_transcoder stub;
              m_state := tt : basisu_transcoder_state stub |}
           4 4 [x01; x02] []).
  right. reflexivity.
Defined.

(** C6 as stated fails with assertions enabled: the calls do not return
    [false], they stop at [assert(0)]. *)
Lemma empty_buffers_assert_in_debug_build :
  decode_palettes false stub 4 [] 4 [x01]
    {| etc1s_base := (false, false) : basisu_lowlevel_etc1s_transcoder stub;
       m_state := tt : basisu_transcoder_state stub |}
  = (Aborts "0",
     {| etc1s_base := (false, false) : basisu_lowlevel_etc1s_transcoder stub;
        m_state := tt : basisu_transcoder_state stub |})
  /\ decode_tables false stub []
       {| etc1s_base := (false, false) : basisu_lowlevel_etc1s_transcoder stub;
          m_state := tt : basisu_transcoder_state stub |}
     = (Aborts "0",
        {| etc1s_base := (false, false) : basisu_lowlevel_etc1s_transcoder stub;
           m_state := tt : basisu_transcoder_state stub |}).
Proof. split; reflexivity. Qed.

(** With data in both buffers the call is the decoder's. *)
Lemma decode_palettes_forwards
    (NDEBUG : bool) (T : basist) (session : lowlevel_etc1s_image_transcoder T)
    (num_endpoints num_selectors : Z) (endpoint_data selector_data : jsbuffer) :
  endpoint_data <> [] -> selector_data <> [] ->
  decode_palettes NDEBUG T num_endpoints endpoint_data num_selectors selector_data session
  = (Returns (fst (etc1s_decode_palettes T (etc1s_base session)
                     num_endpoints endpoint_data num_selectors selector_data)),
     {| etc1s_base := snd (etc1s_decode_palettes T (etc1s_base session)
                             num_endpoints endpoint_data num_selectors selector_data);
        m_state := m_state session |}).
Proof.
  intros He Hs. unfold decode_palettes. rewrite !copy_from_jsbuffer_id.
  destruct (size endpoint_data =? 0) eqn:E1; [apply size_zero_iff in E1; contradiction |].
  destruct (size selector_data =? 0) eqn:E2; [apply size_zero_iff in E2; contradiction |].
  cbn [orb]. run_monad.
  destruct (etc1s_decode_palettes T _ _ _ _ _) as [ok base]. reflexivity.
Qed.

(** ** C7: determinism and monotonicity of the size *)

Lemma spec_requiredSize_mono (T : basist) (fmt w1 h1 tb1 w2 h2 tb2 : Z) :
  0 <= basis_get_uncompressed_bytes_per_pixel T fmt ->
  0 <= basis_get_bytes_per_block_or_pixel T fmt ->
  0 <= w1 <= w2 -> 0 <= h1 <= h2 -> 0 <= tb1 <= tb2 ->
  0 <= spec_requiredSize T fmt w1 h1 tb1 <= spec_requiredSize T fmt w2 h2 tb2.
Proof.
  intros Hbpp Hbpb Hw Hh Htb. unfold spec_requiredSize.
  destruct (basis_transcoder_format_is_uncompressed T fmt).
  - assert (0 <= w1 * h1 <= w2 * h2) by nia. nia.
  - destruct (is_pvrtc1 T fmt).
    + pose proof (spec_pvrtc1_size_mono w1 h1 w2 h2 Hw Hh).
      pose proof (spec_pvrtc1_size_eq w1 h1 ltac:(lia) ltac:(lia)).
      assert (0 <= Z.max 8 (round_up_to_multiple 4 w1)
                   * Z.max 8 (round_up_to_multiple 4 h1)) by (apply Z.mul_nonneg_nonneg; lia).
      lia.
    + nia.
Qed.

(** The wrapper computes the size of the specification whenever that size is
    below [size_limit]. *)
Lemma size_refines_spec
    (NDEBUG : bool) (T : basist) (self : basis_file T) (i l fmt w h tb : Z) :
  has_level self i l w h tb ->
  fmt < cTFTotalTextureFormats T ->
  0 <= w -> 0 <= h ->
  0 <= spec_requiredSize T fmt w h tb < size_limit T fmt ->
  getImageTranscodedSizeInBytes NDEBUG T i l fmt self
  = (Returns (spec_requiredSize T fmt w h tb), self).
Proof.
  intros Hlevel Hfmt Hw Hh Hfit. unfold size_limit, spec_requiredSize in *.
  destruct (basis_transcoder_format_is_uncompressed T fmt) eqn:Hu; cbn [negb andb] in Hfit.
  - rewrite (size_uncompressed NDEBUG T self i l fmt w h tb Hlevel Hfmt Hu).
    rewrite u32_mul_idemp_l.
    replace (w * basis_get_uncompressed_bytes_per_pixel T fmt * h)
      with (w * h * basis_get_uncompressed_bytes_per_pixel T fmt) by ring.
    now rewrite u32_small.
  - destruct (is_pvrtc1 T fmt) eqn:Hp.
    + rewrite (size_pvrtc1 NDEBUG T self i l fmt w h tb Hlevel Hfmt Hu Hp).
      rewrite pvrtc1_code_eq_spec by lia. reflexivity.
    + rewrite (size_block NDEBUG T self i l fmt w h tb Hlevel Hfmt Hu Hp).
      now rewrite u32_small.
Qed.

(** C7, as amended. [getImageTranscodedSizeInBytes] is deterministic: a
    second call on the same inputs returns what the first returned, and for
    a fixed format the result depends only on the level's original width,
    height and block count. For a fixed format it is monotonically
    non-decreasing in width and height (the block count not decreasing
    either) as long as the size of the larger level is below [size_limit],
    that is, as long as its 32-bit computation does not wrap. *)
Theorem transcoded_size_deterministic_and_monotone
    (NDEBUG : bool) (T : basist) (self1 self2 : basis_file T)
    (i1 l1 i2 l2 fmt w1 h1 tb1 w2 h2 tb2 : Z) :
  has_level self1 i1 l1 w1 h1 tb1 ->
  has_level self2 i2 l2 w2 h2 tb2 ->
  fmt < cTFTotalTextureFormats T ->
  getImageTranscodedSizeInBytes NDEBUG T i1 l1 fmt
    (snd (getImageTranscodedSizeInBytes NDEBUG T i1 l1 fmt self1))
  = getImageTranscodedSizeInBytes NDEBUG T i1 l1 fmt self1
  /\ (w1 = w2 -> h1 = h2 -> tb1 = tb2 ->
      fst (getImageTranscodedSizeInBytes NDEBUG T i1 l1 fmt self1)
      = fst (getImageTranscodedSizeInBytes NDEBUG T i2 l2 fmt self2))
  /\ (0 <= basis_get_uncompressed_bytes_per_pixel T fmt ->
      0 <= basis_get_bytes_per_block_or_pixel T fmt ->
      0 <= w1 <= w2 -> 0 <= h1 <= h2 -> 0 <= tb1 <= tb2 ->
      spec_requiredSize T fmt w2 h2 tb2 < size_limit T fmt ->
      exists s1 s2,
        getImageTranscodedSizeInBytes NDEBUG T i1 l1 fmt self1 = (Returns s1, self1)
        /\ getImageTranscodedSizeInBytes NDEBUG T i2 l2 fmt self2 = (Returns s2, self2)
        /\ s1 <= s2).
Proof.
  intros H1 H2 Hfmt. split; [| split].
  - destruct (queries_leave_the_object NDEBUG T self1 i1 l1 fmt)
      as (_ & _ & _ & _ & _ & _ & _ & _ & Hsame & _).
    now rewrite Hsame.
  - intros -> -> ->.
    destruct (basis_transcoder_format_is_uncompressed T fmt) eqn:Hu.
    + now rewrite (size_uncompressed NDEBUG T self1 i1 l1 fmt w2 h2 tb2 H1 Hfmt Hu),
        (size_uncompressed NDEBUG T self2 i2 l2 fmt w2 h2 tb2 H2 Hfmt Hu).
    + destruct (is_pvrtc1 T fmt) eqn:Hp.
      * now rewrite (size_pvrtc1 NDEBUG T self1 i1 l1 fmt w2 h2 tb2 H1 Hfmt Hu Hp),
          (size_pvrtc1 NDEBUG T self2 i2 l2 fmt w2 h2 tb2 H2 Hfmt Hu Hp).
      * now rewrite (size_block NDEBUG T self1 i1 l1 fmt w2 h2 tb2 H1 Hfmt Hu Hp),
          (size_block NDEBUG T self2 i2 l2 fmt w2 h2 tb2 H2 Hfmt Hu Hp).
  - intros Hbpp Hbpb Hw Hh Htb Hfit.
    pose proof (spec_requiredSize_mono T fmt w1 h1 tb1 w2 h2 tb2 Hbpp Hbpb Hw Hh Htb) as Hm.
    exists (spec_requiredSize T fmt w1 h1 tb1), (spec_requiredSize T fmt w2 h2 tb2).
    repeat split.
    + apply (size_refines_spec NDEBUG T self1 i1 l1 fmt w1 h1 tb1); try assumption; lia.
    + apply (size_refines_spec NDEBUG T self2 i2 l2 fmt w2 h2 tb2); try assumption; lia.
    + lia.
Qed.

(** Levels of 1 x 1 and of 7 x 9 pixels in RGBA32: 4 and 252 bytes. *)
Lemma transcoded_size_deterministic_and_monotone_witness :
  exists s1 s2,
    getImageTranscodedSizeInBytes true stub 0 0 13
      (stub_file true [(false, 1, 1); (false, 7, 9)])
    = (Returns s1, stub_file true [(false, 1, 1); (false, 7, 9)])
    /\ getImageTranscodedSizeInBytes true stub 1 0 13
         (stub_file true [(false, 1, 1); (false, 7, 9)])
       = (Returns s2, stub_file true [(false, 1, 1); (false, 7, 9)])
    /\ s1 <= s2.
Proof.
  apply (proj2 (proj2 (transcoded_size_deterministic_and_monotone true stub
                         (stub_file true [(false, 1, 1); (false, 7, 9)])
                         (stub_file true [(false, 1, 1); (false, 7, 9)])
                         0 0 1 0 13 1 1 1 7 9 6
                         (conj eq_refl eq_refl) (conj eq_refl eq_refl) eq_refl)));
    vm_compute; first [ reflexivity | discriminate | split; discriminate ].
Defined.

(** C7 as stated fails once a size wraps: in RGBA32 a 1 x 1 level takes 4
    bytes and the larger 32768 x 32768 level is given 0. *)
Lemma transcoded_size_not_monotone_at_32768 :
  getImageTranscodedSizeInBytes true stub 0 0 13
    (stub_file true [(false, 1, 1); (false, 32768, 32768)])
  = (Returns 4, stub_file true [(false, 1, 1); (false, 32768, 32768)])
  /\ getImageTranscodedSizeInBytes true stub 1 0 13
       (stub_file true [(false, 1, 1); (false, 32768, 32768)])
     = (Returns 0, stub_file true [(false, 1, 1); (false, 32768, 32768)]).
Proof. split; vm_compute; reflexivity. Qed.

(** ** C8: basis_init *)

(** C8. [basis_init] is idempotent: after a first call, any number [n] of
    further calls leaves the process-wide state (the codebook pointer and
    the library's own state) exactly as the first call left it. *)
Theorem basis_init_idempotent
    (BASISU_SUPPORT_ENCODING : bool) (T : basist) (g : globals T) (n : nat) :
  Nat.iter n (basis_init BASISU_SUPPORT_ENCODING T) (basis_init BASISU_SUPPORT_ENCODING T g)
  = basis_init BASISU_SUPPORT_ENCODING T g.
Proof.
  assert (Hset : exists c,
             g_pGlobal_codebook (basis_init BASISU_SUPPORT_ENCODING T g) = Some c).
  { unfold basis_init. destruct (g_pGlobal_codebook g) eqn:E.
    - exists e. exact E.
    - eexists. reflexivity. }
  destruct Hset as [c Hc].
  induction n as [| n IH].
  - reflexivity.
  - change (basis_init BASISU_SUPPORT_ENCODING T
              (Nat.iter n (basis_init BASISU_SUPPORT_ENCODING T)
                 (basis_init BASISU_SUPPORT_ENCODING T g))
            = basis_init BASISU_SUPPORT_ENCODING T g).
    rewrite IH. unfold basis_init at 1. now rewrite Hc.
Qed.

(** The first call does initialise: from the start-up state (null pointer)
    the codebook is set and the library initialised once. *)
Lemma basis_init_from_null (T : basist) (l : lib_globals T) :
  basis_init false T {| g_pGlobal_codebook := None; g_lib := l |}
  = {| g_pGlobal_codebook := Some (new_codebook T);
       g_lib := basisu_transcoder_init T l |}.
Proof. reflexivity. Qed.

(** ** C9: the assertion of transcodeImage on PVRTC1 *)

Lemma u32_le (z : Z) : 0 <= z -> u32 z <= z.
Proof. intros H. unfold u32. apply Z.mod_le; lia. Qed.

(** Where the assertion holds. In [transcodeImage], for a PVRTC1 format (8
    bytes per block) and a level of [w] x [h] pixels whose block count is at
    most the number of 4x4 blocks covering it, the padded required size is at
    least [total_blocks * bytes_per_block] and the assertion
    [required_size >= total_blocks * bytes_per_block] holds, in a build with
    assertions enabled too, provided the padded size is below 2^29 bytes (no
    32-bit wrap-around). The vector sized by the call has the padded size. *)
Theorem pvrtc1_assertion_holds
    (NDEBUG : bool) (T : basist) (self : basis_file T) (dst : jsbuffer)
    (allocated : list Z) (i l fmt unused alpha w h tb : Z) :
  has_level self i l w h tb ->
  fmt < cTFTotalTextureFormats T ->
  basis_transcoder_format_is_uncompressed T fmt = false ->
  is_pvrtc1 T fmt = true ->
  basis_get_bytes_per_block_or_pixel T fmt = 8 ->
  0 <= w -> 0 <= h -> 0 <= tb <= blocks_4x4 w h ->
  spec_pvrtc1_size w h < 2 ^ 29 ->
  tb * 8 <= spec_pvrtc1_size w h
  /\ aborted (fst (transcodeImage NDEBUG T i l fmt unused alpha
                     {| w_self := self; w_dst := dst; w_allocated := allocated |}))
     = false
  /\ w_allocated (snd (transcodeImage NDEBUG T i l fmt unused alpha
                         {| w_self := self; w_dst := dst; w_allocated := allocated |}))
     = allocated ++ [spec_pvrtc1_size w h].
Proof.
  intros [Hm Hd] Hfmt Hu Hp Hbpb Hw Hh Htb Hfit.
  pose proof (blocks_fit_in_spec_pvrtc1_size w h Hw Hh) as Hblocks.
  assert (Hle : tb * 8 <= spec_pvrtc1_size w h) by lia.
  split; [exact Hle |].
  unfold is_pvrtc1 in Hp.
  unfold transcodeImage. run_monad. cbn [w_self].
  live_format Hm Hfmt.
  rewrite Hd, Hu, Hp, Hbpb.
  rewrite pvrtc1_code_eq_spec by assumption.
  assert (Hassert : (u32 (tb * 8) <=? spec_pvrtc1_size w h) = true).
  { apply Z.leb_le. pose proof (u32_le (tb * 8)). lia. }
  rewrite Hassert, orb_true_r.
  unfold resize, udiv, call_transcode_image_level, dst_set. run_monad.
  cbn [w_self w_dst w_allocated Z.eqb].
  destruct (transcode_image_level T _ _ _ _ _ _ _ _ _ _) as [[ok written] t'].
  cbn [w_self w_dst w_allocated].
  destruct (js_set dst _); cbn; split; reflexivity.
Qed.

(** A 7 x 9 level (2 x 3 blocks, 48 bytes) with assertions enabled. *)
Lemma pvrtc1_assertion_holds_witness :
  6 * 8 <= spec_pvrtc1_size 7 9
  /\ aborted (fst (transcodeImage false stub 0 0 8 0 0
                     {| w_self := stub_file true [(false, 7, 9)];
                        w_dst := zeros 48; w_allocated := [] |}))
     = false
  /\ w_allocated (snd (transcodeImage false stub 0 0 8 0 0
                         {| w_self := stub_file true [(false, 7, 9)];
                            w_dst := zeros 48; w_allocated := [] |}))
     = [] ++ [spec_pvrtc1_size 7 9].
Proof.
  apply (pvrtc1_assertion_holds false stub (stub_file true [(false, 7, 9)])
           (zeros 48) [] 0 0 8 0 0 7 9 6);
    first [ split; reflexivity | reflexivity | lia | vm_compute; split; discriminate ].
Defined.

(** C9 does not hold of the code. Over the integers the padded size is never
    below the bytes of the blocks ([blocks_fit_in_spec_pvrtc1_size]), which
    is what the assertion of [transcodeImage] states; but [required_size] is
    computed on 32 bits. For a level of 32768 x 32768 pixels it wraps to 0
    while the 8192 x 8192 blocks take 2^29 bytes: a build with assertions
    stops at the assertion, and with assertions compiled out the call sizes
    a vector of 0 bytes for the level. *)
Theorem pvrtc1_assertion_fails_at_32768 :
  get_image_level_desc stub true (stub_container [(false, 32768, 32768)]) 0 0
  = Some (32768, 32768, blocks_4x4 32768 32768)
  /\ basis_get_bytes_per_block_or_pixel stub 8 = 8
  /\ blocks_4x4 32768 32768 * 8 = spec_pvrtc1_size 32768 32768
  /\ fst (transcodeImage false stub 0 0 8 0 0
            {| w_self := stub_file true [(false, 32768, 32768)];
               w_dst := []; w_allocated := [] |})
     = Aborts "required_size >= total_blocks * bytes_per_block"
  /\ w_allocated (snd (transcodeImage true stub 0 0 8 0 0
                         {| w_self := stub_file true [(false, 32768, 32768)];
                            w_dst := []; w_allocated := [] |}))
     = [0].
Proof. repeat split; vm_compute; reflexivity. Qed.

(** The same on every library that reports 8192 x 8192 blocks of 8 bytes for
    the level: nothing has been sized or written when the assertion stops
    the call. *)
Lemma pvrtc1_assertion_on_a_32768_level
    (T : basist) (self : basis_file T) (dst : jsbuffer) (allocated : list Z)
    (i l fmt unused alpha : Z) :
  has_level self i l 32768 32768 (blocks_4x4 32768 32768) ->
  fmt < cTFTotalTextureFormats T ->
  basis_transcoder_format_is_uncompressed T fmt = false ->
  is_pvrtc1 T fmt = true ->
  basis_get_bytes_per_block_or_pixel T fmt = 8 ->
  transcodeImage false T i l fmt unused alpha
    {| w_self := self; w_dst := dst; w_allocated := allocated |}
  = (Aborts "required_size >= total_blocks * bytes_per_block",
     {| w_self := self; w_dst := dst; w_allocated := allocated |}).
Proof.
  intros [Hm Hd] Hfmt Hu Hp Hbpb. unfold is_pvrtc1 in Hp.
  unfold transcodeImage. run_monad. cbn [w_self].
  live_format Hm Hfmt. rewrite Hd, Hu, Hp, Hbpb. reflexivity.
Qed.

(** ** C10: getHasAlpha *)

(** C10. On a live container [getHasAlpha] returns the alpha flag of image
    0, level 0 when the container has that level, and 0 when it has not;
    nothing else of the container enters the result. *)
Theorem getHasAlpha_reads_first_level
    (NDEBUG : bool) (T : basist) (self : basis_file T) :
  magic_ok self = true ->
  (forall li,
      get_image_level_info T (m_transcoder self) (m_file self) 0 0 = Some li ->
      getHasAlpha NDEBUG T self
      = (Returns (Z.b2z (basisu_image_level_info.m_alpha_flag li)), self))
  /\ (get_image_level_info T (m_transcoder self) (m_file self) 0 0 = None ->
      getHasAlpha NDEBUG T self = (Returns 0, self)).
Proof.
  intros Hm. split; [intros li Hli | intros Hli];
    unfold getHasAlpha; run_monad; rewrite Hm, orb_true_r; cbn [negb];
    rewrite Hli; reflexivity.
Qed.

(** Two containers of two images: the answer is the flag of the first image,
    whatever the second one has. *)
Lemma getHasAlpha_reads_first_level_witness :
  getHasAlpha false stub (stub_file false [(false, 16, 16); (true, 16, 16)])
  = (Returns 0, stub_file false [(false, 16, 16); (true, 16, 16)])
  /\ getHasAlpha false stub (stub_file false [(true, 16, 16); (false, 16, 16)])
     = (Returns 1, stub_file false [(true, 16, 16); (false, 16, 16)]).
Proof.
  split.
  - refine (proj1 (getHasAlpha_reads_first_level false stub
                     (stub_file false [(false, 16, 16); (true, 16, 16)]) eq_refl)
              _ eq_refl).
  - refine (proj1 (getHasAlpha_reads_first_level false stub
                     (stub_file false [(true, 16, 16); (false, 16, 16)]) eq_refl)
              _ eq_refl).
Defined.

(** Two live containers that agree on image 0, level 0 give the same answer. *)
Lemma getHasAlpha_ignores_other_levels
    (NDEBUG : bool) (T : basist) (self1 self2 : basis_file T) :
  magic_ok self1 = true -> magic_ok self2 = true ->
  get_image_level_info T (m_transcoder self1) (m_file self1) 0 0
  = get_image_level_info T (m_transcoder self2) (m_file self2) 0 0 ->
  fst (getHasAlpha NDEBUG T self1) = fst (getHasAlpha NDEBUG T self2).
Proof.
  intros H1 H2 E. unfold getHasAlpha. run_monad.
  rewrite H1, H2, !orb_true_r. cbn [negb]. rewrite E.
  destruct (get_image_level_info T (m_transcoder self2) (m_file self2) 0 0);
    reflexivity.
Qed.

(** * Further properties of the wrappers *)

(** ** Lists and buffers *)

(** A vector as long as the array replaces the whole array. *)
Lemma copy_to_jsbuffer_same_length (NDEBUG : bool) (srcVec : bytes) (dstBuffer : jsbuffer) :
  dstBuffer <> [] -> size srcVec = byteLength dstBuffer ->
  copy_to_jsbuffer NDEBUG srcVec dstBuffer = (Returns true, srcVec).
Proof.
  intros Hne Hlen. unfold byteLength in Hlen.
  rewrite copy_to_jsbuffer_copies.
  - rewrite skipn_all2, app_nil_r; [reflexivity |]. unfold size in Hlen. lia.
  - intros ->. destruct dstBuffer; [contradiction | discriminate].
  - unfold byteLength. lia.
Qed.

(** ** copy_from_jsbuffer and copy_to_jsbuffer *)

(** X1. [copy_to_jsbuffer] never lets a JavaScript exception through and
    never changes the length of the destination array. It returns [true]
    exactly when the source vector is not empty and not longer than the
    array; then the array starts with the bytes of the vector and keeps its
    own bytes after them. In every other case the array is left as it was. *)
Theorem copy_to_jsbuffer_contract (NDEBUG : bool) (srcVec : bytes) (dstBuffer : jsbuffer) :
  (forall e, fst (copy_to_jsbuffer NDEBUG srcVec dstBuffer) <> Throws e)
  /\ size (snd (copy_to_jsbuffer NDEBUG srcVec dstBuffer)) = size dstBuffer
  /\ (fst (copy_to_jsbuffer NDEBUG srcVec dstBuffer) = Returns true
      <-> srcVec <> [] /\ size srcVec <= byteLength dstBuffer)
  /\ (fst (copy_to_jsbuffer NDEBUG srcVec dstBuffer) = Returns true ->
      firstn (length srcVec) (snd (copy_to_jsbuffer NDEBUG srcVec dstBuffer)) = srcVec
      /\ skipn (length srcVec) (snd (copy_to_jsbuffer NDEBUG srcVec dstBuffer))
         = skipn (length srcVec) dstBuffer)
  /\ (fst (copy_to_jsbuffer NDEBUG srcVec dstBuffer) <> Returns true ->
      snd (copy_to_jsbuffer NDEBUG srcVec dstBuffer) = dstBuffer).
Proof.
  destruct srcVec as [| b srcVec].
  - rewrite copy_to_jsbuffer_empty_source. cbn [fst snd].
    repeat split; try discriminate; try tauto.
  - set (src := b :: srcVec).
    destruct (Z.lt_ge_cases (byteLength dstBuffer) (size src)) as [Hs | Hs].
    + rewrite copy_to_jsbuffer_small_destination by assumption. cbn [fst snd].
      repeat split; try (destruct NDEBUG; discriminate); try tauto; try lia.
    + rewrite copy_to_jsbuffer_copies by (subst src; (discriminate || lia)).
      cbn [fst snd]. repeat split; try discriminate; try lia.
      * rewrite size_app, size_skipn. unfold byteLength, size in *. lia.
      * apply firstn_length_app.
      * apply skipn_length_app.
      * intros H. contradiction.
Qed.

(** X2. [copy_from_jsbuffer] fills its vector with the bytes of the array,
    no more and no fewer. Handing that vector back through
    [copy_to_jsbuffer] gives the bytes back when the array is not empty and
    the destination is at least as long: the call returns [true] and the
    destination starts with the bytes of the array and keeps its own bytes
    after them, so that a destination of the same length becomes the array.
    The round trip fails for an empty array, for which [copy_to_jsbuffer]
    returns [false], and for a destination shorter than the array, for which
    it returns [false] after an [assert(0)] that stops a build with
    assertions; the destination is untouched in both cases. *)
Theorem marshalling_round_trip (NDEBUG : bool) (src dst : jsbuffer) :
  copy_from_jsbuffer src = src
  /\ (src = [] ->
      copy_to_jsbuffer NDEBUG (copy_from_jsbuffer src) dst = (Returns false, dst))
  /\ (byteLength dst < byteLength src ->
      copy_to_jsbuffer NDEBUG (copy_from_jsbuffer src) dst
      = (if NDEBUG then Returns false else Aborts "0", dst))
  /\ (src <> [] -> byteLength src <= byteLength dst ->
      copy_to_jsbuffer NDEBUG (copy_from_jsbuffer src) dst
      = (Returns true, src ++ skipn (length src) dst))
  /\ (src <> [] -> byteLength dst = byteLength src ->
      copy_to_jsbuffer NDEBUG (copy_from_jsbuffer src) dst = (Returns true, src)).
Proof.
  rewrite copy_from_jsbuffer_id. split; [reflexivity |].
  split; [intros ->; apply copy_to_jsbuffer_empty_source |].
  split; [apply copy_to_jsbuffer_small_destination |].
  split; [apply copy_to_jsbuffer_copies |].
  intros Hne Hsame. rewrite copy_to_jsbuffer_copies; [| exact Hne | unfold byteLength in *; lia].
  rewrite skipn_all2, app_nil_r; [reflexivity |].
  unfold byteLength, size in Hsame. lia.
Qed.

(** Three bytes into an array of four and into an array of three, and no
    byte at all. *)
Lemma marshalling_round_trip_witness :
  copy_to_jsbuffer false (copy_from_jsbuffer [x01; x02; x03]) [x55; x55; x55; x55]
  = (Returns true, [x01; x02; x03; x55])
  /\ copy_to_jsbuffer false (copy_from_jsbuffer [x01; x02; x03]) [x55; x55; x55]
     = (Returns true, [x01; x02; x03])
  /\ copy_to_jsbuffer false (copy_from_jsbuffer []) [x55; x55; x55]
     = (Returns false, [x55; x55; x55]).
Proof.
  split; [| split].
  - apply (proj1 (proj2 (proj2 (proj2
             (marshalling_round_trip false [x01; x02; x03] [x55; x55; x55; x55])))));
      [discriminate | cbn; lia].
  - apply (proj2 (proj2 (proj2 (proj2
             (marshalling_round_trip false [x01; x02; x03] [x55; x55; x55])))));
      [discriminate | reflexivity].
  - apply (proj1 (proj2 (marshalling_round_trip false [] [x55; x55; x55]))).
    reflexivity.
Defined.

(** ** The constructor and basis_init *)

Lemma basis_init_sets_the_codebook (E : bool) (T : basist) (g : globals T) :
  exists c, g_pGlobal_codebook (basis_init E T g) = Some c.
Proof.
  unfold basis_init. destruct (g_pGlobal_codebook g) as [c |] eqn:Hc.
  - exists c. exact Hc.
  - eexists. reflexivity.
Qed.

(** X3. Once [basis_init] has run, from whatever state, the constructor of
    [basis_file] never stops at its assertion: it returns a live object
    ([m_magic] is [MAGIC]) on a transcoder built for the global codebook,
    holding the bytes of the array when the transcoder validates their header
    and no bytes otherwise, and it leaves the process-wide state alone. *)
Theorem constructor_after_basis_init
    (NDEBUG E : bool) (T : basist) (g : globals T) (jsBuffer : jsbuffer) :
  exists self,
    basis_file_new NDEBUG T jsBuffer (basis_init E T g) = (Returns self, basis_init E T g)
    /\ magic_ok self = true
    /\ m_transcoder self = new_transcoder T (g_pGlobal_codebook (basis_init E T g))
    /\ m_file self
       = (if validate_header T (m_transcoder self) jsBuffer then jsBuffer else []).
Proof.
  destruct (basis_init_sets_the_codebook E T g) as [c Hc].
  unfold basis_file_new. run_monad. cbv zeta. rewrite Hc.
  change (poke (zeros (byteLength jsBuffer)) jsBuffer) with (copy_from_jsbuffer jsBuffer).
  rewrite copy_from_jsbuffer_id.
  eexists. repeat split.
Qed.

(** X4. A [basis_file] constructed before [basis_init] has run: with
    assertions enabled the constructor stops at [assert(0)]; with assertions
    compiled out it returns an object that never received the bytes of the
    array (its vector holds zeros), and on that object every query returns
    0, [false] or the all-zero descriptor,
    [startTranscoding] returns 0, and [transcodeImage] returns 0 without
    sizing a vector or touching the destination. *)
Theorem object_constructed_before_basis_init
    (T : basist) (g : globals T) (jsBuffer dst : jsbuffer) (allocated : list Z)
    (i l fmt unused alpha : Z) :
  g_pGlobal_codebook g = None ->
  basis_file_new false T jsBuffer g = (Aborts "0", g)
  /\ exists self,
       basis_file_new true T jsBuffer g = (Returns self, g)
       /\ m_file self = zeros (byteLength jsBuffer)
       /\ getNumImages true T self = (Returns 0, self)
       /\ getNumLevels true T i self = (Returns 0, self)
       /\ getImageWidth true T i l self = (Returns 0, self)
       /\ getImageHeight true T i l self = (Returns 0, self)
       /\ getHasAlpha true T self = (Returns 0, self)
       /\ getImageTranscodedSizeInBytes true T i l fmt self = (Returns 0, self)
       /\ getFileDesc true T self = (Returns zero_file_desc, self)
       /\ getImageDesc true T i self = (Returns zero_image_desc, self)
       /\ getImageLevelDesc true T i l self = (Returns zero_image_level_desc, self)
       /\ isUASTC true T self = (Returns false, self)
       /\ startTranscoding true T self = (Returns 0, self)
       /\ transcodeImage true T i l fmt unused alpha
            {| w_self := self; w_dst := dst; w_allocated := allocated |}
          = (Returns 0, {| w_self := self; w_dst := dst; w_allocated := allocated |}).
Proof.
  intros Hc. split.
  - unfold basis_file_new. run_monad. cbv zeta. rewrite Hc. reflexivity.
  - eexists. split.
    + unfold basis_file_new. run_monad. cbv zeta. rewrite Hc. reflexivity.
    + repeat split.
Qed.

(** The test double before [basis_init], on a container of one image. *)
Lemma object_constructed_before_basis_init_witness :
  basis_file_new false stub [x01; x00; x10; x00; x10]
    {| g_pGlobal_codebook := None; g_lib := false : lib_globals stub |}
  = (Aborts "0", {| g_pGlobal_codebook := None; g_lib := false : lib_globals stub |})
  /\ exists self,
       basis_file_new true stub [x01; x00; x10; x00; x10]
         {| g_pGlobal_codebook := None; g_lib := false : lib_globals stub |}
       = (Returns self, {| g_pGlobal_codebook := None; g_lib := false : lib_globals stub |})
       /\ m_file self = zeros 5
       /\ getNumImages true stub self = (Returns 0, self)
       /\ getHasAlpha true stub self = (Returns 0, self)
       /\ transcodeImage true stub 0 0 0 0 0
            {| w_self := self; w_dst := [x55; x55]; w_allocated := [] |}
          = (Returns 0, {| w_self := self; w_dst := [x55; x55]; w_allocated := [] |}).
Proof.
  destruct (object_constructed_before_basis_init stub
              {| g_pGlobal_codebook := None; g_lib := false : lib_globals stub |}
              [x01; x00; x10; x00; x10] [x55; x55] [] 0 0 0 0 0 eq_refl)
    as [Hdebug [self (Hnew & Hfile & Hnum & _ & _ & _ & Halpha & _ & _ & _ & _ & _ & _ & Htc)]].
  split; [exact Hdebug |].
  exists self. repeat split; assumption.
Defined.

(** ** Indices that name no image or level *)

(** X5. On a live object, an index pair for which the container has no
    level makes [getImageWidth], [getImageHeight] and
    [getImageTranscodedSizeInBytes] return 0 and makes [transcodeImage]
    return 0 before it sizes a vector or touches the destination. An image
    index the container does not have makes [getNumLevels] return 0;
    [getImageDesc], and [getImageLevelDesc] for a missing level, return the
    all-zero descriptor when assertions are compiled out and stop at
    [assert(0)] when they are enabled. The object is never changed. *)
Theorem missing_image_or_level
    (NDEBUG : bool) (T : basist) (self : basis_file T) (dst : jsbuffer)
    (allocated : list Z) (i l fmt unused alpha : Z) :
  magic_ok self = true ->
  (get_image_level_desc T (m_transcoder self) (m_file self) i l = None ->
   getImageWidth NDEBUG T i l self = (Returns 0, self)
   /\ getImageHeight NDEBUG T i l self = (Returns 0, self)
   /\ getImageTranscodedSizeInBytes NDEBUG T i l fmt self = (Returns 0, self)
   /\ transcodeImage NDEBUG T i l fmt unused alpha
        {| w_self := self; w_dst := dst; w_allocated := allocated |}
      = (Returns 0, {| w_self := self; w_dst := dst; w_allocated := allocated |}))
  /\ (get_image_info T (m_transcoder self) (m_file self) i = None ->
      getNumLevels NDEBUG T i self = (Returns 0, self)
      /\ getImageDesc NDEBUG T i self
         = (if NDEBUG then Returns zero_image_desc else Aborts "0", self))
  /\ (get_image_level_info T (m_transcoder self) (m_file self) i l = None ->
      getImageLevelDesc NDEBUG T i l self
      = (if NDEBUG then Returns zero_image_level_desc else Aborts "0", self)).
Proof.
  intros Hm.
  split; [| split]; intros Hnone; repeat split;
    unfold getImageWidth, getImageHeight, getImageTranscodedSizeInBytes, transcodeImage,
      getNumLevels, getImageDesc, getImageLevelDesc;
    run_monad; cbn [w_self]; rewrite Hm, orb_true_r; cbn [negb]; rewrite ?Hnone;
    try reflexivity;
    try (destruct (cTFTotalTextureFormats T <=? fmt); rewrite ?Hnone; reflexivity);
    try (destruct NDEBUG; reflexivity).
Qed.

(** A container of one image with one level, asked for image 1 and for
    level 1. *)
Lemma missing_image_or_level_witness :
  getImageWidth false stub 1 0 (stub_file true [(true, 16, 16)])
  = (Returns 0, stub_file true [(true, 16, 16)])
  /\ getImageTranscodedSizeInBytes false stub 0 1 13 (stub_file true [(true, 16, 16)])
     = (Returns 0, stub_file true [(true, 16, 16)])
  /\ transcodeImage false stub 1 0 13 0 0
       {| w_self := stub_file true [(true, 16, 16)]; w_dst := [x55]; w_allocated := [] |}
     = (Returns 0,
        {| w_self := stub_file true [(true, 16, 16)]; w_dst := [x55]; w_allocated := [] |})
  /\ getNumLevels false stub 1 (stub_file true [(true, 16, 16)])
     = (Returns 0, stub_file true [(true, 16, 16)])
  /\ getImageDesc true stub 1 (stub_file true [(true, 16, 16)])
     = (Returns zero_image_desc, stub_file true [(true, 16, 16)]).
Proof.
  destruct (missing_image_or_level false stub (stub_file true [(true, 16, 16)])
              [x55] [] 1 0 13 0 0 eq_refl) as (Hlevel & Himage & _).
  destruct (missing_image_or_level false stub (stub_file true [(true, 16, 16)])
              [x55] [] 0 1 13 0 0 eq_refl) as (Hlevel' & _ & _).
  destruct (missing_image_or_level true stub (stub_file true [(true, 16, 16)])
              [x55] [] 1 0 13 0 0 eq_refl) as (_ & Himage' & _).
  destruct (Hlevel eq_refl) as (Hw & _ & _ & Htc).
  destruct (Hlevel' eq_refl) as (_ & _ & Hs & _).
  destruct (Himage eq_refl) as (Hn & _).
  destruct (Himage' eq_refl) as (_ & Hd).
  repeat split; assumption.
Defined.

(** ** The object across all of its methods *)

(** X6. No method of [basis_file] changes [m_magic], and none but [close]
    changes the container bytes: the ten queries leave the whole object as it
    is, [startTranscoding] and [transcodeImage] change the transcoder at most,
    and [close] either empties the bytes, keeping the transcoder, or stops at
    its assertion with the object unchanged. *)
Theorem methods_keep_magic_and_bytes
    (NDEBUG : bool) (T : basist) (self : basis_file T) (dst : jsbuffer)
    (allocated : list Z) (i l fmt unused alpha : Z) :
  (snd (getHasAlpha NDEBUG T self) = self
   /\ snd (getNumImages NDEBUG T self) = self
   /\ snd (getNumLevels NDEBUG T i self) = self
   /\ snd (getImageWidth NDEBUG T i l self) = self
   /\ snd (getImageHeight NDEBUG T i l self) = self
   /\ snd (getFileDesc NDEBUG T self) = self
   /\ snd (getImageDesc NDEBUG T i self) = self
   /\ snd (getImageLevelDesc NDEBUG T i l self) = self
   /\ snd (getImageTranscodedSizeInBytes NDEBUG T i l fmt self) = self
   /\ snd (isUASTC NDEBUG T self) = self)
  /\ (m_magic (snd (startTranscoding NDEBUG T self)) = m_magic self
      /\ m_file (snd (startTranscoding NDEBUG T self)) = m_file self)
  /\ (m_magic (w_self (snd (transcodeImage NDEBUG T i l fmt unused alpha
                              {| w_self := self; w_dst := dst; w_allocated := allocated |})))
      = m_magic self
      /\ m_file (w_self (snd (transcodeImage NDEBUG T i l fmt unused alpha
                                {| w_self := self; w_dst := dst; w_allocated := allocated |})))
         = m_file self)
  /\ (m_magic (snd (close NDEBUG T self)) = m_magic self
      /\ m_transcoder (snd (close NDEBUG T self)) = m_transcoder self
      /\ (m_file (snd (close NDEBUG T self)) = []
          \/ fst (close NDEBUG T self) = Aborts "m_magic == MAGIC"
             /\ snd (close NDEBUG T self) = self)).
Proof.
  split; [apply queries_leave_the_object |].
  destruct (only_close_changes_the_bytes NDEBUG T self dst allocated i l fmt unused alpha)
    as (Hsf & Hsm & Htf & Htm).
  repeat split; try assumption;
    unfold close; run_monad; destruct (NDEBUG || magic_ok self); cbn; auto.
Qed.

(** ** Queries that answer from the same call of the library *)

(** X7. On a live object the queries agree with each other. Whenever
    [getImageDesc] returns a descriptor, [getNumLevels] returns its
    [m_num_levels]. [getImageWidth] and [getImageHeight] return a width and a
    height (both 0 for a level the container does not have) such that for an
    uncompressed format [getImageTranscodedSizeInBytes] returns
    [width * height * bytes_per_pixel] modulo 2^32, and for a PVRTC1 format
    and a level the container has, the padded size computed on 32 bits from
    that width and height alone. *)
Theorem queries_agree
    (NDEBUG : bool) (T : basist) (self : basis_file T) (i l fmt : Z) :
  magic_ok self = true ->
  (forall d, fst (getImageDesc NDEBUG T i self) = Returns d ->
     getNumLevels NDEBUG T i self = (Returns (m_num_levels d), self))
  /\ exists width height,
       getImageWidth NDEBUG T i l self = (Returns width, self)
       /\ getImageHeight NDEBUG T i l self = (Returns height, self)
       /\ (fmt < cTFTotalTextureFormats T ->
           basis_transcoder_format_is_uncompressed T fmt = true ->
           getImageTranscodedSizeInBytes NDEBUG T i l fmt self
           = (Returns (u32 (width * height * basis_get_uncompressed_bytes_per_pixel T fmt)),
              self))
       /\ (fmt < cTFTotalTextureFormats T ->
           basis_transcoder_format_is_uncompressed T fmt = false ->
           is_pvrtc1 T fmt = true ->
           get_image_level_desc T (m_transcoder self) (m_file self) i l <> None ->
           getImageTranscodedSizeInBytes NDEBUG T i l fmt self
           = (Returns
                (u32 (u32 (u32 (Z.max 8 (Z.land (u32 (width + 3)) (u32 (Z.lnot 3)))
                                * Z.max 8 (Z.land (u32 (height + 3)) (u32 (Z.lnot 3)))) * 4)
                      + 7) / 8),
              self)).
Proof.
  intros Hm. split.
  - intros d. unfold getImageDesc, getNumLevels. run_monad.
    rewrite Hm, orb_true_r. cbn [negb].
    destruct (get_image_info T (m_transcoder self) (m_file self) i) as [ii |].
    + cbn. intros E. injection E as <-. reflexivity.
    + run_monad. destruct NDEBUG; cbn; [| discriminate].
      intros E. injection E as <-. reflexivity.
  - destruct (get_image_level_desc T (m_transcoder self) (m_file self) i l)
      as [[[width height] tb] |] eqn:Hd.
    + exists width, height.
      assert (Hlevel : has_level self i l width height tb) by (split; assumption).
      repeat split.
      * unfold getImageWidth. run_monad. rewrite Hm, orb_true_r. cbn [negb].
        now rewrite Hd.
      * unfold getImageHeight. run_monad. rewrite Hm, orb_true_r. cbn [negb].
        now rewrite Hd.
      * intros Hfmt Hu.
        rewrite (size_uncompressed NDEBUG T self i l fmt width height tb Hlevel Hfmt Hu).
        rewrite u32_mul_idemp_l. do 3 f_equal. ring.
      * intros Hfmt Hu Hp _.
        apply (size_pvrtc1 NDEBUG T self i l fmt width height tb Hlevel Hfmt Hu Hp).
    + exists 0, 0. repeat split.
      * unfold getImageWidth. run_monad. rewrite Hm, orb_true_r. cbn [negb].
        now rewrite Hd.
      * unfold getImageHeight. run_monad. rewrite Hm, orb_true_r. cbn [negb].
        now rewrite Hd.
      * intros Hfmt Hu. unfold getImageTranscodedSizeInBytes. run_monad.
        live_format Hm Hfmt. now rewrite Hd.
      * intros _ _ _ Hsome. contradiction.
Qed.

(** A 7 x 9 level in RGBA32. *)
Lemma queries_agree_witness :
  (forall d, fst (getImageDesc false stub 0 (stub_file true [(false, 7, 9)])) = Returns d ->
     getNumLevels false stub 0 (stub_file true [(false, 7, 9)])
     = (Returns (m_num_levels d), stub_file true [(false, 7, 9)]))
  /\ exists width height,
       getImageWidth false stub 0 0 (stub_file true [(false, 7, 9)])
       = (Returns width, stub_file true [(false, 7, 9)])
       /\ getImageHeight false stub 0 0 (stub_file true [(false, 7, 9)])
          = (Returns height, stub_file true [(false, 7, 9)])
       /\ getImageTranscodedSizeInBytes false stub 0 0 13 (stub_file true [(false, 7, 9)])
          = (Returns (u32 (width * height * 4)), stub_file true [(false, 7, 9)]).
Proof.
  destruct (queries_agree false stub (stub_file true [(false, 7, 9)]) 0 0 13 eq_refl)
    as [Hlevels (width & height & Hw & Hh & Hraster & _)].
  split; [exact Hlevels |].
  exists width, height. repeat split; try assumption.
  exact (Hraster eq_refl eq_refl).
Defined.

(** ** transcodeImage and the size the caller was told *)



(** ** What transcodeImage tells the transcoder about its vector *)

(** X9. For a block format with a positive number of bytes per block,
    [transcodeImage], unless it stops at the PVRTC1 assertion, is one run of
    the transcoder on a vector of [s] bytes followed by [dst.set], where [s]
    is the size [getImageTranscodedSizeInBytes] reports and the capacity in
    blocks handed to the transcoder, times the bytes per block, never exceeds
    [s]. For a format other than PVRTC1 whose size does not wrap the capacity
    is exactly the block count of the level. *)
Theorem block_capacity_fits_the_vector
    (NDEBUG : bool) (T : basist) (self : basis_file T) (dst : jsbuffer)
    (allocated : list Z) (i l fmt unused alpha w h tb : Z) :
  has_level self i l w h tb ->
  fmt < cTFTotalTextureFormats T ->
  basis_transcoder_format_is_uncompressed T fmt = false ->
  0 < basis_get_bytes_per_block_or_pixel T fmt ->
  let bytes_per_block := basis_get_bytes_per_block_or_pixel T fmt in
  let w0 := {| w_self := self; w_dst := dst; w_allocated := allocated |} in
  exists s capacity,
    getImageTranscodedSizeInBytes NDEBUG T i l fmt self = (Returns s, self)
    /\ 0 <= capacity
    /\ capacity * bytes_per_block <= s
    /\ (is_pvrtc1 T fmt = false -> 0 <= tb -> tb * bytes_per_block < 2 ^ 32 ->
        capacity = tb)
    /\ (transcodeImage NDEBUG T i l fmt unused alpha w0
        = transcode_and_set i l s capacity fmt
            (if alpha =? 0 then 0 else cDecodeFlagsTranscodeAlphaDataToOpaqueFormats T)
            0 0 w0
        \/ NDEBUG = false /\ is_pvrtc1 T fmt = true
           /\ transcodeImage NDEBUG T i l fmt unused alpha w0
              = (Aborts "required_size >= total_blocks * bytes_per_block", w0)).
Proof.
  intros Hlevel Hfmt Hu Hbpb bytes_per_block w0. subst w0 bytes_per_block.
  set (bytes_per_block := basis_get_bytes_per_block_or_pixel T fmt) in *.
  assert (Hne : bytes_per_block <> 0) by lia.
  assert (Hfloor : forall s, 0 <= s ->
            0 <= s / bytes_per_block /\ s / bytes_per_block * bytes_per_block <= s).
  { intros s Hs. split; [apply Z.div_pos; lia |].
    rewrite Z.mul_comm. apply Z.mul_div_le. exact Hbpb. }
  destruct (is_pvrtc1 T fmt) eqn:Hp.
  - pose (padded :=
            u32 (u32 (u32 (Z.max 8 (Z.land (u32 (w + 3)) (u32 (Z.lnot 3)))
                           * Z.max 8 (Z.land (u32 (h + 3)) (u32 (Z.lnot 3)))) * 4) + 7) / 8).
    destruct (transcodeImage_pvrtc1 NDEBUG T self dst allocated i l fmt unused alpha
                w h tb Hlevel Hfmt padded Hu Hp Hne eq_refl) as [Hpadded Hrun].
    exists padded, (padded / bytes_per_block).
    rewrite (size_pvrtc1 NDEBUG T self i l fmt w h tb Hlevel Hfmt Hu Hp).
    rewrite Hrun. fold bytes_per_block.
    split; [reflexivity |].
    split; [apply Hfloor, Hpadded |].
    split; [apply Hfloor, Hpadded |].
    split; [discriminate |].
    destruct NDEBUG; cbn [orb]; [left; reflexivity |].
    destruct (u32 (tb * bytes_per_block) <=? padded);
      [left; reflexivity | right; repeat split].
  - exists (u32 (tb * bytes_per_block)), (u32 (tb * bytes_per_block) / bytes_per_block).
    rewrite (size_block NDEBUG T self i l fmt w h tb Hlevel Hfmt Hu Hp).
    rewrite (transcodeImage_block NDEBUG T self dst allocated i l fmt unused alpha
               w h tb Hlevel Hfmt Hu Hp Hne).
    fold bytes_per_block.
    split; [reflexivity |].
    split; [apply Hfloor, u32_range |].
    split; [apply Hfloor, u32_range |].
    split; [| left; reflexivity].
    intros _ Htb Hfit.
    assert (0 <= tb * bytes_per_block) by (apply Z.mul_nonneg_nonneg; lia).
    rewrite u32_small by lia.
    apply Z.div_mul. exact Hne.
Qed.

(** ETC1 on a 7 x 9 level of 6 blocks, alpha data asked for. *)
Lemma block_capacity_fits_the_vector_witness :
  exists s capacity,
    getImageTranscodedSizeInBytes false stub 0 0 0 (stub_file true [(false, 7, 9)])
    = (Returns s, stub_file true [(false, 7, 9)])
    /\ 0 <= capacity
    /\ capacity * 8 <= s
    /\ (is_pvrtc1 stub 0 = false -> 0 <= 6 -> 6 * 8 < 2 ^ 32 -> capacity = 6)
    /\ (transcodeImage false stub 0 0 0 0 1
          {| w_self := stub_file true [(false, 7, 9)];
             w_dst := repeat x55 48; w_allocated := [] |}
        = transcode_and_set 0 0 s capacity 0 4 0 0
            {| w_self := stub_file true [(false, 7, 9)];
               w_dst := repeat x55 48; w_allocated := [] |}
        \/ false = false /\ is_pvrtc1 stub 0 = true
           /\ transcodeImage false stub 0 0 0 0 1
                {| w_self := stub_file true [(false, 7, 9)];
                   w_dst := repeat x55 48; w_allocated := [] |}
              = (Aborts "required_size >= total_blocks * bytes_per_block",
                 {| w_self := stub_file true [(false, 7, 9)];
                    w_dst := repeat x55 48; w_allocated := [] |})).
Proof.
  apply (block_capacity_fits_the_vector false stub (stub_file true [(false, 7, 9)])
           (repeat x55 48) [] 0 0 0 0 1 7 9 6 (conj eq_refl eq_refl) eq_refl eq_refl eq_refl).
Defined.

(** X10. For an uncompressed format with a positive number of bytes per
    pixel and a level of [w] x [h] pixels, [w * h] below 2^32:
    [getImageTranscodedSizeInBytes] returns [s], the product
    [w * h * bytes_per_pixel] reduced modulo 2^32, and [transcodeImage] is one
    run of the transcoder on a vector of [s] bytes, told that [w * h] pixels
    fit in it, with a row pitch of [w] pixels and [h] rows, followed by
    [dst.set]. The vector holds exactly the declared [w * h] pixels when the
    product is below 2^32, and is strictly smaller than the declared capacity
    when it is not. *)
Theorem raster_capacity_and_the_vector
    (NDEBUG : bool) (T : basist) (self : basis_file T) (dst : jsbuffer)
    (allocated : list Z) (i l fmt unused alpha w h tb : Z) :
  has_level self i l w h tb ->
  fmt < cTFTotalTextureFormats T ->
  basis_transcoder_format_is_uncompressed T fmt = true ->
  0 <= w -> 0 <= h -> w * h < 2 ^ 32 ->
  0 < basis_get_uncompressed_bytes_per_pixel T fmt ->
  let bytes_per_pixel := basis_get_uncompressed_bytes_per_pixel T fmt in
  let s := u32 (w * h * bytes_per_pixel) in
  let w0 := {| w_self := self; w_dst := dst; w_allocated := allocated |} in
  getImageTranscodedSizeInBytes NDEBUG T i l fmt self = (Returns s, self)
  /\ transcodeImage NDEBUG T i l fmt unused alpha w0
     = transcode_and_set i l s (w * h) fmt
         (if alpha =? 0 then 0 else cDecodeFlagsTranscodeAlphaDataToOpaqueFormats T)
         w h w0
  /\ (w * h * bytes_per_pixel < 2 ^ 32 -> s = w * h * bytes_per_pixel)
  /\ (2 ^ 32 <= w * h * bytes_per_pixel -> s < w * h * bytes_per_pixel).
Proof.
  intros Hlevel Hfmt Hu Hw Hh Hwh Hbpp bytes_per_pixel s w0. subst w0.
  assert (Es : u32 (u32 (w * bytes_per_pixel) * h) = s).
  { rewrite u32_mul_idemp_l. subst s. f_equal. ring. }
  assert (Hpos : 0 <= w * h) by nia.
  repeat split.
  - rewrite (size_uncompressed NDEBUG T self i l fmt w h tb Hlevel Hfmt Hu).
    fold bytes_per_pixel. now rewrite Es.
  - rewrite (transcodeImage_uncompressed NDEBUG T self dst allocated i l fmt unused alpha
               w h tb Hlevel Hfmt Hu).
    fold bytes_per_pixel. rewrite Es. rewrite (u32_small (w * h)) by lia. reflexivity.
  - intros Hfit. subst s. apply u32_small. subst bytes_per_pixel. nia.
  - intros Hwrap. pose proof (u32_range (w * h * bytes_per_pixel)). subst s. lia.
Qed.

(** RGBA32: a 7 x 9 level (252 bytes for 63 pixels), and a 32768 x 32768
    level (a vector of 0 bytes for 2^30 pixels). *)
Lemma raster_capacity_and_the_vector_witness :
  (getImageTranscodedSizeInBytes true stub 0 0 13 (stub_file true [(false, 7, 9)])
   = (Returns 252, stub_file true [(false, 7, 9)])
   /\ transcodeImage true stub 0 0 13 0 0
        {| w_self := stub_file true [(false, 7, 9)];
           w_dst := repeat x55 252; w_allocated := [] |}
      = transcode_and_set 0 0 252 63 13 0 7 9
          {| w_self := stub_file true [(false, 7, 9)];
             w_dst := repeat x55 252; w_allocated := [] |})
  /\ (getImageTranscodedSizeInBytes true stub 0 0 13
        (stub_file true [(false, 32768, 32768)])
      = (Returns 0, stub_file true [(false, 32768, 32768)])
      /\ transcodeImage true stub 0 0 13 0 0
           {| w_self := stub_file true [(false, 32768, 32768)];
              w_dst := []; w_allocated := [] |}
         = transcode_and_set 0 0 0 1073741824 13 0 32768 32768
             {| w_self := stub_file true [(false, 32768, 32768)];
                w_dst := []; w_allocated := [] |}).
Proof.
  split.
  - pose proof (raster_capacity_and_the_vector true stub (stub_file true [(false, 7, 9)])
                  (repeat x55 252) [] 0 0 13 0 0 7 9 6 (conj eq_refl eq_refl) eq_refl eq_refl
                  ltac:(lia) ltac:(lia) ltac:(lia) eq_refl) as (Hsize & Hcall & _).
    exact (conj Hsize Hcall).
  - pose proof (raster_capacity_and_the_vector true stub
                  (stub_file true [(false, 32768, 32768)])
                  [] [] 0 0 13 0 0 32768 32768 67108864 (conj eq_refl eq_refl) eq_refl
                  eq_refl ltac:(lia) ltac:(lia) ltac:(lia) eq_refl) as (Hsize & Hcall & _).
    exact (conj Hsize Hcall).
Defined.

(** ** What transcodeImage leaves in the destination *)

Lemma skipn_repeat_byte (x : byte) (k n : nat) : skipn k (repeat x n) = repeat x (n - k).
Proof.
  revert n. induction k as [| k IH]; intros [| n]; cbn; auto.
Qed.

(** [poke] on a zeroed vector. *)
Lemma poke_zeros (s : Z) (written : bytes) :
  poke (zeros s) written
  = firstn (Z.to_nat s) (written ++ repeat x00 (Z.to_nat s - length written)).
Proof.
  unfold poke, zeros. rewrite repeat_length, skipn_repeat_byte. reflexivity.
Qed.

(** A store that stays inside a zeroed vector leaves what was stored,
    followed by the zeros it did not reach. *)
Lemma poke_zeros_inside (s : Z) (written : bytes) :
  stays_inside (zeros s) written ->
  poke (zeros s) written = written ++ zeros (s - size written).
Proof.
  unfold stays_inside, size. intros Hin.
  rewrite poke_zeros. unfold zeros in *. rewrite repeat_length in Hin.
  replace (Z.to_nat (s - Z.of_nat (length written)))
    with (Z.to_nat s - length written)%nat by lia.
  apply firstn_all2. rewrite length_app, repeat_length. lia.
Qed.

(** [transcode_and_set] into a destination that is long enough, for a
    transcoder whose store stays inside the vector. *)
Lemma transcode_and_set_writes_the_vector
    (T : basist) (self : basis_file T) (dst : jsbuffer) (allocated : list Z)
    (i l s capacity fmt flags pitch rows : Z) :
  0 <= s -> s <= byteLength dst ->
  let call :=
    transcode_image_level T (m_transcoder self) (m_file self) i l (zeros s)
      capacity fmt flags pitch rows in
  let r := transcode_and_set i l s capacity fmt flags pitch rows
             {| w_self := self; w_dst := dst; w_allocated := allocated |} in
  stays_inside (zeros s) (snd (fst call)) ->
  fst r = Returns (Z.b2z (fst (fst call)))
  /\ w_dst (snd r)
     = snd (fst call) ++ zeros (s - size (snd (fst call))) ++ skipn (Z.to_nat s) dst.
Proof.
  intros Hs Hfit call r. subst r call.
  unfold transcode_and_set, resize, call_transcode_image_level, dst_set. run_monad.
  cbn [w_self w_dst w_allocated].
  destruct (transcode_image_level T _ _ _ _ _ _ _ _ _ _) as [[ok written] t'].
  cbn [w_self w_dst w_allocated fst snd]. intros Hin.
  assert (Hlen : length (poke (zeros s) written) = Z.to_nat s).
  { rewrite poke_length. unfold zeros. apply repeat_length. }
  destruct (js_set_cases dst (poke (zeros s) written)) as [[Hlt E] | [Hle E]];
    rewrite E; rewrite ?size_poke, ?size_zeros in * by assumption.
  - unfold byteLength in Hfit. lia.
  - cbn [fst snd w_dst]. rewrite Hlen, poke_zeros_inside by exact Hin.
    rewrite <- app_assoc. split; reflexivity.
Qed.

(** X11. On a level the container has, with a destination of at least
    the [s] bytes that [getImageTranscodedSizeInBytes] reports, a call of
    [transcodeImage] that does not stop at the PVRTC1 assertion runs the
    transcoder of the library once, on a zeroed vector of [s] bytes: told
    that [w * h] pixels (reduced modulo 2^32) in [h] rows of [w] fit in it
    for an uncompressed format, and [s / bytes_per_block] blocks for a block
    format. Provided that the store of the transcoder stays inside that
    vector, the call returns the transcoder's status and the destination
    then holds what the transcoder stored, zeros up to [s] bytes, and after
    them the bytes it held before: what the transcoder leaves unwritten,
    such as the PVRTC1 padding of a small texture, is zero whatever was in
    the destination. The proviso is not something [transcodeImage] checks. *)
Theorem transcodeImage_writes_the_zero_padded_output
    (NDEBUG : bool) (T : basist) (self : basis_file T) (dst : jsbuffer)
    (allocated : list Z) (i l fmt unused alpha w h tb s : Z) :
  has_level self i l w h tb ->
  fmt < cTFTotalTextureFormats T ->
  (basis_transcoder_format_is_uncompressed T fmt = false ->
   basis_get_bytes_per_block_or_pixel T fmt <> 0) ->
  getImageTranscodedSizeInBytes NDEBUG T i l fmt self = (Returns s, self) ->
  s <= byteLength dst ->
  let raster := basis_transcoder_format_is_uncompressed T fmt in
  let call :=
    transcode_image_level T (m_transcoder self) (m_file self) i l (zeros s)
      (if raster then u32 (w * h) else s / basis_get_bytes_per_block_or_pixel T fmt)
      fmt
      (if alpha =? 0 then 0 else cDecodeFlagsTranscodeAlphaDataToOpaqueFormats T)
      (if raster then w else 0) (if raster then h else 0) in
  let r := transcodeImage NDEBUG T i l fmt unused alpha
             {| w_self := self; w_dst := dst; w_allocated := allocated |} in
  stays_inside (zeros s) (snd (fst call)) ->
  aborted (fst r) = false ->
  fst r = Returns (Z.b2z (fst (fst call)))
  /\ w_dst (snd r)
     = snd (fst call) ++ zeros (s - size (snd (fst call))) ++ skipn (Z.to_nat s) dst.
Proof.
  intros Hlevel Hfmt Hbpb Hsize Hfit raster call r Hinside Hruns. subst r call raster.
  destruct (transcodeImage_on_a_level NDEBUG T self dst allocated i l fmt unused alpha
              w h tb s Hlevel Hfmt Hbpb Hsize) as [Hs [Hrun | Habort]].
  - rewrite Hrun. apply transcode_and_set_writes_the_vector; assumption.
  - rewrite Habort in Hruns. discriminate.
Qed.

(** PVRTC1 on a 4 x 4 level: one block of 8 bytes in a vector of 32. *)
Lemma transcodeImage_writes_the_zero_padded_output_witness :
  fst (transcodeImage false stub 0 0 8 0 0
         {| w_self := stub_file true [(false, 4, 4)];
            w_dst := repeat x55 34; w_allocated := [] |})
  = Returns 1
  /\ w_dst (snd (transcodeImage false stub 0 0 8 0 0
                   {| w_self := stub_file true [(false, 4, 4)];
                      w_dst := repeat x55 34; w_allocated := [] |}))
     = repeat xaa 8 ++ repeat x00 24 ++ [x55; x55].
Proof.
  apply (transcodeImage_writes_the_zero_padded_output false stub
           (stub_file true [(false, 4, 4)]) (repeat x55 34) [] 0 0 8 0 0 4 4 1 32
           (conj eq_refl eq_refl) eq_refl ltac:(intros _; discriminate)
           eq_refl ltac:(discriminate) ltac:(discriminate) eq_refl).
Defined.

(** ** The low-level entry points *)

Lemma temp_output_blocks_size (output_blocks : jsbuffer) (written : bytes) :
  size (poke (zeros (byteLength output_blocks)) written) = byteLength output_blocks.
Proof.
  rewrite size_poke, size_zeros; [reflexivity | apply size_nonneg].
Qed.

(** X12. [lowlevel_etc1s_image_transcoder::transcode_image] hands the
    transcoder of the library a zeroed vector as long as the output array,
    the bytes of the compressed data and the arguments of the caller,
    declared capacity included, which it does not compare with the array.
    For a transcoder whose store stays inside that vector: the call returns
    [true] exactly when [basis_init] has run, the compressed data and the
    output array are not empty, and the transcoder reports success. Then the
    session is the one the transcoder left and the whole output array is
    replaced by the vector: what the transcoder stored, followed by zeros.
    In every other case the output array is as it was. Its length never
    changes. *)
Theorem transcode_image_returns_true_iff
    (NDEBUG : bool) (T : basist) (g : globals T) (args : etc1s_image_args T)
    (compressed_data : jsbuffer) (w : etc1s_world T) :
  let len := byteLength (e_output_blocks w) in
  let call :=
    etc1s_transcode_image T (etc1s_base (e_self w)) (m_state (e_self w)) args
      (zeros len) compressed_data in
  let written := snd (fst (fst call)) in
  let r := transcode_image NDEBUG T g args compressed_data w in
  stays_inside (zeros len) written ->
  (fst r = Returns true
   <-> g_pGlobal_codebook g <> None /\ compressed_data <> [] /\ e_output_blocks w <> []
       /\ fst (fst (fst call)) = true)
  /\ (fst r = Returns true ->
      snd r = {| e_self := {| etc1s_base := snd (fst call); m_state := snd call |};
                 e_output_blocks := written ++ zeros (len - size written) |})
  /\ (fst r <> Returns true -> e_output_blocks (snd r) = e_output_blocks w)
  /\ size (e_output_blocks (snd r)) = len.
Proof.
  intros len call written r. subst r written call len. unfold transcode_image.
  destruct (g_pGlobal_codebook g) as [c |].
  2: { intros _. run_monad.
       destruct NDEBUG; cbn; repeat split; try discriminate; try reflexivity;
         intuition discriminate. }
  rewrite copy_from_jsbuffer_id.
  destruct (size compressed_data =? 0) eqn:Ec.
  { intros _. apply size_zero_iff in Ec. subst compressed_data. run_monad.
    destruct NDEBUG; cbn; repeat split; try discriminate; try reflexivity;
      intuition discriminate. }
  assert (Hc : compressed_data <> []).
  { intros ->. discriminate. }
  run_monad.
  destruct (byteLength (e_output_blocks w) =? 0) eqn:Eo.
  { intros _. apply size_zero_iff in Eo. run_monad.
    destruct NDEBUG; cbn; repeat split; try discriminate; try reflexivity;
      intuition discriminate. }
  assert (Ho : e_output_blocks w <> []).
  { intros E. rewrite E in Eo. discriminate. }
  unfold call_etc1s_transcode_image.
  destruct (etc1s_transcode_image T _ _ _ _ _) as [[[status written] base] state].
  cbn [fst snd]. intros Hinside.
  destruct status; cbn [negb].
  2: { run_monad. destruct NDEBUG; cbn; repeat split; try discriminate; try reflexivity;
         intuition discriminate. }
  unfold on_part. cbn [e_output_blocks e_self].
  rewrite (copy_to_jsbuffer_same_length NDEBUG _ (e_output_blocks w) Ho
             (temp_output_blocks_size _ _)).
  rewrite poke_zeros_inside by exact Hinside.
  cbn. repeat split; try discriminate; try tauto.
  rewrite <- poke_zeros_inside by exact Hinside.
  apply temp_output_blocks_size.
Qed.

(** A session with palettes and tables loaded, one block into an array of
    ten bytes: eight bytes of the block, then zeros. *)
Lemma transcode_image_returns_true_iff_witness :
  transcode_image false stub
    (basis_init false stub stub_start)
    (1 : etc1s_image_args stub) [x01]
    {| e_self :=
         {| etc1s_base := (true, true) : basisu_lowlevel_etc1s_transcoder stub;
            m_state := tt : basisu_transcoder_state stub |};
       e_output_blocks := repeat x55 10 |}
  = (Returns true,
     {| e_self :=
          {| etc1s_base := (true, true) : basisu_lowlevel_etc1s_transcoder stub;
             m_state := tt : basisu_transcoder_state stub |};
        e_output_blocks := repeat xaa 8 ++ [x00; x00] |}).
Proof.
  destruct (transcode_image_returns_true_iff false stub
              (basis_init false stub stub_start)
              (1 : etc1s_image_args stub) [x01]
              {| e_self :=
                   {| etc1s_base := (true, true) : basisu_lowlevel_etc1s_transcoder stub;
                      m_state := tt : basisu_transcoder_state stub |};
                 e_output_blocks := repeat x55 10 |}
              ltac:(discriminate))
    as (Hiff & Hstate & _).
  assert (Htrue : fst (transcode_image false stub
                         (basis_init false stub stub_start)
                         (1 : etc1s_image_args stub) [x01]
                         {| e_self :=
                              {| etc1s_base :=
                                   (true, true) : basisu_lowlevel_etc1s_transcoder stub;
                                 m_state := tt : basisu_transcoder_state stub |};
                            e_output_blocks := repeat x55 10 |})
                  = Returns true).
  { apply Hiff. cbn. repeat split; discriminate. }
  rewrite (surjective_pairing (transcode_image _ _ _ _ _ _)).
  rewrite Htrue, (Hstate Htrue). reflexivity.
Defined.

(** X13. [transcode_uastc_image] hands the UASTC transcoder of the library
    a zeroed vector as long as the output array, the bytes of the compressed
    data and the arguments of the caller, declared capacity included, which
    it does not compare with the array. For a transcoder whose store stays
    inside that vector: the call returns [true] exactly when [basis_init] has
    run, the compressed data and the output array are not empty, and the
    transcoder reports success. Then the whole output array is replaced by
    the vector: what the transcoder stored, followed by zeros. In every other
    case the output array is as it was. Its length never changes. *)
Theorem transcode_uastc_image_returns_true_iff
    (NDEBUG : bool) (T : basist) (g : globals T) (args : uastc_image_args T)
    (compressed_data output_blocks : jsbuffer) :
  let len := byteLength output_blocks in
  let call := uastc_transcode_image T args (zeros len) compressed_data in
  let written := snd call in
  let r := transcode_uastc_image NDEBUG T g args compressed_data output_blocks in
  stays_inside (zeros len) written ->
  (fst r = Returns true
   <-> g_pGlobal_codebook g <> None /\ compressed_data <> [] /\ output_blocks <> []
       /\ fst call = true)
  /\ (fst r = Returns true -> snd r = written ++ zeros (len - size written))
  /\ (fst r <> Returns true -> snd r = output_blocks)
  /\ size (snd r) = len.
Proof.
  intros len call written r. subst r written call len. unfold transcode_uastc_image.
  destruct (g_pGlobal_codebook g) as [c |].
  2: { intros _. run_monad.
       destruct NDEBUG; cbn; repeat split; try discriminate; try reflexivity;
         intuition discriminate. }
  rewrite copy_from_jsbuffer_id.
  destruct (size compressed_data =? 0) eqn:Ec.
  { intros _. apply size_zero_iff in Ec. subst compressed_data. run_monad.
    destruct NDEBUG; cbn; repeat split; try discriminate; try reflexivity;
      intuition discriminate. }
  assert (Hc : compressed_data <> []).
  { intros ->. discriminate. }
  run_monad.
  destruct (byteLength output_blocks =? 0) eqn:Eo.
  { intros _. apply size_zero_iff in Eo. subst output_blocks. run_monad.
    destruct NDEBUG; cbn; repeat split; try discriminate; try reflexivity;
      intuition discriminate. }
  assert (Ho : output_blocks <> []).
  { intros ->. discriminate. }
  destruct (uastc_transcode_image T _ _ _) as [status written].
  cbn [fst snd]. intros Hinside.
  destruct status; cbn [negb].
  2: { run_monad. destruct NDEBUG; cbn; repeat split; try discriminate; try reflexivity;
         intuition discriminate. }
  rewrite (copy_to_jsbuffer_same_length NDEBUG _ output_blocks Ho
             (temp_output_blocks_size _ _)).
  rewrite poke_zeros_inside by exact Hinside.
  cbn. repeat split; try discriminate; try tauto.
  rewrite <- poke_zeros_inside by exact Hinside.
  apply temp_output_blocks_size.
Qed.

(** One block of 16 bytes into an array of 18 bytes. *)
Lemma transcode_uastc_image_returns_true_iff_witness :
  transcode_uastc_image false stub
    (basis_init false stub stub_start)
    (1 : uastc_image_args stub) [x01] (repeat x55 18)
  = (Returns true, repeat xaa 16 ++ [x00; x00]).
Proof.
  destruct (transcode_uastc_image_returns_true_iff false stub
              (basis_init false stub stub_start)
              (1 : uastc_image_args stub) [x01] (repeat x55 18) ltac:(discriminate))
    as (Hiff & Hstate & _).
  assert (Htrue : fst (transcode_uastc_image false stub
                         (basis_init false stub stub_start)
                         (1 : uastc_image_args stub) [x01] (repeat x55 18))
                  = Returns true).
  { apply Hiff. cbn. repeat split; discriminate. }
  rewrite (surjective_pairing (transcode_uastc_image _ _ _ _ _ _)).
  rewrite Htrue, (Hstate Htrue). reflexivity.
Defined.

(** X14. [decode_palettes] and [decode_tables] never touch the video state
    [m_state] of the session. Given buffers that are not empty they hand the
    decoder of the library exactly the counts and the bytes they received,
    return its verdict and keep the session it left, whether it succeeded or
    not. *)
Theorem decoders_forward_and_keep_the_video_state
    (NDEBUG : bool) (T : basist) (session : lowlevel_etc1s_image_transcoder T)
    (num_endpoints num_selectors : Z) (endpoint_data selector_data table_data : jsbuffer) :
  m_state (snd (decode_palettes NDEBUG T num_endpoints endpoint_data
                  num_selectors selector_data session))
  = m_state session
  /\ m_state (snd (decode_tables NDEBUG T table_data session)) = m_state session
  /\ (endpoint_data <> [] -> selector_data <> [] ->
      decode_palettes NDEBUG T num_endpoints endpoint_data num_selectors selector_data session
      = (Returns (fst (etc1s_decode_palettes T (etc1s_base session)
                         num_endpoints endpoint_data num_selectors selector_data)),
         {| etc1s_base := snd (etc1s_decode_palettes T (etc1s_base session)
                                 num_endpoints endpoint_data num_selectors selector_data);
            m_state := m_state session |}))
  /\ (table_data <> [] ->
      decode_tables NDEBUG T table_data session
      = (Returns (fst (etc1s_decode_tables T (etc1s_base session) table_data)),
         {| etc1s_base := snd (etc1s_decode_tables T (etc1s_base session) table_data);
            m_state := m_state session |})).
Proof.
  unfold decode_palettes, decode_tables. rewrite !copy_from_jsbuffer_id.
  repeat split.
  - destruct ((size endpoint_data =? 0) || (size selector_data =? 0)).
    + run_monad. destruct NDEBUG; reflexivity.
    + run_monad. destruct (etc1s_decode_palettes T _ _ _ _ _). reflexivity.
  - destruct (size table_data =? 0).
    + run_monad. destruct NDEBUG; reflexivity.
    + run_monad. destruct (etc1s_decode_tables T _ _). reflexivity.
  - intros He Hs.
    destruct (size endpoint_data =? 0) eqn:E1; [apply size_zero_iff in E1; contradiction |].
    destruct (size selector_data =? 0) eqn:E2; [apply size_zero_iff in E2; contradiction |].
    cbn [orb]. run_monad. destruct (etc1s_decode_palettes T _ _ _ _ _). reflexivity.
  - intros Ht.
    destruct (size table_data =? 0) eqn:E1; [apply size_zero_iff in E1; contradiction |].
    run_monad. destruct (etc1s_decode_tables T _ _). reflexivity.
Qed.

(** Palettes that the decoder of the test double accepts, and a table. *)
Lemma decoders_forward_and_keep_the_video_state_witness :
  decode_palettes false stub 4 [x01] 4 [x02]
    {| etc1s_base := (false, false) : basisu_lowlevel_etc1s_transcoder stub;
       m_state := tt : basisu_transcoder_state stub |}
  = (Returns true,
     {| etc1s_base := (true, false) : basisu_lowlevel_etc1s_transcoder stub;
        m_state := tt : basisu_transcoder_state stub |})
  /\ decode_tables false stub [x03]
       {| etc1s_base := (true, false) : basisu_lowlevel_etc1s_transcoder stub;
          m_state := tt : basisu_transcoder_state stub |}
     = (Returns true,
        {| etc1s_base := (true, true) : basisu_lowlevel_etc1s_transcoder stub;
           m_state := tt : basisu_transcoder_state stub |}).
Proof.
  split.
  - apply (proj1 (proj2 (proj2 (decoders_forward_and_keep_the_video_state false stub
                                  {| etc1s_base :=
                                       (false, false) : basisu_lowlevel_etc1s_transcoder stub;
                                     m_state := tt : basisu_transcoder_state stub |}
                                  4 4 [x01] [x02] [x03]))));
      discriminate.
  - apply (proj2 (proj2 (proj2 (decoders_forward_and_keep_the_video_state false stub
                                  {| etc1s_base :=
                                       (true, false) : basisu_lowlevel_etc1s_transcoder stub;
                                     m_state := tt : basisu_transcoder_state stub |}
                                  4 4 [x01] [x02] [x03]))));
      discriminate.
Defined.

(** ** A low-level transcoder constructed before basis_init *)

(** X15. [transcode_image] tests [g_pGlobal_codebook] at the time of the
    call, not what the object was constructed with. A
    [lowlevel_etc1s_image_transcoder] constructed before [basis_init] holds a
    base transcoder built for a null codebook; [transcode_image] on it fails
    without touching anything as long as [basis_init] has not run, and once
    it has run the call is no longer refused: with data and an output array
    that are not empty, it runs the transcoder of the library on that base,
    and, the store of that run staying inside the vector it was handed, the
    result of the call and the output array are that run's. *)
Theorem session_built_before_basis_init
    (NDEBUG E : bool) (T : basist) (g : globals T) (args : etc1s_image_args T)
    (compressed_data output_blocks : jsbuffer) :
  g_pGlobal_codebook g = None ->
  let session := lowlevel_etc1s_image_transcoder_new T g in
  let w := {| e_self := session; e_output_blocks := output_blocks |} in
  let len := byteLength output_blocks in
  let call :=
    etc1s_transcode_image T (new_lowlevel_etc1s T None) (new_transcoder_state T) args
      (zeros len) compressed_data in
  let written := snd (fst (fst call)) in
  etc1s_base session = new_lowlevel_etc1s T None
  /\ transcode_image NDEBUG T g args compressed_data w
     = (if NDEBUG then Returns false else Aborts "0", w)
  /\ (compressed_data <> [] -> output_blocks <> [] ->
      stays_inside (zeros len) written ->
      transcode_image NDEBUG T (basis_init E T g) args compressed_data w
      = if fst (fst (fst call))
        then (Returns true,
              {| e_self := {| etc1s_base := snd (fst call); m_state := snd call |};
                 e_output_blocks := written ++ zeros (len - size written) |})
        else (if NDEBUG then Returns false else Aborts "0",
              {| e_self := {| etc1s_base := snd (fst call); m_state := snd call |};
                 e_output_blocks := output_blocks |})).
Proof.
  intros Hnull session w len call written. subst written call len w session.
  unfold lowlevel_etc1s_image_transcoder_new. rewrite Hnull. cbn [etc1s_base].
  split; [reflexivity |]. split.
  - unfold transcode_image. rewrite Hnull. run_monad. destruct NDEBUG; reflexivity.
  - intros Hc Ho. unfold transcode_image, basis_init. rewrite Hnull.
    cbn [g_pGlobal_codebook].
    rewrite copy_from_jsbuffer_id.
    destruct (size compressed_data =? 0) eqn:Ec;
      [apply size_zero_iff in Ec; contradiction |].
    run_monad. cbn [e_output_blocks e_self].
    destruct (byteLength output_blocks =? 0) eqn:Eo;
      [apply size_zero_iff in Eo; contradiction |].
    unfold call_etc1s_transcode_image. cbn [e_output_blocks e_self etc1s_base m_state].
    destruct (etc1s_transcode_image T _ _ _ _ _) as [[[status written] base] state].
    cbn [fst snd]. intros Hinside.
    destruct status; cbn [negb].
    + unfold on_part. cbn [e_output_blocks e_self].
      rewrite (copy_to_jsbuffer_same_length NDEBUG _ output_blocks Ho
                 (temp_output_blocks_size _ _)).
      rewrite poke_zeros_inside by exact Hinside.
      reflexivity.
    + run_monad. destruct NDEBUG; reflexivity.
Qed.

(** The test double: refused before [basis_init], and run (to a failure, no
    palettes being loaded) after it. *)
Lemma session_built_before_basis_init_witness :
  transcode_image true stub {| g_pGlobal_codebook := None; g_lib := false : lib_globals stub |}
    (1 : etc1s_image_args stub) [x01]
    {| e_self :=
         lowlevel_etc1s_image_transcoder_new stub
           {| g_pGlobal_codebook := None; g_lib := false : lib_globals stub |};
       e_output_blocks := repeat x55 8 |}
  = (Returns false,
     {| e_self :=
          lowlevel_etc1s_image_transcoder_new stub
            {| g_pGlobal_codebook := None; g_lib := false : lib_globals stub |};
        e_output_blocks := repeat x55 8 |})
  /\ fst (transcode_image true stub
            (basis_init false stub
               {| g_pGlobal_codebook := None; g_lib := false : lib_globals stub |})
            (1 : etc1s_image_args stub) [x01]
            {| e_self :=
                 lowlevel_etc1s_image_transcoder_new stub
                   {| g_pGlobal_codebook := None; g_lib := false : lib_globals stub |};
               e_output_blocks := repeat x55 8 |})
     = Returns false.
Proof.
  destruct (session_built_before_basis_init true false stub
              {| g_pGlobal_codebook := None; g_lib := false : lib_globals stub |}
              (1 : etc1s_image_args stub) [x01] (repeat x55 8) eq_refl)
    as (_ & Hbefore & Hafter).
  split; [exact Hbefore |].
  rewrite (Hafter ltac:(discriminate) ltac:(discriminate) ltac:(discriminate)). reflexivity.
Defined.

(** ** The encoder: set_slice_source_image *)

Lemma vector_set_length {A : Type} (v : list A) (i : nat) (x : A) :
  length (vector_set v i x) = length v.
Proof.
  revert i. induction v as [| y v IH]; intros [| i]; cbn; auto.
Qed.

Lemma vector_set_same {A : Type} (v : list A) (i : nat) (x : A) :
  (i < length v)%nat -> nth_error (vector_set v i x) i = Some x.
Proof.
  revert i. induction v as [| y v IH]; intros [| i] H; cbn in *; try lia; auto.
  apply IH. lia.
Qed.

Lemma vector_set_other {A : Type} (v : list A) (i j : nat) (x d : A) :
  j <> i -> nth j (vector_set v i x) d = nth j v d.
Proof.
  revert i j. induction v as [| y v IH]; intros [| i] [| j] H; cbn; auto; try lia.
Qed.

(** Growing a vector keeps its elements and appends default ones. *)
Lemma vector_resize_grows {A : Type} (d : A) (n : Z) (v : list A) :
  Z.of_nat (length v) <= n ->
  vector_resize d n v = v ++ repeat d (Z.to_nat n - length v).
Proof.
  intros H. unfold vector_resize. rewrite firstn_all2 by lia. reflexivity.
Qed.

Lemma nth_app_repeat {A : Type} (d : A) (v : list A) (k j : nat) :
  nth j (v ++ repeat d k) d = nth j v d.
Proof.
  destruct (Nat.lt_ge_cases j (length v)) as [H | H].
  - now rewrite app_nth1.
  - rewrite app_nth2 by lia. rewrite nth_repeat. now rewrite nth_overflow.
Qed.

Section SliceVector.

Variables (T : basist) (E : basisu T).
Variables (images : list (image E)) (slice_index : Z).
Hypothesis Hindex : 0 <= slice_index < 2 ^ 32 - 1.

Lemma resize_for_slice_length :
  length (resize_for_slice T E slice_index images)
  = Nat.max (length images) (S (Z.to_nat slice_index)).
Proof.
  unfold resize_for_slice.
  destruct (Z.leb_spec (Z.of_nat (length images)) slice_index).
  - rewrite u32_small by lia. rewrite vector_resize_grows by lia.
    rewrite length_app, repeat_length. lia.
  - lia.
Qed.

Lemma resize_for_slice_nth (j : nat) :
  nth j (resize_for_slice T E slice_index images) (new_image E)
  = nth j images (new_image E).
Proof.
  unfold resize_for_slice.
  destruct (Z.leb_spec (Z.of_nat (length images)) slice_index).
  - rewrite u32_small by lia. rewrite vector_resize_grows by lia. apply nth_app_repeat.
  - reflexivity.
Qed.

Lemma resize_for_slice_has_the_slice :
  nth_error (resize_for_slice T E slice_index images) (Z.to_nat slice_index)
  = Some (nth (Z.to_nat slice_index) images (new_image E)).
Proof.
  rewrite <- resize_for_slice_nth. apply nth_error_nth'.
  rewrite resize_for_slice_length. lia.
Qed.

End SliceVector.

(** X16. For a raw (not PNG) source image and a slice index below 2^32 - 1,
    [set_slice_source_image] returns [true] exactly when the array holds
    [width * height * 4] bytes, the product taken modulo 2^32. If so, the
    slice becomes the image it was (a default image when the slice is new),
    resized to [width] x [height] and overwritten with all the bytes of the
    array; if not, the image of the slice is left as it was. *)
Theorem raw_image_is_taken_iff_its_size_matches
    (T : basist) (E : basisu T) (self : basis_encoder T E) (slice_index : Z)
    (src_image_js_val : jsbuffer) (src_image_width src_image_height : Z) :
  0 <= slice_index < 2 ^ 32 - 1 ->
  let old := nth (Z.to_nat slice_index) (m_source_images (m_params self)) (new_image E) in
  let fits := size src_image_js_val =? u32 (src_image_width * src_image_height * 4) in
  exists self',
    set_slice_source_image T E slice_index src_image_js_val
      src_image_width src_image_height false self
    = Some (fits, self')
    /\ nth_error (m_source_images (m_params self')) (Z.to_nat slice_index)
       = Some (if fits
               then store_at_get_ptr E
                      (image_resize E old src_image_width src_image_height)
                      src_image_js_val
               else old).
Proof.
  intros Hindex old fits. subst old fits.
  unfold set_slice_source_image. cbv zeta.
  rewrite (resize_for_slice_has_the_slice T E _ slice_index Hindex).
  rewrite copy_from_jsbuffer_id, u32_mul_idemp_l.
  destruct (size src_image_js_val =? u32 (src_image_width * src_image_height * 4))
    eqn:Efits;
    cbn [negb]; eexists; (split; [reflexivity |]);
    cbn [m_params with_source_images m_source_images].
  - rewrite vector_set_same.
    + do 2 f_equal. apply firstn_all2.
      apply Z.eqb_eq in Efits. unfold size in Efits. lia.
    + rewrite resize_for_slice_length by assumption. lia.
  - apply resize_for_slice_has_the_slice. assumption.
Qed.

(** A raw 2 x 1 image of 8 bytes as slice 0 of an encoder without images. *)
Lemma raw_image_is_taken_iff_its_size_matches_witness :
  exists self',
    set_slice_source_image stub enc_stub 0 [x01; x02; x03; x04; x05; x06; x07; x08] 2 1 false
      (stub_encoder [])
    = Some (true, self')
    /\ nth_error (m_source_images (m_params self')) 0
       = Some (2, 1, [x01; x02; x03; x04; x05; x06; x07; x08]).
Proof.
  apply (raw_image_is_taken_iff_its_size_matches stub enc_stub (stub_encoder [])
           0 [x01; x02; x03; x04; x05; x06; x07; x08] 2 1).
  lia.
Defined.

(** X17. [set_slice_source_image] with a slice index below 2^32 - 1, for
    raw and for PNG input, accepted or rejected: the vector of source images
    ends with as many images as it had or [slice_index + 1], whichever is
    more (a rejected image has grown it too), every slice but [slice_index]
    holds what it held, new slices in between hold default images, and no
    other parameter of the encoder changes. For PNG input the declared width
    and height do not matter. With the slice index 2^32 - 1 and no more
    images than that, the call has no defined behaviour: the vector is
    resized to no images and then indexed past its end. *)
Theorem set_slice_source_image_touches_one_slice
    (T : basist) (E : basisu T) (self : basis_encoder T E) (slice_index : Z)
    (src_image_js_val : jsbuffer) (src_image_width src_image_height : Z)
    (src_image_is_png : bool) :
  0 <= slice_index < 2 ^ 32 ->
  let images := m_source_images (m_params self) in
  let call :=
    set_slice_source_image T E slice_index src_image_js_val
      src_image_width src_image_height src_image_is_png self in
  (slice_index < 2 ^ 32 - 1 ->
   exists ok self',
     call = Some (ok, self')
     /\ length (m_source_images (m_params self'))
        = Nat.max (length images) (S (Z.to_nat slice_index))
     /\ (forall j, j <> Z.to_nat slice_index ->
           nth j (m_source_images (m_params self')) (new_image E)
           = nth j images (new_image E))
     /\ with_source_images T E images (m_params self') = m_params self)
  /\ (src_image_is_png = true ->
      forall width height,
        set_slice_source_image T E slice_index src_image_js_val width height true self
        = call)
  /\ (slice_index = 2 ^ 32 - 1 -> Z.of_nat (length images) <= slice_index ->
      call = None).
Proof.
  intros Hrange images call. subst call images. split; [| split].
  - intros Hlt. assert (Hindex : 0 <= slice_index < 2 ^ 32 - 1) by lia.
    pose proof (resize_for_slice_has_the_slice T E (m_source_images (m_params self))
                  slice_index Hindex) as Hslice.
    pose proof (resize_for_slice_length T E (m_source_images (m_params self))
                  slice_index Hindex) as Hlen.
    pose proof (resize_for_slice_nth T E (m_source_images (m_params self))
                  slice_index Hindex) as Hnth.
    unfold set_slice_source_image. cbv zeta. rewrite Hslice.
    assert (Hparams : forall images',
               with_source_images T E (m_source_images (m_params self))
                 (with_source_images T E images' (m_params self))
               = m_params self).
    { intros images'. destruct (m_params self). reflexivity. }
    destruct src_image_is_png.
    + destruct (load_png E _ _) as [ok src_img].
      exists ok. eexists. split; [destruct ok; reflexivity |].
      cbn [m_params with_source_images m_source_images].
      rewrite vector_set_length. repeat split.
      * exact Hlen.
      * intros j Hj. rewrite vector_set_other by assumption. apply Hnth.
      * apply Hparams.
    + destruct (negb _); eexists; eexists; (split; [reflexivity |]);
        cbn [m_params with_source_images m_source_images];
        rewrite ?vector_set_length; repeat split;
        try exact Hlen; try apply Hparams;
        intros j Hj; rewrite ?vector_set_other by assumption; apply Hnth.
  - intros -> width height. reflexivity.
  - intros -> Hlen. unfold set_slice_source_image, resize_for_slice. cbv zeta.
    destruct (Z.leb_spec (Z.of_nat (length (m_source_images (m_params self))))
                (2 ^ 32 - 1)); [| lia].
    reflexivity.
Qed.

(** A raw 1 x 1 image as slice 2 of an encoder that has one image: three
    images afterwards. *)
Lemma set_slice_source_image_touches_one_slice_witness :
  exists ok self',
    set_slice_source_image stub enc_stub 2 [x01; x02; x03; x04] 1 1 false
      (stub_encoder [(1, 1, [x09; x09; x09; x09])])
    = Some (ok, self')
    /\ length (m_source_images (m_params self')) = 3%nat.
Proof.
  destruct (proj1 (set_slice_source_image_touches_one_slice stub enc_stub
                     (stub_encoder [(1, 1, [x09; x09; x09; x09])])
                     2 [x01; x02; x03; x04] 1 1 false ltac:(lia)) ltac:(lia))
    as (ok & self' & Hcall & Hlen & _).
  exists ok, self'. split; [exact Hcall | exact Hlen].
Defined.

(** ** The encoder: encode *)

(** X18. [encode] is all or nothing on the destination array. It returns
    the size of the file, with the file at the front of the array and the
    bytes of the array after it kept, exactly when [basis_init] has run, the
    compressor accepts the parameters ([init]), [process] ends in
    [cECSuccess], and the file it produced is neither empty nor longer than
    the array. In every other case the array is left as it was and the call
    returns 0 or stops at an [assert(0)]. Before [basis_init] nothing at all
    is changed. *)
Theorem encode_is_all_or_nothing
    (NDEBUG : bool) (T : basist) (E : basisu T) (g : globals T)
    (w : encoder_world T E) :
  let params :=
    encode_params T E (new_job_pool E 1) (new_codebook T) (m_params (enc_self w)) in
  let init := compressor_init E (new_compressor E) params in
  let process := compressor_process E (snd init) in
  let file := get_output_basis_file E (snd process) in
  let r := encode NDEBUG T E g w in
  (g_pGlobal_codebook g <> None /\ fst init = true /\ fst process = cECSuccess E
   /\ file <> [] /\ size file <= byteLength (enc_dst w) ->
   r = (Returns (u32 (size file)),
        {| enc_self := {| m_params := params |};
           enc_dst := file ++ skipn (length file) (enc_dst w) |}))
  /\ (~ (g_pGlobal_codebook g <> None /\ fst init = true /\ fst process = cECSuccess E
         /\ file <> [] /\ size file <= byteLength (enc_dst w)) ->
      enc_dst (snd r) = enc_dst w /\ (fst r = Returns 0 \/ fst r = Aborts "0"))
  /\ (g_pGlobal_codebook g = None ->
      r = (if NDEBUG then Returns 0 else Aborts "0", w)).
Proof.
  intros params init process file r. subst r file process init params.
  unfold encode.
  destruct (g_pGlobal_codebook g) as [c |].
  2: { run_monad. repeat split.
       - intros [H _]. contradiction.
       - destruct NDEBUG; reflexivity.
       - destruct NDEBUG; cbn; auto.
       - destruct NDEBUG; reflexivity. }
  run_monad.
  set (params := encode_params T E (new_job_pool E 1) (new_codebook T)
                   (m_params (enc_self w))).
  destruct (compressor_init E (new_compressor E) params) as [ok comp].
  cbn [fst snd].
  destruct ok; cbn [negb].
  2: { run_monad. cbn. repeat split; try discriminate; auto.
       intros (_ & H & _). discriminate. }
  destruct (compressor_process E comp) as [ec comp'].
  cbn [fst snd].
  destruct (Z.eqb_spec ec (cECSuccess E)) as [Hec | Hec]; cbn [negb].
  2: { run_monad. cbn. repeat split; try discriminate; auto.
       intros (_ & _ & H & _). contradiction. }
  unfold on_part. cbn [enc_dst enc_self].
  set (file := get_output_basis_file E comp').
  split; [| split; [| discriminate]].
  - intros (_ & _ & _ & Hne & Hfit).
    rewrite copy_to_jsbuffer_copies by assumption. reflexivity.
  - intros Hno.
    destruct (size file =? 0) eqn:Efile.
    + apply size_zero_iff in Efile. rewrite Efile.
      rewrite copy_to_jsbuffer_empty_source. cbn. auto.
    + destruct (Z.lt_ge_cases (byteLength (enc_dst w)) (size file)) as [Hsmall | Hfit].
      * rewrite copy_to_jsbuffer_small_destination by assumption.
        destruct NDEBUG; cbn; auto.
      * exfalso. apply Hno. repeat split; try discriminate; try lia.
        intros Hnil. rewrite Hnil in Efile. discriminate.
Qed.

(** The test double: one 7 x 9 source image, a file of five bytes into an
    array of six; and the same into an array of four, with assertions
    compiled out. *)
Lemma encode_is_all_or_nothing_witness :
  (fst (encode false stub enc_stub
          (basis_init false stub stub_start)
          {| enc_self := stub_encoder [(7, 9, [])]; enc_dst := repeat x55 6 |})
   = Returns 5
   /\ enc_dst (snd (encode false stub enc_stub
                      (basis_init false stub stub_start)
                      {| enc_self := stub_encoder [(7, 9, [])]; enc_dst := repeat x55 6 |}))
      = [x00; x00; x07; x00; x09; x55])
  /\ (fst (encode true stub enc_stub
             (basis_init false stub stub_start)
             {| enc_self := stub_encoder [(7, 9, [])]; enc_dst := repeat x55 4 |})
      = Returns 0
      /\ enc_dst (snd (encode true stub enc_stub
                         (basis_init false stub stub_start)
                         {| enc_self := stub_encoder [(7, 9, [])];
                            enc_dst := repeat x55 4 |}))
         = repeat x55 4).
Proof.
  split.
  - rewrite (proj1 (encode_is_all_or_nothing false stub enc_stub
                      (basis_init false stub stub_start)
                      {| enc_self := stub_encoder [(7, 9, [])];
                         enc_dst := repeat x55 6 |})).
    + split; reflexivity.
    + repeat split; discriminate.
  - destruct (proj1 (proj2 (encode_is_all_or_nothing true stub enc_stub
                              (basis_init false stub stub_start)
                              {| enc_self := stub_encoder [(7, 9, [])];
                                 enc_dst := repeat x55 4 |})))
      as [Hdst Hret].
    + intros (_ & _ & _ & _ & Hfit). cbn in Hfit. lia.
    + split; [| exact Hdst].
      destruct Hret as [H | H]; [exact H |].
      cbn in H. discriminate.
Defined.

(** X19. [encode] can be called again: it keeps the source images, the
    debug flag and all the parameters it does not set itself, and a second
    call on the object the first call left, with the destination array as it
    was before, does exactly what the first call did and leaves the same
    object and the same array. *)
Theorem encode_is_repeatable
    (NDEBUG : bool) (T : basist) (E : basisu T) (g : globals T)
    (w : encoder_world T E) :
  let after := snd (encode NDEBUG T E g w) in
  encode NDEBUG T E g {| enc_self := enc_self after; enc_dst := enc_dst w |}
  = encode NDEBUG T E g w
  /\ m_source_images (m_params (enc_self after)) = m_source_images (m_params (enc_self w))
  /\ m_debug (m_params (enc_self after)) = m_debug (m_params (enc_self w))
  /\ m_others (m_params (enc_self after)) = m_others (m_params (enc_self w)).
Proof.
  intros after. subst after. unfold encode.
  destruct (g_pGlobal_codebook g) as [c |].
  2: { run_monad. destruct NDEBUG; cbn; destruct w; repeat split. }
  run_monad.
  set (params := encode_params T E (new_job_pool E 1) (new_codebook T)
                   (m_params (enc_self w))).
  destruct (compressor_init E (new_compressor E) params) as [ok comp] eqn:Einit.
  destruct ok; cbn [negb].
  2: { run_monad. cbn [snd enc_self enc_dst m_params].
       change (encode_params T E (new_job_pool E 1) (new_codebook T) params) with params.
       rewrite Einit. cbn. repeat split. }
  destruct (compressor_process E comp) as [ec comp'] eqn:Eproc.
  destruct (negb (ec =? cECSuccess E)) eqn:Eec.
  { run_monad. cbn [snd enc_self enc_dst m_params].
    change (encode_params T E (new_job_pool E 1) (new_codebook T) params) with params.
    rewrite Einit. cbn [negb]. rewrite Eproc, Eec. cbn. repeat split. }
  unfold on_part. cbn [enc_dst enc_self].
  destruct (copy_to_jsbuffer NDEBUG (get_output_basis_file E comp') (enc_dst w))
    as [o b] eqn:Ecopy.
  destruct o as [[|] | e | x]; run_monad;
    cbn [negb snd enc_self enc_dst m_params];
    change (encode_params T E (new_job_pool E 1) (new_codebook T) params) with params;
    rewrite Einit; cbn [negb]; rewrite Eproc, Eec; cbn [enc_dst enc_self];
    rewrite Ecopy; cbn; repeat split.
Qed.
